(** * MCP Gateway: registry, router and gateway API

    A shallow embedding of [services/mcp-gateway/src/registry.py],
    [router.py] and [main.py].

    - Python dicts are insertion-ordered association lists ([Dict]).
    - JSON-like values ([Dict[str, Any]], [Any]) are the type [json].
    - [async def] bodies are terms of a small free monad [Co]: reads and
      writes of the objects' attributes, the clock, [uuid4], the process
      environment, and the awaited network operations (Redis, HTTP) are
      events; [raise] is [Throw], [try/except] is [try_except].
    - [run] executes one coroutine to completion against an [Oracle] that
      answers the external events; [gather] interleaves several coroutines
      the way [asyncio.gather] does, switching only at network awaits.
    - Calls to [logger] have no effect on any value and are left out. *)

From Stdlib Require Import ZArith List String Bool Lia.
Import ListNotations.
Open Scope string_scope.
Open Scope Z_scope.

(* ------------------------------------------------------------------ *)
(** ** Python values *)

(** JSON-decoded values.  Numbers are kept as integers: no operation of
    the gateway computes with them. *)
#[warnings="-register-all"]
Inductive json : Type :=
| JNull
| JBool (b : bool)
| JNum (z : Z)
| JStr (s : string)
| JList (l : list json)
| JObj (d : list (string * json)).

(** Python truthiness of an [Optional[str]]. *)
Definition truthy (s : option string) : bool :=
  match s with
  | Some s => negb (s =? "")%string
  | None => false
  end.

(** [a or b] for an [Optional[str]] [a] and a [str] [b]. *)
Definition or_else (a : option string) (b : string) : string :=
  match a with
  | Some s => if (s =? "")%string then b else s
  | None => b
  end.

(** [x or []] and [x or {}] for an optional list argument. *)
Definition or_empty {A : Type} (x : option (list A)) : list A :=
  match x with
  | Some l => l
  | None => []
  end.

(** Insertion-ordered dictionaries with string keys. *)
Module Dict.
Section Defs.
Variable V : Type.

Definition t := list (string * V).

Definition keys (d : t) : list string := map fst d.
Definition values (d : t) : list V := map snd d.

(** [d.get(k)] *)
Fixpoint get (k : string) (d : t) : option V :=
  match d with
  | [] => None
  | (k', v) :: d' => if (k' =? k)%string then Some v else get k d'
  end.

(** [k in d] *)
Definition mem (k : string) (d : t) : bool :=
  match get k d with
  | Some _ => true
  | None => false
  end.

(** [d.get(k, default)] *)
Definition get_default (k : string) (default : V) (d : t) : V :=
  match get k d with
  | Some v => v
  | None => default
  end.

(** [d[k] = v]: an existing key keeps its position, a new key goes last. *)
Fixpoint set (k : string) (v : V) (d : t) : t :=
  match d with
  | [] => [(k, v)]
  | (k', v') :: d' =>
      if (k' =? k)%string then (k', v) :: d' else (k', v') :: set k v d'
  end.

(** [del d[k]] *)
Fixpoint remove (k : string) (d : t) : t :=
  match d with
  | [] => []
  | (k', v') :: d' =>
      if (k' =? k)%string then d' else (k', v') :: remove k d'
  end.

(** In-place mutation of the object stored under [k]. *)
Fixpoint modify (k : string) (f : V -> V) (d : t) : t :=
  match d with
  | [] => []
  | (k', v') :: d' =>
      if (k' =? k)%string then (k', f v') :: d' else (k', v') :: modify k f d'
  end.

(** [{**d, **d2}]: the entries of [d2] are written over [d] in order. *)
Definition update (d d2 : t) : t :=
  fold_left (fun acc kv => set (fst kv) (snd kv) acc) d2 d.

(** A Python dict never holds one key twice. *)
Definition wf (d : t) : Prop := NoDup (keys d).
End Defs.
Arguments get {V}.
Arguments mem {V}.
Arguments get_default {V}.
Arguments set {V}.
Arguments remove {V}.
Arguments modify {V}.
Arguments update {V}.
Arguments keys {V}.
Arguments values {V}.
Arguments wf {V}.
End Dict.

(* ------------------------------------------------------------------ *)
(** ** HTTP *)

(** An [httpx.Response]: [json_body = None] when the body does not parse
    as JSON. *)
Record Response : Type := {
  status_code : Z;
  json_body : option json;
  elapsed_ms : Z
}.

(** What awaiting [client.post] / [client.get] produces. *)
Inductive http_outcome : Type :=
| Responded (r : Response)
| ConnectFailed (msg : string)      (* raises httpx.ConnectError *)
| TimedOut (msg : string)           (* raises httpx.TimeoutException *)
| Failed (msg : string).            (* raises some other exception *)

(** Library functions whose text output is not computed here:
    [datetime.isoformat], [str] of a JSON value that is not a string, the
    message [httpx] builds for an [HTTPStatusError] from the response and
    the request URL, the message of the error [response.json()] raises
    for a body that does not parse, and the message of the [TypeError]
    the interpreter raises when a value is searched or indexed with a
    string it does not support. *)
Record PyLib : Type := {
  isoformat : Z -> string;
  repr : json -> string;
  status_error_message : Response -> string -> string;
  decode_error_message : Response -> string;
  type_error_message : json -> string
}.

(** [str(x)] for a JSON value. *)
Definition py_str (lib : PyLib) (x : json) : string :=
  match x with
  | JStr s => s
  | _ => repr lib x
  end.

(* ------------------------------------------------------------------ *)
(** ** Exceptions *)

Inductive exn : Type :=
| ValueError (msg : string)
| HTTPStatusError (status_code : Z) (msg : string)   (* httpx.HTTPStatusError *)
| ConnectError (msg : string)                        (* httpx.ConnectError *)
| TimeoutException (msg : string)                    (* httpx.TimeoutException *)
| JSONDecodeError (msg : string)
| TypeError (msg : string)
| AttributeError (msg : string)
| RedisError (msg : string)
| OtherException (msg : string).

(** [str(e)] *)
Definition str_exn (e : exn) : string :=
  match e with
  | ValueError m | HTTPStatusError _ m | ConnectError m | TimeoutException m
  | JSONDecodeError m | TypeError m | AttributeError m | RedisError m
  | OtherException m => m
  end.

Inductive result (A : Type) : Type :=
| Ok (a : A)
| Err (e : exn).
Arguments Ok {A}.
Arguments Err {A}.

(* ------------------------------------------------------------------ *)
(** ** MCPServerInfo *)

Module MCPServerInfo.
Record t : Type := {
  name : string;
  version : string;
  description : string;
  endpoint : string;
  transport : string;
  tools : list (Dict.t json);
  resources : list (Dict.t json);
  metadata : Dict.t json;
  status : string;
  last_health_check : Z;
  registered_at : Z
  }.

(** [server.status = s] *)
Definition set_status (s : string) (server : t) : t :=
  {| name := name server; version := version server;
     description := description server; endpoint := endpoint server;
     transport := transport server; tools := tools server;
     resources := resources server; metadata := metadata server;
     status := s;
     last_health_check := last_health_check server;
     registered_at := registered_at server |}.

(** [server.last_health_check = now] *)
Definition set_last_health_check (now : Z) (server : t) : t :=
  {| name := name server; version := version server;
     description := description server; endpoint := endpoint server;
     transport := transport server; tools := tools server;
     resources := resources server; metadata := metadata server;
     status := status server;
     last_health_check := now;
     registered_at := registered_at server |}.

Definition to_dict (lib : PyLib) (self : t) : Dict.t json :=
  [ ("name", JStr (name self));
    ("version", JStr (version self));
    ("description", JStr (description self));
    ("endpoint", JStr (endpoint self));
    ("transport", JStr (transport self));
    ("tools", JList (map JObj (tools self)));
    ("resources", JList (map JObj (resources self)));
    ("metadata", JObj (metadata self));
    ("status", JStr (status self));
    ("last_health_check", JStr (isoformat lib (last_health_check self)));
    ("registered_at", JStr (isoformat lib (registered_at self))) ].
End MCPServerInfo.

(* ------------------------------------------------------------------ *)
(** ** Coroutines *)

(** The attributes of the module-level [registry] and [router] objects:
    [registry.servers], [registry._redis] (the URL of the cached client)
    and whether [router._http_client] has been created. *)
Record Heap : Type := {
  servers : Dict.t MCPServerInfo.t;
  _redis : option string;
  _http_client : bool
}.

Definition with_servers (d : Dict.t MCPServerInfo.t) (h : Heap) : Heap :=
  {| servers := d; _redis := _redis h; _http_client := _http_client h |}.
Definition with_redis (r : option string) (h : Heap) : Heap :=
  {| servers := servers h; _redis := r; _http_client := _http_client h |}.
Definition with_http_client (c : bool) (h : Heap) : Heap :=
  {| servers := servers h; _redis := _redis h; _http_client := c |}.

(** Events.  [RedisPing], [RedisHset], [RedisHdel], [HttpPost] and
    [HttpGet] are awaited network operations: the running coroutine is
    suspended there.  A Redis operation answers [None] on success and
    [Some msg] when it raises. *)
Inductive Eff : Type -> Type :=
| Load : Eff Heap
| Store (h : Heap) : Eff unit
| UtcNow : Eff Z
| Uuid4 : Eff string
| Getenv (var : string) : Eff (option string)
| RedisFromUrl (url : string) : Eff (option string)
| RedisPing (url : string) : Eff (option string)
| RedisHset (key field : string) (value : Dict.t json) : Eff (option string)
| RedisHdel (key field : string) : Eff (option string)
| HttpPost (url : string) (body : json) : Eff http_outcome
| HttpGet (url : string) : Eff http_outcome.

Definition suspends {X : Type} (ev : Eff X) : bool :=
  match ev with
  | RedisPing _ | RedisHset _ _ _ | RedisHdel _ _ | HttpPost _ _ | HttpGet _ => true
  | _ => false
  end.

Inductive Co (A : Type) : Type :=
| Ret (a : A)
| Throw (e : exn)
| Vis (X : Type) (ev : Eff X) (k : X -> Co A).
Arguments Ret {A}.
Arguments Throw {A}.
Arguments Vis {A X}.

Fixpoint bind {A B : Type} (c : Co A) (f : A -> Co B) : Co B :=
  match c with
  | Ret a => f a
  | Throw e => Throw e
  | Vis ev k => Vis ev (fun x => bind (k x) f)
  end.

(** [try: c  except Exception as e: h e] *)
Fixpoint try_except {A : Type} (c : Co A) (h : exn -> Co A) : Co A :=
  match c with
  | Ret a => Ret a
  | Throw e => h e
  | Vis ev k => Vis ev (fun x => try_except (k x) h)
  end.

Definition trigger {X : Type} (ev : Eff X) : Co X := Vis ev Ret.

Declare Scope co_scope.
Delimit Scope co_scope with co.
Notation "x <- c ;; k" := (bind c (fun x => k))
  (at level 61, c at next level, right associativity) : co_scope.
Notation "c ;; k" := (bind c (fun _ => k))
  (at level 61, right associativity) : co_scope.
Open Scope co_scope.

(** A Redis operation that raises when the server answers with an error. *)
Definition redis_do (ev : Eff (option string)) : Co unit :=
  r <- trigger ev ;;
  match r with
  | None => Ret tt
  | Some msg => Throw (RedisError msg)
  end.

Definition raise_http {A : Type} (o : http_outcome) (k : Response -> Co A) : Co A :=
  match o with
  | Responded r => k r
  | ConnectFailed msg => Throw (ConnectError msg)
  | TimedOut msg => Throw (TimeoutException msg)
  | Failed msg => Throw (OtherException msg)
  end.

(** [await client.post(url, json=body)] *)
Definition client_post (url : string) (body : json) : Co Response :=
  o <- trigger (HttpPost url body) ;; raise_http o Ret.

(** [await client.get(url, timeout=5.0)] *)
Definition client_get (url : string) : Co Response :=
  o <- trigger (HttpGet url) ;; raise_http o Ret.

(** [response.raise_for_status()]: [httpx] raises for every status
    outside 200..299. *)
Definition raise_for_status (lib : PyLib) (url : string) (r : Response) : Co unit :=
  if (200 <=? status_code r) && (status_code r <=? 299) then Ret tt
  else Throw (HTTPStatusError (status_code r) (status_error_message lib r url)).

(** [response.json()] *)
Definition response_json (lib : PyLib) (r : Response) : Co json :=
  match json_body r with
  | Some j => Ret j
  | None => Throw (JSONDecodeError (decode_error_message lib r))
  end.

(* ------------------------------------------------------------------ *)
(** ** Running coroutines *)

(** Network operations issued so far, oldest first. *)
Inductive Event : Type :=
| Redis_from_url (url : string)
| Redis_ping (url : string)
| Redis_hset (key field : string) (value : Dict.t json)
| Redis_hdel (key field : string)
| Http_post (url : string) (body : json)
| Http_get (url : string).

(** The answers of the outside world.  The [n]-th consultation (clock
    reading, uuid, Redis or HTTP operation) gets the answer at index [n]. *)
Record Oracle : Type := {
  clock : nat -> Z;
  uuid : nat -> string;
  environ : string -> option string;
  redis_reply : nat -> option string;
  http_reply : nat -> http_outcome
}.

Record World : Type := {
  heap : Heap;
  tick : nat;
  trace : list Event
}.

Definition put_heap (h : Heap) (w : World) : World :=
  {| heap := h; tick := tick w; trace := trace w |}.
Definition consult (w : World) : World :=
  {| heap := heap w; tick := S (tick w); trace := trace w |}.
Definition issue (ev : Event) (w : World) : World :=
  {| heap := heap w; tick := S (tick w); trace := trace w ++ [ev] |}.

Definition handle (o : Oracle) {X : Type} (ev : Eff X) (w : World) : X * World :=
  match ev in Eff X return X * World with
  | Load => (heap w, w)
  | Store h => (tt, put_heap h w)
  | UtcNow => (clock o (tick w), consult w)
  | Uuid4 => (uuid o (tick w), consult w)
  | Getenv var => (environ o var, w)
  | RedisFromUrl url => (redis_reply o (tick w), issue (Redis_from_url url) w)
  | RedisPing url => (redis_reply o (tick w), issue (Redis_ping url) w)
  | RedisHset key field value =>
      (redis_reply o (tick w), issue (Redis_hset key field value) w)
  | RedisHdel key field => (redis_reply o (tick w), issue (Redis_hdel key field) w)
  | HttpPost url body => (http_reply o (tick w), issue (Http_post url body) w)
  | HttpGet url => (http_reply o (tick w), issue (Http_get url) w)
  end.

(** One coroutine awaited to completion. *)
Fixpoint run (o : Oracle) {A : Type} (c : Co A) (w : World) : result A * World :=
  match c with
  | Ret a => (Ok a, w)
  | Throw e => (Err e, w)
  | Vis ev k => let (x, w') := handle o ev w in run o (k x) w'
  end.

(** One scheduling slice: the coroutine runs up to and including its next
    network await, or to its end. *)
Fixpoint advance (o : Oracle) {A : Type} (c : Co A) (w : World) : Co A * World :=
  match c with
  | Vis ev k =>
      let (x, w') := handle o ev w in
      if suspends ev then (k x, w') else advance o (k x) w'
  | _ => (c, w)
  end.

Fixpoint start_all (o : Oracle) {A : Type} (pool : list (Co A)) (w : World)
  : list (Co A) * World :=
  match pool with
  | [] => ([], w)
  | c :: rest =>
      let (c', w1) := advance o c w in
      let (rest', w2) := start_all o rest w1 in
      (c' :: rest', w2)
  end.

Fixpoint advance_nth (o : Oracle) {A : Type} (i : nat) (pool : list (Co A)) (w : World)
  {struct pool} : list (Co A) * World :=
  match pool with
  | [] => ([], w)
  | c :: rest =>
      match i with
      | O => let (c', w') := advance o c w in (c' :: rest, w')
      | S i' => let (rest', w') := advance_nth o i' rest w in (c :: rest', w')
      end
  end.

Fixpoint resume (o : Oracle) {A : Type} (schedule : list nat) (pool : list (Co A))
  (w : World) : list (Co A) * World :=
  match schedule with
  | [] => (pool, w)
  | i :: schedule' =>
      let (pool', w') := advance_nth o i pool w in
      resume o schedule' pool' w'
  end.

Fixpoint finish_all (o : Oracle) {A : Type} (pool : list (Co A)) (w : World)
  : list (result A) * World :=
  match pool with
  | [] => ([], w)
  | c :: rest =>
      let (r, w1) := run o c w in
      let (rs, w2) := finish_all o rest w1 in
      (r :: rs, w2)
  end.

(** [asyncio.gather] over [tasks] with [return_exceptions=True].  Every task is
    started in order and runs to its first network await; then the tasks
    are resumed one slice at a time in the order [schedule] gives (the
    order in which the network answers arrive); tasks still unfinished
    when [schedule] ends are completed in task order.  The results come
    back in task order whatever the schedule. *)
Definition gather (o : Oracle) {A : Type} (schedule : list nat) (tasks : list (Co A))
  (w : World) : list (result A) * World :=
  let (p1, w1) := start_all o tasks w in
  let (p2, w2) := resume o schedule p1 w1 in
  finish_all o p2 w2.

(* ------------------------------------------------------------------ *)
(** ** More Python values *)

(** [needle in hay] for two [str]. *)
Fixpoint contains (needle hay : string) : bool :=
  if String.prefix needle hay then true
  else match hay with
       | EmptyString => false
       | String _ rest => contains needle rest
       end.

(** Python truthiness of a JSON value. *)
Definition json_truthy (v : json) : bool :=
  match v with
  | JNull => false
  | JBool b => b
  | JNum z => negb (z =? 0)
  | JStr s => negb (s =? "")%string
  | JList l => match l with [] => false | _ => true end
  | JObj d => match d with [] => false | _ => true end
  end.

(** [type(v).__name__] *)
Definition type_name (v : json) : string :=
  match v with
  | JNull => "NoneType"
  | JBool _ => "bool"
  | JNum _ => "int"
  | JStr _ => "str"
  | JList _ => "list"
  | JObj _ => "dict"
  end.

(** The message of the [AttributeError] for [v.attr]. *)
Definition no_attribute (v : json) (attr : string) : string :=
  "'" ++ type_name v ++ "' object has no attribute '" ++ attr ++ "'".

(** ["error" in l] for a list [l]. *)
Definition holds_error (l : list json) : bool :=
  existsb (fun x => match x with
                    | JStr s => (s =? "error")%string
                    | _ => false
                    end) l.

(** [v.lower()]: raises [AttributeError] unless [v] is a [str].  The case
    mapping itself is the parameter [lower]. *)
Definition lowered (lower : string -> string) (v : json) : Co string :=
  match v with
  | JStr s => Ret (lower s)
  | _ => Throw (AttributeError (no_attribute v "lower"))
  end.

(** [os.getenv(var, default)] *)
Definition getenv_default (var default : string) : Co string :=
  v <- trigger (Getenv var) ;;
  match v with
  | Some s => Ret s
  | None => Ret default
  end.

(* ------------------------------------------------------------------ *)
(** ** registry.py *)

(** [MCPServerInfo.__init__]: the clock is read twice. *)
Definition MCPServerInfo_init (name version description endpoint transport : string)
  (tools resources : option (list (Dict.t json))) (metadata : option (Dict.t json))
  : Co MCPServerInfo.t :=
  t1 <- trigger UtcNow ;;
  t2 <- trigger UtcNow ;;
  Ret {| MCPServerInfo.name := name;
         MCPServerInfo.version := version;
         MCPServerInfo.description := description;
         MCPServerInfo.endpoint := endpoint;
         MCPServerInfo.transport := transport;
         MCPServerInfo.tools := or_empty tools;
         MCPServerInfo.resources := or_empty resources;
         MCPServerInfo.metadata := or_empty metadata;
         MCPServerInfo.status := "available";
         MCPServerInfo.last_health_check := t1;
         MCPServerInfo.registered_at := t2 |}.

Module MCPRegistry.

(** [self.servers = f(self.servers)] *)
Definition modify_servers (f : Dict.t MCPServerInfo.t -> Dict.t MCPServerInfo.t)
  : Co unit :=
  h <- trigger Load ;; trigger (Store (with_servers (f (servers h)) h)).

(** [self._redis = r] *)
Definition set_redis (r : option string) : Co unit :=
  h <- trigger Load ;; trigger (Store (with_redis r h)).

Definition _get_redis : Co (option string) :=
  h <- trigger Load ;;
  match _redis h with
  | None =>
      redis_url <- trigger (Getenv "REDIS_URL") ;;
      match redis_url with
      | Some url =>
          if truthy redis_url then
            try_except
              (redis_do (RedisFromUrl url) ;;
               set_redis (Some url) ;;
               redis_do (RedisPing url))
              (fun _ => set_redis None)
          else Ret tt
      | None => Ret tt
      end
  | Some _ => Ret tt
  end ;;
  h' <- trigger Load ;;
  Ret (_redis h').

Definition register (lib : PyLib)
  (name version description endpoint transport : string)
  (tools resources : option (list (Dict.t json))) (metadata : option (Dict.t json))
  : Co MCPServerInfo.t :=
  server <- MCPServerInfo_init name version description endpoint transport
              tools resources metadata ;;
  modify_servers (Dict.set name server) ;;
  redis_client <- _get_redis ;;
  match redis_client with
  | Some _ =>
      redis_do (RedisHset "mcp:servers" name (MCPServerInfo.to_dict lib server))
  | None => Ret tt
  end ;;
  Ret server.

Definition unregister (name : string) : Co bool :=
  h <- trigger Load ;;
  if Dict.mem name (servers h) then
    modify_servers (Dict.remove name) ;;
    redis_client <- _get_redis ;;
    match redis_client with
    | Some _ => redis_do (RedisHdel "mcp:servers" name)
    | None => Ret tt
    end ;;
    Ret true
  else Ret false.

Definition get_server (lib : PyLib) (name : string) : Co (option (Dict.t json)) :=
  h <- trigger Load ;;
  match Dict.get name (servers h) with
  | Some server => Ret (Some (MCPServerInfo.to_dict lib server))
  | None => Ret None
  end.

Definition list_servers (lib : PyLib) : Co (list (Dict.t json)) :=
  h <- trigger Load ;;
  Ret (map (MCPServerInfo.to_dict lib) (Dict.values (servers h))).

(** [{"server": server.name, "server_status": server.status, **tool}] *)
Definition annotate (server : MCPServerInfo.t) (tool : Dict.t json) : Dict.t json :=
  Dict.update [ ("server", JStr (MCPServerInfo.name server));
                ("server_status", JStr (MCPServerInfo.status server)) ] tool.

(** The two nested loops of [list_all_tools]. *)
Definition all_tools_of (values : list MCPServerInfo.t) : list (Dict.t json) :=
  flat_map (fun server => map (annotate server) (MCPServerInfo.tools server)) values.

Definition list_all_tools : Co (list (Dict.t json)) :=
  h <- trigger Load ;;
  Ret (all_tools_of (Dict.values (servers h))).

(** [tool.get("name") == tool_name] *)
Definition tool_named (tool_name : string) (tool : Dict.t json) : bool :=
  match Dict.get "name" tool with
  | Some (JStr s) => (s =? tool_name)%string
  | _ => false
  end.

(** The two nested loops of [find_tool_server], with their early return. *)
Fixpoint first_server_with (tool_name : string) (values : list MCPServerInfo.t)
  : option string :=
  match values with
  | [] => None
  | server :: rest =>
      if existsb (tool_named tool_name) (MCPServerInfo.tools server)
      then Some (MCPServerInfo.name server)
      else first_server_with tool_name rest
  end.

Definition find_tool_server (tool_name : string) : Co (option string) :=
  h <- trigger Load ;;
  Ret (first_server_with tool_name (Dict.values (servers h))).

Definition update_server_status (name status : string) : Co bool :=
  h <- trigger Load ;;
  if Dict.mem name (servers h) then
    modify_servers (Dict.modify name (MCPServerInfo.set_status status)) ;;
    now <- trigger UtcNow ;;
    modify_servers (Dict.modify name (MCPServerInfo.set_last_health_check now)) ;;
    Ret true
  else Ret false.

(** [{"server": server.name, **entry}] *)
Definition with_server (server : MCPServerInfo.t) (entry : Dict.t json) : Dict.t json :=
  Dict.update [ ("server", JStr (MCPServerInfo.name server)) ] entry.

(** The two nested loops of [list_all_resources]. *)
Definition all_resources_of (values : list MCPServerInfo.t) : list (Dict.t json) :=
  flat_map (fun server => map (with_server server) (MCPServerInfo.resources server)) values.

Definition list_all_resources : Co (list (Dict.t json)) :=
  h <- trigger Load ;;
  Ret (all_resources_of (Dict.values (servers h))).

(** [category and server.metadata.get("category") != category] *)
Definition other_category (category : option string) (server : MCPServerInfo.t) : bool :=
  truthy category &&
  negb match Dict.get "category" (MCPServerInfo.metadata server) with
       | Some (JStr c) => (c =? or_else category "")%string
       | _ => false
       end.

(** The inner loop of [search_tools] over [server.tools]. *)
Fixpoint search_in_tools (lower : string -> string) (query_lower : string)
  (server : MCPServerInfo.t) (tools : list (Dict.t json)) (results : list (Dict.t json))
  : Co (list (Dict.t json)) :=
  match tools with
  | [] => Ret results
  | tool :: rest =>
      tool_name <- lowered lower (Dict.get_default "name" (JStr "") tool) ;;
      tool_desc <- lowered lower (Dict.get_default "description" (JStr "") tool) ;;
      if contains query_lower tool_name || contains query_lower tool_desc
      then search_in_tools lower query_lower server rest
             (results ++ [with_server server tool])
      else search_in_tools lower query_lower server rest results
  end.

(** The outer loop of [search_tools] over [self.servers.values()]. *)
Fixpoint search_in_servers (lower : string -> string) (query_lower : string)
  (category : option string) (values : list MCPServerInfo.t)
  (results : list (Dict.t json)) : Co (list (Dict.t json)) :=
  match values with
  | [] => Ret results
  | server :: rest =>
      if other_category category server
      then search_in_servers lower query_lower category rest results
      else
        results' <- search_in_tools lower query_lower server
                      (MCPServerInfo.tools server) results ;;
        search_in_servers lower query_lower category rest results'
  end.

Definition search_tools (lower : string -> string) (query : string)
  (category : option string) : Co (list (Dict.t json)) :=
  let query_lower := lower query in
  h <- trigger Load ;;
  search_in_servers lower query_lower category (Dict.values (servers h)) [].

(** One entry of [default_servers]: the keyword arguments of [register]. *)
Record server_config : Type := {
  cfg_name : string;
  cfg_version : string;
  cfg_description : string;
  cfg_endpoint : string;
  cfg_transport : string;
  cfg_tools : option (list (Dict.t json));
  cfg_resources : option (list (Dict.t json));
  cfg_metadata : option (Dict.t json)
}.

(** [{"name": name, "description": description}] *)
Definition tool_entry (name description : string) : Dict.t json :=
  [ ("name", JStr name); ("description", JStr description) ].

Definition integration : Dict.t json :=
  [ ("category", JStr "integration"); ("requires_auth", JBool true) ].

Definition infrastructure : Dict.t json :=
  [ ("category", JStr "infrastructure") ].

(** The [default_servers] list of [load_default_servers]; building it
    reads the eleven endpoint variables in order. *)
Definition default_servers : Co (list server_config) :=
  database <- getenv_default "DATABASE_MCP_URL" "http://localhost:8010" ;;
  github <- getenv_default "GITHUB_MCP_URL" "http://localhost:8011" ;;
  slack <- getenv_default "SLACK_MCP_URL" "http://localhost:8012" ;;
  teams <- getenv_default "TEAMS_MCP_URL" "http://localhost:8013" ;;
  gmail <- getenv_default "GMAIL_MCP_URL" "http://localhost:8014" ;;
  drive <- getenv_default "DRIVE_MCP_URL" "http://localhost:8015" ;;
  clickup <- getenv_default "CLICKUP_MCP_URL" "http://localhost:8016" ;;
  azure <- getenv_default "AZURE_DEVOPS_MCP_URL" "http://localhost:8017" ;;
  zoom <- getenv_default "ZOOM_MCP_URL" "http://localhost:8018" ;;
  neo4j <- getenv_default "NEO4J_MCP_URL" "http://localhost:8019" ;;
  chromadb <- getenv_default "CHROMADB_MCP_URL" "http://localhost:8020" ;;
  Ret
    [ {| cfg_name := "database-mcp"; cfg_version := "1.0.0";
         cfg_description := "Database operations MCP server";
         cfg_endpoint := database; cfg_transport := "http";
         cfg_tools := Some
           [ tool_entry "query_transcripts" "Query transcripts from database";
             tool_entry "get_transcript" "Get a specific transcript by ID";
             tool_entry "execute_sql" "Execute read-only SQL query";
             tool_entry "list_audio_files" "List audio files" ];
         cfg_resources := Some
           [ [ ("uri", JStr "db://schemas"); ("name", JStr "Database Schemas") ] ];
         cfg_metadata := Some infrastructure |};
      {| cfg_name := "github-mcp"; cfg_version := "1.0.0";
         cfg_description := "GitHub integration MCP server";
         cfg_endpoint := github; cfg_transport := "http";
         cfg_tools := Some
           [ tool_entry "create_issue" "Create a GitHub issue";
             tool_entry "list_issues" "List GitHub issues";
             tool_entry "list_pull_requests" "List pull requests";
             tool_entry "search_code" "Search code in repositories" ];
         cfg_resources := None;
         cfg_metadata := Some integration |};
      {| cfg_name := "slack-mcp"; cfg_version := "1.0.0";
         cfg_description := "Slack integration MCP server";
         cfg_endpoint := slack; cfg_transport := "http";
         cfg_tools := Some
           [ tool_entry "send_message" "Send a Slack message";
             tool_entry "list_channels" "List Slack channels";
             tool_entry "get_channel_history" "Get channel message history";
             tool_entry "search_messages" "Search Slack messages" ];
         cfg_resources := None;
         cfg_metadata := Some integration |};
      {| cfg_name := "teams-mcp"; cfg_version := "1.0.0";
         cfg_description := "Microsoft Teams integration MCP server";
         cfg_endpoint := teams; cfg_transport := "http";
         cfg_tools := Some
           [ tool_entry "send_channel_message" "Send a Teams channel message";
             tool_entry "list_teams" "List Teams";
             tool_entry "list_channels" "List channels in a team";
             tool_entry "get_channel_messages" "Get channel messages" ];
         cfg_resources := None;
         cfg_metadata := Some integration |};
      {| cfg_name := "gmail-mcp"; cfg_version := "1.0.0";
         cfg_description := "Gmail integration MCP server";
         cfg_endpoint := gmail; cfg_transport := "http";
         cfg_tools := Some
           [ tool_entry "list_messages" "List Gmail messages";
             tool_entry "get_message" "Get a specific email";
             tool_entry "send_email" "Send an email";
             tool_entry "search_emails" "Search emails" ];
         cfg_resources := None;
         cfg_metadata := Some integration |};
      {| cfg_name := "drive-mcp"; cfg_version := "1.0.0";
         cfg_description := "Google Drive integration MCP server";
         cfg_endpoint := drive; cfg_transport := "http";
         cfg_tools := Some
           [ tool_entry "list_files" "List Drive files";
             tool_entry "get_file" "Get file metadata";
             tool_entry "download_file" "Download file content";
             tool_entry "search_files" "Search files" ];
         cfg_resources := None;
         cfg_metadata := Some integration |};
      {| cfg_name := "clickup-mcp"; cfg_version := "1.0.0";
         cfg_description := "ClickUp integration MCP server";
         cfg_endpoint := clickup; cfg_transport := "http";
         cfg_tools := Some
           [ tool_entry "list_tasks" "List ClickUp tasks";
             tool_entry "get_task" "Get task details";
             tool_entry "create_task" "Create a new task";
             tool_entry "update_task" "Update a task" ];
         cfg_resources := None;
         cfg_metadata := Some integration |};
      {| cfg_name := "azure-devops-mcp"; cfg_version := "1.0.0";
         cfg_description := "Azure DevOps integration MCP server";
         cfg_endpoint := azure; cfg_transport := "http";
         cfg_tools := Some
           [ tool_entry "list_work_items" "List work items";
             tool_entry "get_work_item" "Get work item details";
             tool_entry "list_sprints" "List sprints";
             tool_entry "get_sprint" "Get sprint details" ];
         cfg_resources := None;
         cfg_metadata := Some integration |};
      {| cfg_name := "zoom-mcp"; cfg_version := "1.0.0";
         cfg_description := "Zoom integration MCP server";
         cfg_endpoint := zoom; cfg_transport := "http";
         cfg_tools := Some
           [ tool_entry "list_meetings" "List Zoom meetings";
             tool_entry "get_meeting" "Get meeting details";
             tool_entry "get_recording" "Get meeting recording";
             tool_entry "get_transcript" "Get meeting transcript" ];
         cfg_resources := None;
         cfg_metadata := Some integration |};
      {| cfg_name := "neo4j-mcp"; cfg_version := "1.0.0";
         cfg_description := "Neo4j knowledge graph MCP server";
         cfg_endpoint := neo4j; cfg_transport := "http";
         cfg_tools := Some
           [ tool_entry "query_graph" "Execute Cypher query";
             tool_entry "find_entities" "Find entities by name";
             tool_entry "find_paths" "Find paths between entities";
             tool_entry "add_entity" "Add an entity to the graph" ];
         cfg_resources := None;
         cfg_metadata := Some infrastructure |};
      {| cfg_name := "chromadb-mcp"; cfg_version := "1.0.0";
         cfg_description := "ChromaDB vector search MCP server";
         cfg_endpoint := chromadb; cfg_transport := "http";
         cfg_tools := Some
           [ tool_entry "search" "Semantic vector search";
             tool_entry "add_documents" "Add documents to collection";
             tool_entry "delete_documents" "Delete documents";
             tool_entry "get_collection_stats" "Get collection statistics" ];
         cfg_resources := None;
         cfg_metadata := Some infrastructure |} ].

(** The loop of [load_default_servers]: each entry is registered with
    its keys as keyword arguments. *)
Fixpoint register_each (lib : PyLib) (configs : list server_config) : Co unit :=
  match configs with
  | [] => Ret tt
  | c :: rest =>
      register lib (cfg_name c) (cfg_version c) (cfg_description c) (cfg_endpoint c)
        (cfg_transport c) (cfg_tools c) (cfg_resources c) (cfg_metadata c) ;;
      register_each lib rest
  end.

Definition load_default_servers (lib : PyLib) : Co unit :=
  configs <- default_servers ;;
  register_each lib configs.

End MCPRegistry.

(* ------------------------------------------------------------------ *)
(** ** router.py *)

Module MCPRouter.

Definition _get_client : Co unit :=
  h <- trigger Load ;;
  if _http_client h then Ret tt
  else trigger (Store (with_http_client true h)).

(** The JSON-RPC envelope of [call_tool]. *)
Definition tools_call_request (tool_name : string) (arguments : Dict.t json)
  (session_id trace_id : option string) : json :=
  let params := [ ("name", JStr tool_name); ("arguments", JObj arguments) ] in
  let params :=
    if truthy session_id
    then Dict.set "_meta" (JObj [ ("session_id", JStr (or_else session_id "")) ]) params
    else params in
  JObj [ ("jsonrpc", JStr "2.0");
         ("id", JStr (or_else trace_id "1"));
         ("method", JStr "tools/call");
         ("params", JObj params) ].

(** The JSON-RPC envelope of [read_resource]. *)
Definition resources_read_request (uri : string) : json :=
  JObj [ ("jsonrpc", JStr "2.0");
         ("id", JStr "1");
         ("method", JStr "resources/read");
         ("params", JObj [ ("uri", JStr uri) ]) ].

(** What both dispatch methods do with the decoded body:
    [if "error" in result: raise ValueError(result["error"].get("message", "Unknown error"))]
    then [return result.get("result", {}).get(field, [])].
    The membership test looks at the keys of an object, the elements of
    a list and the substrings of a string, and raises a [TypeError] on
    null, a boolean or a number; indexing a list or a string with
    ["error"] raises a [TypeError]; [.get] on anything but an object
    raises an [AttributeError]. *)
Definition unwrap (lib : PyLib) (field : string) (result : json) : Co json :=
  match result with
  | JObj d =>
      if Dict.mem "error" d then
        match Dict.get_default "error" JNull d with
        | JObj err =>
            Throw (ValueError
                     (py_str lib (Dict.get_default "message" (JStr "Unknown error") err)))
        | err => Throw (AttributeError (no_attribute err "get"))
        end
      else
        match Dict.get_default "result" (JObj []) d with
        | JObj r => Ret (Dict.get_default field (JList []) r)
        | r => Throw (AttributeError (no_attribute r "get"))
        end
  | JList l =>
      if holds_error l then Throw (TypeError (type_error_message lib result))
      else Throw (AttributeError (no_attribute result "get"))
  | JStr s =>
      if contains "error" s then Throw (TypeError (type_error_message lib result))
      else Throw (AttributeError (no_attribute result "get"))
  | JNull | JBool _ | JNum _ => Throw (TypeError (type_error_message lib result))
  end.

Definition call_tool (lib : PyLib) (server_name tool_name : string)
  (arguments : Dict.t json) (session_id trace_id : option string) : Co json :=
  h <- trigger Load ;;
  match Dict.get server_name (servers h) with
  | None => Throw (ValueError ("Server not found: " ++ server_name))
  | Some server =>
      if negb (MCPServerInfo.status server =? "available")%string then
        Throw (ValueError ("Server " ++ server_name ++ " is not available (status: "
                             ++ MCPServerInfo.status server ++ ")"))
      else
        _get_client ;;
        let mcp_request := tools_call_request tool_name arguments session_id trace_id in
        try_except
          (if (MCPServerInfo.transport server =? "http")%string then
             let url := MCPServerInfo.endpoint server ++ "/mcp" in
             response <- client_post url mcp_request ;;
             raise_for_status lib url response ;;
             result <- response_json lib response ;;
             unwrap lib "content" result
           else
             Throw (ValueError ("Unsupported transport: "
                                  ++ MCPServerInfo.transport server)))
          (fun e =>
             match e with
             | HTTPStatusError _ _ =>
                 MCPRegistry.update_server_status server_name "degraded" ;;
                 Throw e
             | ConnectError _ =>
                 MCPRegistry.update_server_status server_name "unavailable" ;;
                 Throw e
             | _ => Throw e
             end)
  end.

Definition read_resource (lib : PyLib) (server_name uri : string)
  (session_id : option string) : Co json :=
  h <- trigger Load ;;
  match Dict.get server_name (servers h) with
  | None => Throw (ValueError ("Server not found: " ++ server_name))
  | Some server =>
      _get_client ;;
      let mcp_request := resources_read_request uri in
      try_except
        (if (MCPServerInfo.transport server =? "http")%string then
           let url := MCPServerInfo.endpoint server ++ "/mcp" in
           response <- client_post url mcp_request ;;
           raise_for_status lib url response ;;
           result <- response_json lib response ;;
           unwrap lib "contents" result
         else
           Throw (ValueError ("Unsupported transport: "
                                ++ MCPServerInfo.transport server)))
        (fun e => Throw e)
  end.

Definition check_server_health (server_name : string) : Co (Dict.t json) :=
  h <- trigger Load ;;
  match Dict.get server_name (servers h) with
  | None => Ret [ ("name", JStr server_name); ("status", JStr "not_found") ]
  | Some server =>
      _get_client ;;
      try_except
        (if (MCPServerInfo.transport server =? "http")%string then
           response <- client_get (MCPServerInfo.endpoint server ++ "/health") ;;
           if status_code response =? 200 then
             MCPRegistry.update_server_status server_name "available" ;;
             Ret [ ("name", JStr server_name);
                   ("status", JStr "available");
                   ("response_time_ms", JNum (elapsed_ms response)) ]
           else
             MCPRegistry.update_server_status server_name "degraded" ;;
             Ret [ ("name", JStr server_name);
                   ("status", JStr "degraded");
                   ("status_code", JNum (status_code response)) ]
         else
           Ret [ ("name", JStr server_name);
                 ("status", JStr "unknown");
                 ("transport", JStr (MCPServerInfo.transport server)) ])
        (fun e =>
           match e with
           | ConnectError _ =>
               MCPRegistry.update_server_status server_name "unavailable" ;;
               Ret [ ("name", JStr server_name);
                     ("status", JStr "unavailable");
                     ("error", JStr "Connection refused") ]
           | TimeoutException _ =>
               MCPRegistry.update_server_status server_name "degraded" ;;
               Ret [ ("name", JStr server_name);
                     ("status", JStr "degraded");
                     ("error", JStr "Timeout") ]
           | _ =>
               MCPRegistry.update_server_status server_name "unavailable" ;;
               Ret [ ("name", JStr server_name);
                     ("status", JStr "unavailable");
                     ("error", JStr (str_exn e)) ]
           end)
  end.

(** The JSON-RPC envelope of [list_tools]. *)
Definition tools_list_request : json :=
  JObj [ ("jsonrpc", JStr "2.0");
         ("id", JStr "1");
         ("method", JStr "tools/list");
         ("params", JObj []) ].

(** [result.get("result", {}).get("tools", [])]: no look at an ["error"]
    entry here. *)
Definition listed_tools (result : json) : Co json :=
  match result with
  | JObj d =>
      match Dict.get_default "result" (JObj []) d with
      | JObj r => Ret (Dict.get_default "tools" (JList []) r)
      | r => Throw (AttributeError (no_attribute r "get"))
      end
  | _ => Throw (AttributeError (no_attribute result "get"))
  end.

Definition list_tools (lib : PyLib) (server_name : string) : Co json :=
  h <- trigger Load ;;
  match Dict.get server_name (servers h) with
  | None => Throw (ValueError ("Server not found: " ++ server_name))
  | Some server =>
      _get_client ;;
      let mcp_request := tools_list_request in
      try_except
        (if (MCPServerInfo.transport server =? "http")%string then
           let url := MCPServerInfo.endpoint server ++ "/mcp" in
           response <- client_post url mcp_request ;;
           raise_for_status lib url response ;;
           result <- response_json lib response ;;
           listed_tools result
         else
           Throw (ValueError ("Unsupported transport: "
                                ++ MCPServerInfo.transport server)))
        (fun e => Throw e)
  end.

(** [r if isinstance(r, dict) else {"error": str(r)}] *)
Definition as_report (r : result (Dict.t json)) : Dict.t json :=
  match r with
  | Ok report => report
  | Err e => [ ("error", JStr (str_exn e)) ]
  end.

(** [check_all_health], run from world [w]: one [check_server_health]
    task per key of [self.registry.servers], gathered. *)
Definition check_all_health (o : Oracle) (schedule : list nat) (w : World)
  : list (Dict.t json) * World :=
  let tasks := map check_server_health (Dict.keys (servers (heap w))) in
  let (results, w1) := gather o schedule tasks w in
  (map as_report results, w1).

End MCPRouter.

(* ------------------------------------------------------------------ *)
(** ** main.py *)

Module MCPToolCall.
Record t : Type := {
  server : option string;
  tool : string;
  arguments : Dict.t json;
  session_id : option string;
  trace_id : option string
}.
End MCPToolCall.

(** [result] is [JNull] when unset; [execution_time_ms] is a difference of
    clock readings. *)
Module MCPResponse.
Record t : Type := {
  id : string;
  success : bool;
  result : json;
  error : option string;
  server : option string;
  execution_time_ms : option Z
}.
End MCPResponse.

Module MCPBatchRequest.
Record t : Type := {
  requests : list MCPToolCall.t;
  parallel : bool
}.
End MCPBatchRequest.

Module MCPResourceRead.
Record t : Type := {
  server : string;
  uri : string;
  session_id : option string
}.
End MCPResourceRead.

Module ServerRegistration.
Record t : Type := {
  name : string;
  version : string;
  description : string;
  endpoint : string;
  transport : string;
  tools : list (Dict.t json);
  resources : list (Dict.t json);
  metadata : Dict.t json
}.
End ServerRegistration.

(** What an endpoint answers: its return value (HTTP 200), or the
    [HTTPException(status_code, detail)] it raised, which FastAPI sends as
    that status.  Any other exception leaving an endpoint stays a [Throw]. *)
Inductive reply (A : Type) : Type :=
| Status200 (body : A)
| StatusError (code : Z) (detail : string).
Arguments Status200 {A}.
Arguments StatusError {A}.

Module Gateway.

Definition call_tool (lib : PyLib) (request : MCPToolCall.t) : Co MCPResponse.t :=
  request_id <- (if truthy (MCPToolCall.trace_id request)
                 then Ret (or_else (MCPToolCall.trace_id request) "")
                 else trigger Uuid4) ;;
  start_time <- trigger UtcNow ;;
  let execute (server_name : string) : Co MCPResponse.t :=
    result <- MCPRouter.call_tool lib server_name (MCPToolCall.tool request)
                (MCPToolCall.arguments request) (MCPToolCall.session_id request)
                (Some request_id) ;;
    now <- trigger UtcNow ;;
    Ret {| MCPResponse.id := request_id;
           MCPResponse.success := true;
           MCPResponse.result := result;
           MCPResponse.error := None;
           MCPResponse.server := Some server_name;
           MCPResponse.execution_time_ms := Some (now - start_time) |} in
  try_except
    (if truthy (MCPToolCall.server request) then
       execute (or_else (MCPToolCall.server request) "")
     else
       server_name <- MCPRegistry.find_tool_server (MCPToolCall.tool request) ;;
       if truthy server_name then execute (or_else server_name "")
       else
         Ret {| MCPResponse.id := request_id;
                MCPResponse.success := false;
                MCPResponse.result := JNull;
                MCPResponse.error :=
                  Some ("Tool '" ++ MCPToolCall.tool request
                          ++ "' not found on any registered server");
                MCPResponse.server := None;
                MCPResponse.execution_time_ms := None |})
    (fun e =>
       now <- trigger UtcNow ;;
       Ret {| MCPResponse.id := request_id;
              MCPResponse.success := false;
              MCPResponse.result := JNull;
              MCPResponse.error := Some (str_exn e);
              MCPResponse.server := None;
              MCPResponse.execution_time_ms := Some (now - start_time) |}).

(** The sequential loop of [batch_call]. *)
Fixpoint sequential (lib : PyLib) (requests : list MCPToolCall.t)
  (results : list MCPResponse.t) : Co (list MCPResponse.t) :=
  match requests with
  | [] => Ret results
  | req :: rest =>
      result <- call_tool lib req ;;
      sequential lib rest (results ++ [result])
  end.

(** [r if isinstance(r, MCPResponse) else MCPResponse(id=str(uuid4()), success=False, error=str(r))] *)
Definition as_response (r : result MCPResponse.t) : Co MCPResponse.t :=
  match r with
  | Ok response => Ret response
  | Err e =>
      fresh <- trigger Uuid4 ;;
      Ret {| MCPResponse.id := fresh;
             MCPResponse.success := false;
             MCPResponse.result := JNull;
             MCPResponse.error := Some (str_exn e);
             MCPResponse.server := None;
             MCPResponse.execution_time_ms := None |}
  end.

Fixpoint as_responses (rs : list (result MCPResponse.t)) : Co (list MCPResponse.t) :=
  match rs with
  | [] => Ret []
  | r :: rest =>
      x <- as_response r ;;
      xs <- as_responses rest ;;
      Ret (x :: xs)
  end.

(** [batch_call], run from world [w]; the value is the list under the
    ["results"] key of the returned dict. *)
Definition batch_call (lib : PyLib) (o : Oracle) (schedule : list nat)
  (request : MCPBatchRequest.t) (w : World) : result (list MCPResponse.t) * World :=
  if MCPBatchRequest.parallel request then
    let tasks := map (call_tool lib) (MCPBatchRequest.requests request) in
    let (results, w1) := gather o schedule tasks w in
    run o (as_responses results) w1
  else
    run o (sequential lib (MCPBatchRequest.requests request) []) w.

Definition register_server (lib : PyLib) (registration : ServerRegistration.t)
  : Co (reply (Dict.t json)) :=
  try_except
    (MCPRegistry.register lib
       (ServerRegistration.name registration)
       (ServerRegistration.version registration)
       (ServerRegistration.description registration)
       (ServerRegistration.endpoint registration)
       (ServerRegistration.transport registration)
       (Some (ServerRegistration.tools registration))
       (Some (ServerRegistration.resources registration))
       (Some (ServerRegistration.metadata registration)) ;;
     Ret (Status200
            [ ("success", JBool true);
              ("message", JStr ("Server " ++ ServerRegistration.name registration
                                  ++ " registered")) ]))
    (fun e => Ret (StatusError 500 (str_exn e))).


Definition get_server (lib : PyLib) (server_name : string) : Co (reply (Dict.t json)) :=
  server <- MCPRegistry.get_server lib server_name ;;
  match server with
  | Some ((_ :: _) as d) => Ret (Status200 d)
  | _ => Ret (StatusError 404 ("Server " ++ server_name ++ " not found"))
  end.

Definition find_tool_server (tool_name : string) : Co (reply (Dict.t json)) :=
  server <- MCPRegistry.find_tool_server tool_name ;;
  if negb (truthy server) then
    Ret (StatusError 404 ("Tool " ++ tool_name ++ " not found"))
  else
    Ret (Status200 [ ("tool", JStr tool_name); ("server", JStr (or_else server "")) ]).

Definition read_resource (lib : PyLib) (request : MCPResourceRead.t) : Co MCPResponse.t :=
  request_id <- trigger Uuid4 ;;
  try_except
    (result <- MCPRouter.read_resource lib (MCPResourceRead.server request)
                 (MCPResourceRead.uri request) (MCPResourceRead.session_id request) ;;
     Ret {| MCPResponse.id := request_id;
            MCPResponse.success := true;
            MCPResponse.result := result;
            MCPResponse.error := None;
            MCPResponse.server := Some (MCPResourceRead.server request);
            MCPResponse.execution_time_ms := None |})
    (fun e =>
       Ret {| MCPResponse.id := request_id;
              MCPResponse.success := false;
              MCPResponse.result := JNull;
              MCPResponse.error := Some (str_exn e);
              MCPResponse.server := None;
              MCPResponse.execution_time_ms := None |}).

End Gateway.


(* ------------------------------------------------------------------ *)
(** ** Callers of the gateway

    [services/context-aggregator/src/main.py] and
    [services/agent-factory/src/main.py] reach the gateway over HTTP with
    a client of their own.  Each runs in its own process: in its world the
    [_http_client] field of the heap stands for the module's
    [http_client] global, and [gateway_url] is the module constant
    [MCP_GATEWAY_URL]. *)

(** [get_client()] of both modules. *)
Definition get_client : Co unit :=
  h <- trigger Load ;;
  if _http_client h then Ret tt
  else trigger (Store (with_http_client true h)).

(** What both [call_mcp_tool] do with the decoded body:
    [result.get("result")] when [result.get("success")] is truthy, else
    [None]. *)
Definition successful_result (result : json) : Co json :=
  match result with
  | JObj d =>
      if json_truthy (Dict.get_default "success" JNull d)
      then Ret (Dict.get_default "result" JNull d)
      else Ret JNull
  | _ => Throw (AttributeError (no_attribute result "get"))
  end.

Module ContextAggregator.

Definition call_mcp_tool (lib : PyLib) (gateway_url server tool : string)
  (arguments : Dict.t json) : Co json :=
  get_client ;;
  try_except
    (let url := gateway_url ++ "/api/mcp/call" in
     response <- client_post url
                   (JObj [ ("server", JStr server);
                           ("tool", JStr tool);
                           ("arguments", JObj arguments) ]) ;;
     raise_for_status lib url response ;;
     result <- response_json lib response ;;
     successful_result result)
    (fun _ => Ret JNull).

End ContextAggregator.

Module AgentFactory.

Definition call_mcp_tool (lib : PyLib) (gateway_url tool : string)
  (arguments : Dict.t json) : Co json :=
  get_client ;;
  try_except
    (let url := gateway_url ++ "/api/mcp/call" in
     response <- client_post url
                   (JObj [ ("tool", JStr tool); ("arguments", JObj arguments) ]) ;;
     raise_for_status lib url response ;;
     result <- response_json lib response ;;
     successful_result result)
    (fun _ => Ret JNull).

(** [response.json().get("tools", [])] *)
Definition get_available_tools (lib : PyLib) (gateway_url : string) : Co json :=
  get_client ;;
  try_except
    (let url := gateway_url ++ "/api/mcp/tools" in
     response <- client_get url ;;
     raise_for_status lib url response ;;
     result <- response_json lib response ;;
     match result with
     | JObj d => Ret (Dict.get_default "tools" (JList []) d)
     | _ => Throw (AttributeError (no_attribute result "get"))
     end)
    (fun _ => Ret (JList [])).

End AgentFactory.
(* ================================================================== *)
(** * Vocabulary of the properties *)

(** Provider [server] declares a tool named exactly [tool_name]. *)
Definition declares (tool_name : string) (server : MCPServerInfo.t) : Prop :=
  exists tool,
    In tool (MCPServerInfo.tools server) /\
    Dict.get "name" tool = Some (JStr tool_name).

(** Every record sits under its own name: [register] is the only writer
    of [self.servers] keys and stores [MCPServerInfo(name=name, ...)]
    under [name]. *)
Definition keyed (d : Dict.t MCPServerInfo.t) : Prop :=
  forall k s, In (k, s) d -> MCPServerInfo.name s = k.

Definition registry_ok (d : Dict.t MCPServerInfo.t) : Prop :=
  Dict.wf d /\ keyed d.

(** The record a status update leaves behind. *)
Definition touch (status : string) (now : Z) (server : MCPServerInfo.t)
  : MCPServerInfo.t :=
  MCPServerInfo.set_last_health_check now (MCPServerInfo.set_status status server).

(** Two records agree on every field but [status] and [last_health_check]. *)
Definition same_identity (a b : MCPServerInfo.t) : Prop :=
  MCPServerInfo.name a = MCPServerInfo.name b /\
  MCPServerInfo.version a = MCPServerInfo.version b /\
  MCPServerInfo.description a = MCPServerInfo.description b /\
  MCPServerInfo.endpoint a = MCPServerInfo.endpoint b /\
  MCPServerInfo.transport a = MCPServerInfo.transport b /\
  MCPServerInfo.tools a = MCPServerInfo.tools b /\
  MCPServerInfo.resources a = MCPServerInfo.resources b /\
  MCPServerInfo.metadata a = MCPServerInfo.metadata b /\
  MCPServerInfo.registered_at a = MCPServerInfo.registered_at b.

(** Same keys in the same order, each record with its identity intact. *)
Definition frame (d d' : Dict.t MCPServerInfo.t) : Prop :=
  Forall2 (fun x y => fst x = fst y /\ same_identity (snd x) (snd y)) d d'.

(** The record [register] builds when the clock is read at [t1] then [t2]. *)
Definition fresh_record (name version description endpoint transport : string)
  (tools resources : option (list (Dict.t json))) (metadata : option (Dict.t json))
  (t1 t2 : Z) : MCPServerInfo.t :=
  {| MCPServerInfo.name := name;
     MCPServerInfo.version := version;
     MCPServerInfo.description := description;
     MCPServerInfo.endpoint := endpoint;
     MCPServerInfo.transport := transport;
     MCPServerInfo.tools := or_empty tools;
     MCPServerInfo.resources := or_empty resources;
     MCPServerInfo.metadata := or_empty metadata;
     MCPServerInfo.status := "available";
     MCPServerInfo.last_health_check := t1;
     MCPServerInfo.registered_at := t2 |}.

(** The world after [update_server_status name status] found [name]. *)
Definition status_written (o : Oracle) (name status : string) (w : World) : World :=
  {| heap := with_servers
               (Dict.modify name (touch status (clock o (tick w))) (servers (heap w)))
               (heap w);
     tick := S (tick w);
     trace := trace w |}.

(** The event writes the attributes of the registry and the router. *)
Definition is_store {X : Type} (ev : Eff X) : bool :=
  match ev with
  | Store _ => true
  | _ => false
  end.

(** [c] never writes an attribute of the registry or the router. *)
Inductive no_store {A : Type} : Co A -> Prop :=
| no_store_ret (a : A) : no_store (Ret a)
| no_store_throw (e : exn) : no_store (Throw e)
| no_store_vis (X : Type) (ev : Eff X) (k : X -> Co A) :
    is_store ev = false -> (forall x, no_store (k x)) -> no_store (Vis ev k).

(** Whatever the outside world answers, running [c] leaves the provider
    table related by [R] to what it was. *)
Definition preserves (R : Dict.t MCPServerInfo.t -> Dict.t MCPServerInfo.t -> Prop)
  {A : Type} (c : Co A) : Prop :=
  forall o w, R (servers (heap w)) (servers (heap (snd (run o c w)))).

(** Whatever the outside world answers, every value [c] can return
    satisfies [P] and every exception it can raise satisfies [Q]. *)
Inductive leaves {A : Type} (P : A -> Prop) (Q : exn -> Prop) : Co A -> Prop :=
| leaves_ret (a : A) : P a -> leaves P Q (Ret a)
| leaves_throw (e : exn) : Q e -> leaves P Q (Throw e)
| leaves_vis (X : Type) (ev : Eff X) (k : X -> Co A) :
    (forall x, leaves P Q (k x)) -> leaves P Q (Vis ev k).

Definition never (e : exn) : Prop := False.
Definition any {A : Type} (a : A) : Prop := True.
Definition redis_failure (e : exn) : Prop := exists msg, e = RedisError msg.

(** The world after [_get_client]. *)
Definition client_ready (w : World) : World :=
  if _http_client (heap w) then w
  else put_heap (with_http_client true (heap w)) w.

(** A health check of [server_name], run from [w] where the table holds
    [server] under that name, reported [status] with the given error
    reason, wrote [status] and the time into the record, and [get_server]
    shows it afterwards. *)
Definition health_recorded (o : Oracle) (w : World) (server_name : string)
  (server : MCPServerInfo.t) (status : string) (reason : option string) : Prop :=
  exists report w',
    run o (MCPRouter.check_server_health server_name) w = (Ok report, w') /\
    Dict.get "name" report = Some (JStr server_name) /\
    Dict.get "status" report = Some (JStr status) /\
    Dict.get "error" report = option_map JStr reason /\
    Dict.get server_name (servers (heap w')) =
      Some (touch status (clock o (S (tick w))) server) /\
    forall lib o',
      exists d,
        fst (run o' (MCPRegistry.get_server lib server_name) w') = Ok (Some d) /\
        Dict.get "status" d = Some (JStr status).

(** Response [resp] answers request [req]: it echoes the request's trace
    id when one was given, and it is either a success without error or a
    failure carrying an error message and no result. *)
Definition answers (req : MCPToolCall.t) (resp : MCPResponse.t) : Prop :=
  (truthy (MCPToolCall.trace_id req) = true ->
   MCPResponse.id resp = or_else (MCPToolCall.trace_id req) "") /\
  ((MCPResponse.success resp = true /\ MCPResponse.error resp = None) \/
   (MCPResponse.success resp = false /\ MCPResponse.result resp = JNull /\
    exists msg, MCPResponse.error resp = Some msg)).

(** The requests were served one after the other by the single-call
    endpoint, each in the world its predecessor left, and every one of
    them returned a response. *)
Inductive served (lib : PyLib) (o : Oracle)
  : World -> list MCPToolCall.t -> list MCPResponse.t -> World -> Prop :=
| served_nil (w : World) : served lib o w [] [] w
| served_cons (w w1 w2 : World) (req : MCPToolCall.t) (resp : MCPResponse.t)
    (reqs : list MCPToolCall.t) (resps : list MCPResponse.t) :
    run o (Gateway.call_tool lib req) w = (Ok resp, w1) ->
    served lib o w1 reqs resps w2 ->
    served lib o w (req :: reqs) (resp :: resps) w2.

(** What [gather] may hand back for request [req]. *)
Definition answered (req : MCPToolCall.t) (r : result MCPResponse.t) : Prop :=
  match r with
  | Ok resp => answers req resp
  | Err _ => False
  end.

(** ** Sample data *)

Definition lib0 : PyLib :=
  {| isoformat := fun _ => "2024-01-01T00:00:00";
     repr := fun _ => "<json>";
     status_error_message := fun _ _ => "status error";
     decode_error_message := fun _ => "Expecting value: line 1 column 1 (char 0)";
     type_error_message := fun _ => "<type error>" |}.

Definition reply_ok : http_outcome :=
  Responded {| status_code := 200;
               json_body := Some (JObj [ ("result", JObj [ ("content", JList [JStr "hi"]) ]) ]);
               elapsed_ms := 3 |}.

Definition reply_500 : http_outcome :=
  Responded {| status_code := 500; json_body := None; elapsed_ms := 3 |}.

(** An outside world without Redis whose providers all answer [reply]. *)
Definition oracle_of (reply : http_outcome) : Oracle :=
  {| clock := fun n => Z.of_nat n;
     uuid := fun _ => "uuid";
     environ := fun _ => None;
     redis_reply := fun _ => None;
     http_reply := fun _ => reply |}.

(** An outside world whose Redis accepts the connection and the ping
    (consultations 2 and 3 of a first [register]) and fails afterwards. *)
Definition oracle_redis_lost : Oracle :=
  {| clock := fun n => Z.of_nat n;
     uuid := fun _ => "uuid";
     environ := fun var => if (var =? "REDIS_URL")%string then Some "redis://cache" else None;
     redis_reply := fun n => if (n <=? 3)%nat then None else Some "Connection lost";
     http_reply := fun _ => reply_ok |}.

Definition world0 : World :=
  {| heap := {| servers := []; _redis := None; _http_client := false |};
     tick := 0;
     trace := [] |}.

Definition sample_tool (n : string) : Dict.t json :=
  [ ("name", JStr n); ("description", JStr "a tool") ].

(** Provider [a] (tools x, y) alone, then with [b] (tools y, z) registered
    after it. *)
Definition world_a : World :=
  Eval vm_compute in
    snd (run (oracle_of reply_ok)
           (MCPRegistry.register lib0 "a" "1.0" "first" "http://a" "http"
              (Some [sample_tool "x"; sample_tool "y"]) None None) world0).

Definition world_ab : World :=
  Eval vm_compute in
    snd (run (oracle_of reply_ok)
           (MCPRegistry.register lib0 "b" "1.0" "second" "http://b" "http"
              (Some [sample_tool "y"; sample_tool "z"]) None None) world_a).

Definition server_a : MCPServerInfo.t :=
  fresh_record "a" "1.0" "first" "http://a" "http"
    (Some [sample_tool "x"; sample_tool "y"]) None None 0 1.


(** Provider [q], one of whose tool descriptors carries a ["server"] key. *)
Definition world_q : World :=
  Eval vm_compute in
    snd (run (oracle_of reply_ok)
           (MCPRegistry.register lib0 "q" "1.0" "other" "http://q" "http"
              (Some [ [ ("name", JStr "x"); ("server", JStr "p") ] ]) None None) world0).

Definition sample_request (server : option string) (tool : string) : MCPToolCall.t :=
  {| MCPToolCall.server := server;
     MCPToolCall.tool := tool;
     MCPToolCall.arguments := [];
     MCPToolCall.session_id := None;
     MCPToolCall.trace_id := Some ("trace-" ++ tool) |}.

(** Three requests, the second to a provider that is not registered. *)
Definition sample_batch (parallel : bool) : MCPBatchRequest.t :=
  {| MCPBatchRequest.requests :=
       [ sample_request (Some "a") "x";
         sample_request (Some "nowhere") "y";
         sample_request None "z" ];
     MCPBatchRequest.parallel := parallel |}.


(* ================================================================== *)
(** * Vocabulary of the further properties *)

(** The entry under [key], if any, is a string. *)
Definition text_or_absent (key : string) (tool : Dict.t json) : Prop :=
  match Dict.get key tool with
  | Some (JStr _) | None => True
  | Some _ => False
  end.

(** A descriptor [search_tools] can read: its name and description are
    strings where present. *)
Definition searchable (tool : Dict.t json) : Prop :=
  text_or_absent "name" tool /\ text_or_absent "description" tool.

(** [tool.get(key, "")] of a searchable descriptor. *)
Definition text_of (key : string) (tool : Dict.t json) : string :=
  match Dict.get key tool with
  | Some (JStr s) => s
  | _ => ""
  end.

(** The lowered query occurs in the lowered name or description. *)
Definition matches (lower : string -> string) (query : string) (tool : Dict.t json) : bool :=
  contains (lower query) (lower (text_of "name" tool))
  || contains (lower query) (lower (text_of "description" tool)).

(** The tools a search is to return: for each provider of the category,
    in registry order, its matching tools in declaration order. *)
Definition hits (lower : string -> string) (query : string) (category : option string)
  (values : list MCPServerInfo.t) : list (Dict.t json) :=
  flat_map
    (fun server =>
       if MCPRegistry.other_category category server then []
       else map (MCPRegistry.with_server server)
              (filter (matches lower query) (MCPServerInfo.tools server)))
    values.

(** A provider with one tool whose description is JSON null. *)
Definition world_null : World :=
  Eval vm_compute in
    snd (run (oracle_of reply_ok)
           (MCPRegistry.register lib0 "n" "1.0" "odd" "http://n" "http"
              (Some [ [ ("name", JStr "t"); ("description", JNull) ] ]) None None) world_ab).

(** [os.getenv(var, default)] in the environment of [o]. *)
Definition env_or (o : Oracle) (var default : string) : string :=
  match environ o var with
  | Some s => s
  | None => default
  end.

(** The list [load_default_servers] builds in the environment of [o]. *)
Definition defaults_under (o : Oracle) : list MCPRegistry.server_config :=
  match fst (run o MCPRegistry.default_servers world0) with
  | Ok configs => configs
  | Err _ => []
  end.

(** Name, endpoint variable and fallback endpoint of the default providers. *)
Definition default_endpoints : list (string * string * string) :=
  [ ("database-mcp", "DATABASE_MCP_URL", "http://localhost:8010");
    ("github-mcp", "GITHUB_MCP_URL", "http://localhost:8011");
    ("slack-mcp", "SLACK_MCP_URL", "http://localhost:8012");
    ("teams-mcp", "TEAMS_MCP_URL", "http://localhost:8013");
    ("gmail-mcp", "GMAIL_MCP_URL", "http://localhost:8014");
    ("drive-mcp", "DRIVE_MCP_URL", "http://localhost:8015");
    ("clickup-mcp", "CLICKUP_MCP_URL", "http://localhost:8016");
    ("azure-devops-mcp", "AZURE_DEVOPS_MCP_URL", "http://localhost:8017");
    ("zoom-mcp", "ZOOM_MCP_URL", "http://localhost:8018");
    ("neo4j-mcp", "NEO4J_MCP_URL", "http://localhost:8019");
    ("chromadb-mcp", "CHROMADB_MCP_URL", "http://localhost:8020") ].

(** The record [register] builds from a configuration entry. *)
Definition record_of (c : MCPRegistry.server_config) (t1 t2 : Z) : MCPServerInfo.t :=
  fresh_record (MCPRegistry.cfg_name c) (MCPRegistry.cfg_version c)
    (MCPRegistry.cfg_description c) (MCPRegistry.cfg_endpoint c)
    (MCPRegistry.cfg_transport c) (MCPRegistry.cfg_tools c)
    (MCPRegistry.cfg_resources c) (MCPRegistry.cfg_metadata c) t1 t2.

(** The world after registering [configs] in order without a mirror. *)
Fixpoint loaded (o : Oracle) (configs : list MCPRegistry.server_config) (w : World)
  : World :=
  match configs with
  | [] => w
  | c :: rest =>
      loaded o rest
        (put_heap
           (with_servers
              (Dict.set (MCPRegistry.cfg_name c)
                 (record_of c (clock o (tick w)) (clock o (S (tick w))))
                 (servers (heap w)))
              (heap w))
           (consult (consult w)))
  end.

(** No string occurs twice in the list. *)
Fixpoint distinct (l : list string) : bool :=
  match l with
  | [] => true
  | x :: rest => negb (existsb (String.eqb x) rest) && distinct rest
  end.

(** An environment that moves the Gmail provider and sets the Slack
    variable to the empty string. *)
Definition oracle_env : Oracle :=
  {| clock := fun n => Z.of_nat n;
     uuid := fun _ => "uuid";
     environ := fun var =>
       if (var =? "GMAIL_MCP_URL")%string then Some "http://mail:9000"
       else if (var =? "SLACK_MCP_URL")%string then Some ""
       else None;
     redis_reply := fun _ => None;
     http_reply := fun _ => reply_ok |}.

(** An answer with status 200 whose body is the JSON object [body]. *)
Definition reply_json (body : Dict.t json) : http_outcome :=
  Responded {| status_code := 200; json_body := Some (JObj body); elapsed_ms := 3 |}.

(** A JSON-RPC error answer. *)
Definition reply_rpc_error : http_outcome :=
  reply_json [ ("error", JObj [ ("message", JStr "no such tool") ]) ].

(** Provider [s] with the stdio transport, registered after [a]. *)
Definition world_stdio : World :=
  Eval vm_compute in
    snd (run (oracle_of reply_ok)
           (MCPRegistry.register lib0 "s" "1.0" "local" "ignored" "stdio"
              (Some [sample_tool "x"]) None None) world_a).

(** [c] writes the provider table with discipline.  The index is what
    [c] knows of the table: [Some d] when the table is [d] (it was read,
    or written, since the last network await), [None] when another
    coroutine may have changed it meanwhile.  Every [Store] must put back
    a table that is a [frame] of the known one: same keys in the same
    order, every record with its identity. *)
Inductive disciplined {A : Type} : option (Dict.t MCPServerInfo.t) -> Co A -> Prop :=
| disciplined_ret (v : option (Dict.t MCPServerInfo.t)) (a : A) :
    disciplined v (Ret a)
| disciplined_throw (v : option (Dict.t MCPServerInfo.t)) (e : exn) :
    disciplined v (Throw e)
| disciplined_load (v : option (Dict.t MCPServerInfo.t)) (k : Heap -> Co A) :
    (forall h, disciplined (Some (servers h)) (k h)) ->
    disciplined v (Vis Load k)
| disciplined_store (d : Dict.t MCPServerInfo.t) (h : Heap) (k : unit -> Co A) :
    frame d (servers h) ->
    disciplined (Some (servers h)) (k tt) ->
    disciplined (Some d) (Vis (Store h) k)
| disciplined_await (v : option (Dict.t MCPServerInfo.t)) (X : Type) (ev : Eff X)
    (k : X -> Co A) :
    suspends ev = true ->
    (forall x, disciplined None (k x)) ->
    disciplined v (Vis ev k)
| disciplined_other (v : option (Dict.t MCPServerInfo.t)) (X : Type) (ev : Eff X)
    (k : X -> Co A) :
    suspends ev = false -> is_store ev = false ->
    (forall x, disciplined v (k x)) ->
    disciplined v (Vis ev k).

(** What a coroutine knows of the table is true of world [w]. *)
Definition view_ok (v : option (Dict.t MCPServerInfo.t)) (w : World) : Prop :=
  match v with
  | Some d => d = servers (heap w)
  | None => True
  end.

(** The statuses the probe of a registered provider can report. *)
Definition probe_statuses : list string :=
  [ "available"; "degraded"; "unavailable"; "unknown" ].

(** [report] is the outcome of a probe of provider [name]. *)
Definition reports_on (name : string) (report : Dict.t json) : Prop :=
  Dict.get "name" report = Some (JStr name) /\
  exists status,
    Dict.get "status" report = Some (JStr status) /\ In status probe_statuses.

(** What [gather] hands back for a task that returned a value satisfying
    [P]. *)
Definition returned {A : Type} (P : A -> Prop) (r : result A) : Prop :=
  match r with
  | Ok a => P a
  | Err _ => False
  end.

(** The answers event [ev] can get while the provider table has the keys
    [ks]: a [Load] shows a table with these keys. *)
Definition admissible (ks : list string) {X : Type} (ev : Eff X) : X -> Prop :=
  match ev in Eff X return X -> Prop with
  | Load => fun h => Dict.keys (servers h) = ks
  | _ => fun _ => True
  end.

(** As long as the provider table has the keys [ks], [c] does not raise
    and every value it can return satisfies [P]. *)
Fixpoint returns_under {A : Type} (ks : list string) (P : A -> Prop) (c : Co A) : Prop :=
  match c with
  | Ret a => P a
  | Throw _ => False
  | Vis ev k => forall x, admissible ks ev x -> returns_under ks P (k x)
  end.

(** Request [request] with its [server] field set to [s]. *)
Definition addressed_to (s : string) (request : MCPToolCall.t) : MCPToolCall.t :=
  {| MCPToolCall.server := Some s;
     MCPToolCall.tool := MCPToolCall.tool request;
     MCPToolCall.arguments := MCPToolCall.arguments request;
     MCPToolCall.session_id := MCPToolCall.session_id request;
     MCPToolCall.trace_id := MCPToolCall.trace_id request |}.

(** The response of [call_tool] when discovery finds no provider. *)
Definition tool_not_found (request_id tool : string) : MCPResponse.t :=
  {| MCPResponse.id := request_id;
     MCPResponse.success := false;
     MCPResponse.result := JNull;
     MCPResponse.error := Some ("Tool '" ++ tool ++ "' not found on any registered server");
     MCPResponse.server := None;
     MCPResponse.execution_time_ms := None |}.

(** The status a probe of an http provider records for each answer. *)
Definition probe_status (outcome : http_outcome) : string :=
  match outcome with
  | Responded r => if status_code r =? 200 then "available" else "degraded"
  | ConnectFailed _ => "unavailable"
  | TimedOut _ => "degraded"
  | Failed _ => "unavailable"
  end.

(** [c] issues no network operation. *)
Definition quiet {A : Type} (c : Co A) : Prop :=
  forall o w, trace (snd (run o c w)) = trace w.
(** The request issued from world [w] is answered with a status in
    200..299 and a body that is the JSON object [d]. *)
Definition answered_with (o : Oracle) (w : World) (d : Dict.t json) : Prop :=
  exists r,
    http_reply o (tick w) = Responded r /\
    200 <= status_code r <= 299 /\
    json_body r = Some (JObj d).

(** The body the context aggregator posts to the gateway. *)
Definition aggregator_call (server tool : string) (arguments : Dict.t json) : json :=
  JObj [ ("server", JStr server); ("tool", JStr tool); ("arguments", JObj arguments) ].

(** The body the agent factory posts to the gateway. *)
Definition factory_call (tool : string) (arguments : Dict.t json) : json :=
  JObj [ ("tool", JStr tool); ("arguments", JObj arguments) ].

(** What [call_tool] makes of the outcome [routed] of the router's call
    to provider [server_name]: a returned value becomes a success naming
    the provider, an exception a failure carrying its message. *)
Definition response_of (request_id server_name : string) (start_time now : Z)
  (routed : result json) : MCPResponse.t :=
  match routed with
  | Ok result =>
      {| MCPResponse.id := request_id;
         MCPResponse.success := true;
         MCPResponse.result := result;
         MCPResponse.error := None;
         MCPResponse.server := Some server_name;
         MCPResponse.execution_time_ms := Some (now - start_time) |}
  | Err e =>
      {| MCPResponse.id := request_id;
         MCPResponse.success := false;
         MCPResponse.result := JNull;
         MCPResponse.error := Some (str_exn e);
         MCPResponse.server := None;
         MCPResponse.execution_time_ms := Some (now - start_time) |}
  end.

(** The provider a request goes to in world [w]: the one it names, else
    the one discovery finds; none when neither gives a non-empty name. *)
Definition target (request : MCPToolCall.t) (w : World) : option string :=
  if truthy (MCPToolCall.server request) then MCPToolCall.server request
  else
    let found := MCPRegistry.first_server_with (MCPToolCall.tool request)
                   (Dict.values (servers (heap w))) in
    if truthy found then found else None.

(** The id [call_tool] gives the response to a request received in
    world [w]. *)
Definition request_id_of (o : Oracle) (w : World) (request : MCPToolCall.t) : string :=
  if truthy (MCPToolCall.trace_id request)
  then or_else (MCPToolCall.trace_id request) ""
  else uuid o (tick w).

(** The world in which [call_tool], entered in world [w], reads its
    start time: the uuid, if one was needed, has been drawn. *)
Definition at_start (w : World) (request : MCPToolCall.t) : World :=
  if truthy (MCPToolCall.trace_id request) then w else consult w.

(** The world in which it then enters its [try] block. *)
Definition at_try (w : World) (request : MCPToolCall.t) : World :=
  consult (at_start w request).

(** The response owed to a request whose call is entered in world [w]:
    "not found" when there is no provider to go to, else what
    [response_of] makes of the outcome of the router's [call_tool] for
    this request, started where the [try] block starts.  [now] is the
    clock reading at the end of the call. *)
Definition outcome (lib : PyLib) (o : Oracle) (w : World) (request : MCPToolCall.t)
  (now : Z) : MCPResponse.t :=
  let request_id := request_id_of o w request in
  match target request w with
  | None => tool_not_found request_id (MCPToolCall.tool request)
  | Some server_name =>
      response_of request_id server_name (clock o (tick (at_start w request))) now
        (fst (run o (MCPRouter.call_tool lib server_name (MCPToolCall.tool request)
                       (MCPToolCall.arguments request) (MCPToolCall.session_id request)
                       (Some request_id))
                (at_try w request)))
  end.

(** How the first scheduling slice of a coroutine ends: the coroutine
    finished, or it is suspended at a network await with [rest] still
    to run. *)
Inductive slice (A : Type) : Type :=
| Done (r : result A) (w : World)
| Paused (rest : Co A) (w : World).
Arguments Done {A}.
Arguments Paused {A}.

Fixpoint first_slice (o : Oracle) {A : Type} (c : Co A) (w : World) : slice A :=
  match c with
  | Ret a => Done (Ok a) w
  | Throw e => Done (Err e) w
  | Vis ev k =>
      let (x, w') := handle o ev w in
      if suspends ev then Paused (k x) w' else first_slice o (k x) w'
  end.

(** [c] ends with [r] whatever the world answers. *)
Definition fixed {A : Type} (r : result A) (c : Co A) : Prop :=
  leaves (fun a => r = Ok a) (fun e => r = Err e) c.

(** [Ret] or [Throw] of a result. *)
Definition of_result {A : Type} (r : result A) : Co A :=
  match r with
  | Ok a => Ret a
  | Err e => Throw e
  end.

(** The responses to [requests] are those owed to them, the call of the
    first entered in world [w] and the call of each other one entered in
    the world [step] gives from its predecessor's. *)
Inductive dispatched (lib : PyLib) (o : Oracle)
  (step : Co MCPResponse.t -> World -> World)
  : World -> list MCPToolCall.t -> list MCPResponse.t -> Prop :=
| dispatched_nil (w : World) : dispatched lib o step w [] []
| dispatched_cons (w : World) (req : MCPToolCall.t) (resp : MCPResponse.t) (now : Z)
    (reqs : list MCPToolCall.t) (resps : list MCPResponse.t) :
    resp = outcome lib o w req now ->
    dispatched lib o step (step (Gateway.call_tool lib req) w) reqs resps ->
    dispatched lib o step w (req :: reqs) (resp :: resps).

(** The world a call leaves when it runs to its end before the next one
    is entered (sequential mode), and when it runs to its first network
    await (parallel mode, where [gather] starts the calls in order). *)
Definition to_completion (o : Oracle) (c : Co MCPResponse.t) (w : World) : World :=
  snd (run o c w).
Definition to_first_await (o : Oracle) (c : Co MCPResponse.t) (w : World) : World :=
  snd (advance o c w).

(** For each request, in order, what its response has to be; the worlds
    are those of [dispatched]. *)
Fixpoint owed (lib : PyLib) (o : Oracle) (step : Co MCPResponse.t -> World -> World)
  (w : World) (requests : list MCPToolCall.t) : list (MCPResponse.t -> Prop) :=
  match requests with
  | [] => []
  | req :: rest =>
      (fun resp => exists now, resp = outcome lib o w req now)
        :: owed lib o step (step (Gateway.call_tool lib req) w) rest
  end.

(** A request that names a provider missing from table [d] is answered
    with the "Server not found" failure. *)
Definition refused_when_unknown (d : Dict.t MCPServerInfo.t) (req : MCPToolCall.t)
  (resp : MCPResponse.t) : Prop :=
  forall s,
    MCPToolCall.server req = Some s -> s <> "" -> Dict.get s d = None ->
    MCPResponse.success resp = false /\
    MCPResponse.error resp = Some ("Server not found: " ++ s).
(** The world in which [register], entered in world [w], has stored the
    record [new] under [name] and turns to the mirror: the clock was read
    twice. *)
Definition stored (name : string) (new : MCPServerInfo.t) (w : World) : World :=
  put_heap (with_servers (Dict.set name new (servers (heap w))) (heap w))
    (consult (consult w)).
(* ================================================================== *)
(** * Properties *)

(** ** Dictionaries *)

Section DictFacts.
Variable V : Type.
Implicit Types (d : Dict.t V) (k : string) (v : V).

Lemma get_set_same k v d : Dict.get k (Dict.set k v d) = Some v.
Proof.
  induction d as [|[k' v'] d IH]; simpl.
  - now rewrite String.eqb_refl.
  - destruct (k' =? k)%string eqn:E; simpl; rewrite E; auto.
Qed.

Lemma get_set_other k k' v d :
  k' <> k -> Dict.get k' (Dict.set k v d) = Dict.get k' d.
Proof.
  intros Hne. induction d as [|[k0 v0] d IH]; simpl.
  - destruct (k =? k')%string eqn:E; auto.
    apply String.eqb_eq in E. congruence.
  - destruct (k0 =? k)%string eqn:E; simpl.
    + apply String.eqb_eq in E. subst k0.
      destruct (k =? k')%string eqn:E'; auto.
      apply String.eqb_eq in E'. congruence.
    + now rewrite IH.
Qed.

Lemma get_set k k' v d :
  Dict.get k' (Dict.set k v d) = if (k =? k')%string then Some v else Dict.get k' d.
Proof.
  destruct (k =? k')%string eqn:E.
  - apply String.eqb_eq in E. subst. apply get_set_same.
  - apply String.eqb_neq in E. apply get_set_other. congruence.
Qed.

Lemma get_In k v d : Dict.get k d = Some v -> In (k, v) d.
Proof.
  induction d as [|[k' v'] d IH]; simpl; [discriminate|].
  destruct (k' =? k)%string eqn:E.
  - apply String.eqb_eq in E. intros [= ->]. subst. now left.
  - auto.
Qed.

Lemma get_None_keys k d : Dict.get k d = None <-> ~ In k (Dict.keys d).
Proof.
  induction d as [|[k' v'] d IH]; simpl.
  - tauto.
  - destruct (k' =? k)%string eqn:E.
    + apply String.eqb_eq in E. split; [discriminate|]. intros H. exfalso. auto.
    + apply String.eqb_neq in E. rewrite IH. tauto.
Qed.

Lemma In_get k v d : Dict.wf d -> In (k, v) d -> Dict.get k d = Some v.
Proof.
  unfold Dict.wf. induction d as [|[k' v'] d IH]; simpl; [tauto|].
  intros Hnd [H|H].
  - injection H as -> ->. now rewrite String.eqb_refl.
  - inversion Hnd as [|? ? Hnot Hnd']. subst.
    destruct (k' =? k)%string eqn:E.
    + apply String.eqb_eq in E. subst k'. exfalso. apply Hnot.
      change k with (fst (k, v)). now apply in_map.
    + auto.
Qed.

(** Overwriting a key keeps the iteration order; a new key goes last. *)
Lemma keys_set k v d :
  Dict.keys (Dict.set k v d) =
  if Dict.mem k d then Dict.keys d else (Dict.keys d ++ [k])%list.
Proof.
  unfold Dict.mem. induction d as [|[k' v'] d IH]; simpl; auto.
  destruct (k' =? k)%string eqn:E; simpl; auto.
  rewrite IH. now destruct (Dict.get k d).
Qed.

Lemma wf_set k v d : Dict.wf d -> Dict.wf (Dict.set k v d).
Proof.
  unfold Dict.wf. intros Hnd. rewrite keys_set.
  destruct (Dict.mem k d) eqn:E; auto.
  apply NoDup_app; auto.
  - repeat constructor. simpl. tauto.
  - intros x Hx [Hk|[]]. subst x. unfold Dict.mem in E.
    destruct (Dict.get k d) eqn:G; [discriminate|].
    now apply get_None_keys in G.
Qed.

Lemma In_remove k k' v d : In (k', v) (Dict.remove k d) -> In (k', v) d.
Proof.
  induction d as [|[k0 v0] d IH]; simpl; auto.
  destruct (k0 =? k)%string; simpl; intuition.
Qed.

Lemma remove_spec k k' v d :
  Dict.wf d -> (In (k', v) (Dict.remove k d) <-> In (k', v) d /\ k' <> k).
Proof.
  unfold Dict.wf. induction d as [|[k0 v0] d IH]; simpl; [tauto|].
  intros Hnd. inversion Hnd as [|? ? Hnot Hnd']. subst.
  destruct (k0 =? k)%string eqn:E.
  - apply String.eqb_eq in E. subst k0. split.
    + intros H. split; auto. intros ->. apply Hnot.
      change k with (fst (k, v)). now apply in_map.
    + intros [[H|H] Hne]; auto. injection H as -> ->. congruence.
  - apply String.eqb_neq in E. simpl. rewrite IH by assumption. split.
    + intros [H|[H Hne]]; auto. injection H as -> ->. auto.
    + intros [[H|H] Hne]; auto.
Qed.

Lemma remove_set_fresh k v d : Dict.mem k d = false -> Dict.remove k (Dict.set k v d) = d.
Proof.
  unfold Dict.mem. induction d as [|[k' v'] d IH]; simpl.
  - now rewrite String.eqb_refl.
  - destruct (k' =? k)%string eqn:E; [discriminate|]. simpl. rewrite E.
    intros H. now rewrite IH.
Qed.

Lemma remove_set k v d : Dict.remove k (Dict.set k v d) = Dict.remove k d.
Proof.
  induction d as [|[k' v'] d IH]; simpl.
  - now rewrite String.eqb_refl.
  - destruct (k' =? k)%string eqn:E; simpl; rewrite E; auto. now rewrite IH.
Qed.

Lemma keys_modify k f d : Dict.keys (Dict.modify k f d) = Dict.keys d.
Proof.
  induction d as [|[k' v'] d IH]; simpl; auto.
  destruct (k' =? k)%string; simpl; auto. now rewrite IH.
Qed.

Lemma get_modify k k' f d :
  Dict.get k' (Dict.modify k f d) =
  if (k =? k')%string then option_map f (Dict.get k' d) else Dict.get k' d.
Proof.
  induction d as [|[k0 v0] d IH]; simpl.
  - now destruct (k =? k')%string.
  - destruct (k0 =? k)%string eqn:E; simpl.
    + apply String.eqb_eq in E. subst k0.
      destruct (k =? k')%string eqn:E'; simpl; auto.
    + destruct (k0 =? k')%string eqn:E'; simpl; auto.
      apply String.eqb_eq in E'. subst k0.
      rewrite String.eqb_sym, E. reflexivity.
Qed.

Lemma modify_modify k f g d :
  Dict.modify k g (Dict.modify k f d) = Dict.modify k (fun x => g (f x)) d.
Proof.
  induction d as [|[k0 v0] d IH]; simpl; auto.
  destruct (k0 =? k)%string eqn:E; simpl; rewrite E; auto. now rewrite IH.
Qed.


(** Where a key of [{**d, **d2}] gets its value from. *)
Lemma get_update k v d d2 :
  Dict.get k (Dict.update d d2) = Some v ->
  In (k, v) d2 \/ Dict.get k d = Some v.
Proof.
  unfold Dict.update. revert d.
  induction d2 as [|[k2 v2] d2 IH]; simpl; intros d H; auto.
  apply IH in H. destruct H as [H|H]; auto.
  rewrite get_set in H. destruct (k2 =? k)%string eqn:E; auto.
  apply String.eqb_eq in E. injection H as ->. subst. auto.
Qed.

End DictFacts.

(** ** Running coroutines *)

Lemma run_bind o A B (c : Co A) (f : A -> Co B) w :
  run o (bind c f) w =
  match run o c w with
  | (Ok a, w') => run o (f a) w'
  | (Err e, w') => (Err e, w')
  end.
Proof.
  revert w. induction c as [a|e|X ev k IH]; intros w; simpl; auto.
  destruct (handle o ev w) as [x w']. apply IH.
Qed.

Lemma run_try_except o A (c : Co A) (h : exn -> Co A) w :
  run o (try_except c h) w =
  match run o c w with
  | (Ok a, w') => (Ok a, w')
  | (Err e, w') => run o (h e) w'
  end.
Proof.
  revert w. induction c as [a|e|X ev k IH]; intros w; simpl; auto.
  destruct (handle o ev w) as [x w']. apply IH.
Qed.

(** Cutting a coroutine into scheduling slices does not change what it
    does: a slice followed by the rest is the whole run. *)
Lemma run_advance o A (c : Co A) w :
  run o (fst (advance o c w)) (snd (advance o c w)) = run o c w.
Proof.
  revert w. induction c as [a|e|X ev k IH]; intros w; simpl; auto.
  destruct (handle o ev w) as [x w']. destruct (suspends ev); simpl; auto.
Qed.

(** Only a [Store] changes the provider table. *)
Lemma handle_keeps_servers o X (ev : Eff X) w :
  is_store ev = false -> servers (heap (snd (handle o ev w))) = servers (heap w).
Proof. destruct ev; simpl; intros H; try reflexivity. discriminate. Qed.

(** ** Tool discovery *)

Lemma tool_named_spec t tool :
  MCPRegistry.tool_named t tool = true <-> Dict.get "name" tool = Some (JStr t).
Proof.
  unfold MCPRegistry.tool_named.
  destruct (Dict.get "name" tool) as [[| | |s| |]|]; split; try discriminate.
  - intros H. apply String.eqb_eq in H. now subst.
  - intros [= ->]. apply String.eqb_refl.
Qed.

Lemma declares_spec t s :
  existsb (MCPRegistry.tool_named t) (MCPServerInfo.tools s) = true <-> declares t s.
Proof.
  unfold declares. rewrite existsb_exists.
  split; intros [tool [Hin H]]; exists tool; split; auto; now apply tool_named_spec.
Qed.

Lemma first_server_with_None t vs :
  MCPRegistry.first_server_with t vs = None <->
  (forall s, In s vs -> ~ declares t s).
Proof.
  induction vs as [|s vs IH]; simpl.
  - split; [intros _ s []|reflexivity].
  - destruct (existsb _ _) eqn:E.
    + split; [discriminate|]. intros H. exfalso.
      apply (H s); auto. now apply declares_spec.
    + rewrite IH. split.
      * intros H s' [<-|Hin]; auto.
        intros Hd. apply declares_spec in Hd. congruence.
      * intros H s' Hin. apply H. now right.
Qed.

Lemma first_server_with_Some t vs n :
  MCPRegistry.first_server_with t vs = Some n ->
  exists before s after,
    vs = (before ++ s :: after)%list /\ declares t s /\
    (forall s', In s' before -> ~ declares t s') /\
    n = MCPServerInfo.name s.
Proof.
  induction vs as [|s vs IH]; simpl; [discriminate|].
  destruct (existsb _ _) eqn:E.
  - intros [= <-]. exists [], s, vs. repeat split; auto.
    now apply declares_spec.
  - intros H. destruct (IH H) as (before & s0 & after & -> & Hd & Hb & ->).
    exists (s :: before), s0, after. repeat split; auto.
    intros s' [<-|Hin]; auto.
    intros Hd'. apply declares_spec in Hd'. congruence.
Qed.

Lemma first_server_with_first t before s after :
  declares t s ->
  (forall s', In s' before -> ~ declares t s') ->
  MCPRegistry.first_server_with t (before ++ s :: after) = Some (MCPServerInfo.name s).
Proof.
  intros Hd. induction before as [|s0 before IH]; simpl; intros Hb.
  - apply declares_spec in Hd. now rewrite Hd.
  - destruct (existsb _ _) eqn:E.
    + apply declares_spec in E. exfalso. apply (Hb s0); auto.
    + apply IH. intros s' Hin. apply Hb. now right.
Qed.

(** C6. [find_tool_server] always returns, without touching the world
    (so repeating the call on an unchanged registry repeats the answer,
    whatever the outside world does).  It returns none when no registered
    provider declares the tool, the provider's name when exactly one
    does, and in general the name of the first declaring provider in the
    iteration order of [self.servers]. *)
Theorem find_tool_server_first_match (w : World) (tool_name : string) :
  let registered := Dict.values (servers (heap w)) in
  exists r,
    (forall o, run o (MCPRegistry.find_tool_server tool_name) w = (Ok r, w)) /\
    ((forall s, In s registered -> ~ declares tool_name s) -> r = None) /\
    (forall s, In s registered -> declares tool_name s ->
       (forall s', In s' registered -> declares tool_name s' -> s' = s) ->
       r = Some (MCPServerInfo.name s)) /\
    (forall before s after,
       registered = (before ++ s :: after)%list ->
       declares tool_name s ->
       (forall s', In s' before -> ~ declares tool_name s') ->
       r = Some (MCPServerInfo.name s)).
Proof.
  intros registered.
  exists (MCPRegistry.first_server_with tool_name registered).
  split; [intros o; reflexivity|]. split; [|split].
  - intros Hnone. now apply first_server_with_None.
  - intros s Hin Hd Huniq.
    destruct (MCPRegistry.first_server_with tool_name registered) as [n|] eqn:E.
    + apply first_server_with_Some in E.
      destruct E as (before & s0 & after & Heq & Hd0 & _ & ->).
      assert (s0 = s) as ->; auto.
      apply Huniq; auto. rewrite Heq. apply in_or_app. right. now left.
    + exfalso. rewrite first_server_with_None in E. now apply (E s).
  - intros before s after -> Hd Hb. now apply first_server_with_first.
Qed.

(** On the sample registry both providers declare [y]; the first one
    registered wins, and re-registering it does not move it. *)
Example find_tool_server_sample :
  fst (run (oracle_of reply_ok) (MCPRegistry.find_tool_server "y") world_ab) = Ok (Some "a")
  /\ fst (run (oracle_of reply_ok) (MCPRegistry.find_tool_server "z") world_ab) = Ok (Some "b")
  /\ fst (run (oracle_of reply_ok) (MCPRegistry.find_tool_server "w") world_ab) = Ok None.
Proof. repeat split. Qed.

(** ** Preservation of the provider table *)

Section Preservation.
Variable R : Dict.t MCPServerInfo.t -> Dict.t MCPServerInfo.t -> Prop.
Hypothesis R_refl : forall d, R d d.
Hypothesis R_trans : forall a b c, R a b -> R b c -> R a c.

Lemma preserves_ret A (a : A) : preserves R (Ret a).
Proof. intros o w. apply R_refl. Qed.

Lemma preserves_throw A e : preserves R (@Throw A e).
Proof. intros o w. apply R_refl. Qed.

Lemma preserves_bind A B (c : Co A) (f : A -> Co B) :
  preserves R c -> (forall a, preserves R (f a)) -> preserves R (bind c f).
Proof.
  intros Hc Hf o w. rewrite run_bind. specialize (Hc o w).
  destruct (run o c w) as [[a|e] w']; simpl in *; auto.
  eapply R_trans; [exact Hc|]. apply Hf.
Qed.

Lemma preserves_try_except A (c : Co A) (h : exn -> Co A) :
  preserves R c -> (forall e, preserves R (h e)) -> preserves R (try_except c h).
Proof.
  intros Hc Hh o w. rewrite run_try_except. specialize (Hc o w).
  destruct (run o c w) as [[a|e] w']; simpl in *; auto.
  eapply R_trans; [exact Hc|]. apply Hh.
Qed.

Lemma preserves_trigger X (ev : Eff X) :
  is_store ev = false -> preserves R (trigger ev).
Proof.
  intros Hns o w. destruct ev; simpl; try apply R_refl. discriminate.
Qed.
End Preservation.

Lemma same_identity_refl s : same_identity s s.
Proof. unfold same_identity. repeat split. Qed.

Lemma same_identity_trans a b c :
  same_identity a b -> same_identity b c -> same_identity a c.
Proof. unfold same_identity. intuition congruence. Qed.

Lemma same_identity_touch status now s : same_identity s (touch status now s).
Proof. unfold same_identity. repeat split. Qed.

Lemma frame_refl d : frame d d.
Proof.
  unfold frame. induction d; constructor; auto using same_identity_refl.
Qed.

Lemma frame_trans a b c : frame a b -> frame b c -> frame a c.
Proof.
  unfold frame. intros Hab. revert c.
  induction Hab as [|x y a b [Hk Hs] Hab IH]; intros c Hbc; inversion Hbc; subst.
  - constructor.
  - constructor; auto. destruct H1 as [Hk' Hs']. split; [congruence|].
    eapply same_identity_trans; eauto.
Qed.

Lemma frame_modify k f d :
  (forall s, same_identity s (f s)) -> frame d (Dict.modify k f d).
Proof.
  intros Hf. unfold frame.
  induction d as [|[k' s] d IH]; simpl; [constructor|].
  destruct (k' =? k)%string.
  - constructor; [split; simpl; auto|]. apply frame_refl.
  - constructor; auto using same_identity_refl.
Qed.

(** A framed table holds, under each key, a record with the same identity. *)
Lemma frame_get d d' k s :
  frame d d' -> Dict.get k d = Some s ->
  exists s', Dict.get k d' = Some s' /\ same_identity s s'.
Proof.
  unfold frame. induction 1 as [|[k1 s1] [k2 s2] d d' [Hk Hs] Hf IH]; simpl in *.
  - discriminate.
  - subst k2. destruct (k1 =? k)%string; auto.
    intros [= ->]. eauto.
Qed.

Lemma frame_keys d d' : frame d d' -> Dict.keys d = Dict.keys d'.
Proof.
  unfold frame. induction 1 as [|x y d d' [Hk Hs] Hf IH]; simpl; congruence.
Qed.

(** ** What one status update does *)

Lemma run_update_server_status_unknown o w name status :
  Dict.get name (servers (heap w)) = None ->
  run o (MCPRegistry.update_server_status name status) w = (Ok false, w).
Proof.
  intros H. unfold MCPRegistry.update_server_status, Dict.mem. simpl.
  now rewrite H.
Qed.

Lemma run_update_server_status_known o w name status server :
  Dict.get name (servers (heap w)) = Some server ->
  run o (MCPRegistry.update_server_status name status) w =
  (Ok true, status_written o name status w).
Proof.
  intros H. unfold MCPRegistry.update_server_status, Dict.mem. simpl.
  rewrite H. simpl. unfold status_written, with_servers, put_heap, consult. simpl.
  rewrite modify_modify. reflexivity.
Qed.

Lemma get_status_written o w name status server :
  Dict.get name (servers (heap w)) = Some server ->
  Dict.get name (servers (heap (status_written o name status w))) =
  Some (touch status (clock o (tick w)) server).
Proof.
  intros H. simpl. rewrite get_modify, String.eqb_refl, H. reflexivity.
Qed.

Lemma get_status_written_other o w name status other :
  other <> name ->
  Dict.get other (servers (heap (status_written o name status w))) =
  Dict.get other (servers (heap w)).
Proof.
  intros H. simpl. rewrite get_modify.
  destruct (name =? other)%string eqn:E; auto.
  apply String.eqb_eq in E. congruence.
Qed.

Lemma update_server_status_frame name status :
  preserves frame (MCPRegistry.update_server_status name status).
Proof.
  intros o w. destruct (Dict.get name (servers (heap w))) as [server|] eqn:E.
  - rewrite (run_update_server_status_known o w name status server E). simpl.
    apply frame_modify. intros s. apply same_identity_touch.
  - rewrite (run_update_server_status_unknown o w name status E). apply frame_refl.
Qed.

Lemma get_client_keeps R :
  (forall d, R d d) -> preserves R MCPRouter._get_client.
Proof.
  intros Hrefl o w. unfold MCPRouter._get_client. simpl.
  destruct (_http_client (heap w)); simpl; apply Hrefl.
Qed.

Lemma client_get_keeps R url :
  (forall d, R d d) -> preserves R (client_get url).
Proof.
  intros Hrefl o w. unfold client_get. simpl.
  destruct (http_reply o (tick w)); simpl; apply Hrefl.
Qed.

Lemma client_post_keeps R url body :
  (forall d, R d d) -> preserves R (client_post url body).
Proof.
  intros Hrefl o w. unfold client_post. simpl.
  destruct (http_reply o (tick w)); simpl; apply Hrefl.
Qed.

Lemma check_server_health_frame name :
  preserves frame (MCPRouter.check_server_health name).
Proof.
  unfold MCPRouter.check_server_health.
  apply preserves_bind; [exact frame_trans| |].
  { apply preserves_trigger; [exact frame_refl|reflexivity]. }
  intros h. destruct (Dict.get name (servers h)) as [server|].
  2: { apply preserves_ret, frame_refl. }
  apply preserves_bind; [exact frame_trans|apply get_client_keeps, frame_refl|].
  intros _. apply preserves_try_except; [exact frame_trans| |].
  - destruct (MCPServerInfo.transport server =? "http")%string.
    2: { apply preserves_ret, frame_refl. }
    apply preserves_bind; [exact frame_trans|apply client_get_keeps, frame_refl|].
    intros response. destruct (status_code response =? 200);
      (apply preserves_bind;
       [exact frame_trans|apply update_server_status_frame|
         intros _; apply preserves_ret, frame_refl]).
  - intros e. destruct e;
      (apply preserves_bind;
       [exact frame_trans|apply update_server_status_frame|
         intros _; apply preserves_ret, frame_refl]).
Qed.

Lemma no_store_bind A B (c : Co A) (f : A -> Co B) :
  no_store c -> (forall a, no_store (f a)) -> no_store (bind c f).
Proof. intros Hc Hf. induction Hc; simpl; auto; constructor; auto. Qed.

Lemma no_store_preserves R A (c : Co A) :
  (forall d, R d d) -> no_store c -> preserves R c.
Proof.
  intros Hrefl Hc o w. revert w.
  induction Hc as [a|e|X ev k Hev Hk IH]; intros w; simpl; auto.
  pose proof (handle_keeps_servers o X ev w Hev) as Hsame.
  destruct (handle o ev w) as [x w']. simpl in Hsame. rewrite <- Hsame. apply IH.
Qed.

Lemma no_store_unwrap lib field result : no_store (MCPRouter.unwrap lib field result).
Proof.
  unfold MCPRouter.unwrap. destruct result as [| | |s|l|d]; try constructor.
  - destruct (contains "error" s); constructor.
  - destruct (holds_error l); constructor.
  - destruct (Dict.mem "error" d).
    + destruct (Dict.get_default "error" JNull d); constructor.
    + destruct (Dict.get_default "result" (JObj []) d); constructor.
Qed.

(** The body of the [try] block shared by [call_tool] and [read_resource]. *)
Lemma no_store_post lib url body field :
  no_store
    (response <- client_post url body ;;
     raise_for_status lib url response ;;
     result <- response_json lib response ;;
     MCPRouter.unwrap lib field result).
Proof.
  apply no_store_bind.
  - unfold client_post, trigger. simpl. constructor; [reflexivity|].
    intros [r|msg|msg|msg]; constructor.
  - intros response. apply no_store_bind.
    + unfold raise_for_status. destruct (_ && _); constructor.
    + intros _. apply no_store_bind.
      * unfold response_json. destruct (json_body response); constructor.
      * intros result. apply no_store_unwrap.
Qed.

Lemma call_tool_frame lib server_name tool_name arguments session_id trace_id :
  preserves frame
    (MCPRouter.call_tool lib server_name tool_name arguments session_id trace_id).
Proof.
  unfold MCPRouter.call_tool.
  apply preserves_bind; [exact frame_trans| |].
  { apply preserves_trigger; [exact frame_refl|reflexivity]. }
  intros h. destruct (Dict.get server_name (servers h)) as [server|].
  2: { apply preserves_throw, frame_refl. }
  destruct (negb _).
  { apply preserves_throw, frame_refl. }
  apply preserves_bind; [exact frame_trans|apply get_client_keeps, frame_refl|].
  intros _. apply preserves_try_except; [exact frame_trans| |].
  - destruct (MCPServerInfo.transport server =? "http")%string.
    + apply no_store_preserves; [exact frame_refl|apply no_store_post].
    + apply preserves_throw, frame_refl.
  - intros e. destruct e; try (apply preserves_throw, frame_refl);
      (apply preserves_bind;
       [exact frame_trans|apply update_server_status_frame|
         intros _; apply preserves_throw, frame_refl]).
Qed.

Lemma read_resource_frame lib server_name uri session_id :
  preserves eq (MCPRouter.read_resource lib server_name uri session_id).
Proof.
  unfold MCPRouter.read_resource.
  apply preserves_bind; [exact (@eq_trans _)| |].
  { apply preserves_trigger; [reflexivity|reflexivity]. }
  intros h. destruct (Dict.get server_name (servers h)) as [server|].
  2: { now apply preserves_throw. }
  apply preserves_bind; [exact (@eq_trans _)|now apply get_client_keeps|].
  intros _. apply preserves_try_except; [exact (@eq_trans _)| |].
  - destruct (MCPServerInfo.transport server =? "http")%string.
    + apply no_store_preserves; [reflexivity|apply no_store_post].
    + now apply preserves_throw.
  - intros e. now apply preserves_throw.
Qed.

(** C9. [update_server_status] on an unknown name returns false and
    changes nothing at all; on a known name it returns true, writes the
    status and the current time into that record, and leaves every other
    record as it was.  A status update, a health check and a dispatch
    ([call_tool], [read_resource]), whatever their outcome, keep the keys
    of the table and, in every record, name, version, description,
    endpoint, transport, tools, resources, metadata and registered_at. *)
Theorem status_is_the_only_mutation (o : Oracle) (w : World) (name status : string) :
  (Dict.get name (servers (heap w)) = None ->
   run o (MCPRegistry.update_server_status name status) w = (Ok false, w))
  /\ (forall server, Dict.get name (servers (heap w)) = Some server ->
      exists w',
        run o (MCPRegistry.update_server_status name status) w = (Ok true, w') /\
        (exists server',
           Dict.get name (servers (heap w')) = Some server' /\
           MCPServerInfo.status server' = status /\
           MCPServerInfo.last_health_check server' = clock o (tick w) /\
           same_identity server server') /\
        (forall other, other <> name ->
           Dict.get other (servers (heap w')) = Dict.get other (servers (heap w))) /\
        _redis (heap w') = _redis (heap w) /\
        _http_client (heap w') = _http_client (heap w) /\
        trace w' = trace w)
  /\ frame (servers (heap w))
       (servers (heap (snd (run o (MCPRegistry.update_server_status name status) w))))
  /\ frame (servers (heap w))
       (servers (heap (snd (run o (MCPRouter.check_server_health name) w))))
  /\ (forall lib tool_name arguments session_id trace_id,
        frame (servers (heap w))
          (servers (heap (snd (run o (MCPRouter.call_tool lib name tool_name arguments
                                        session_id trace_id) w)))))
  /\ (forall lib uri session_id,
        frame (servers (heap w))
          (servers (heap (snd (run o (MCPRouter.read_resource lib name uri session_id) w))))).
Proof.
  split; [|split; [|split; [|split; [|split]]]].
  5: { intros. apply call_tool_frame. }
  5: { intros. rewrite <- (read_resource_frame lib name uri session_id o w).
       apply frame_refl. }
  - apply run_update_server_status_unknown.
  - intros server H. exists (status_written o name status w).
    split; [now apply run_update_server_status_known with server|].
    split; [|split; [|repeat split]].
    + exists (touch status (clock o (tick w)) server).
      split; [now apply get_status_written|].
      repeat split.
    + intros other Hne. now apply get_status_written_other.
  - apply update_server_status_frame.
  - apply check_server_health_frame.
Qed.

(** ** What a coroutine can return or raise *)

Lemma leaves_mono A (P P' : A -> Prop) (Q Q' : exn -> Prop) c :
  (forall a, P a -> P' a) -> (forall e, Q e -> Q' e) ->
  leaves P Q c -> leaves P' Q' c.
Proof. intros HP HQ. induction 1; constructor; auto. Qed.

Lemma leaves_bind A B (P : A -> Prop) (P' : B -> Prop) Q c (f : A -> Co B) :
  leaves P Q c -> (forall a, P a -> leaves P' Q (f a)) -> leaves P' Q (bind c f).
Proof. intros Hc Hf. induction Hc; simpl; auto; constructor; auto. Qed.

Lemma leaves_try_except A (P : A -> Prop) Q Q' c (h : exn -> Co A) :
  leaves P Q c -> (forall e, Q e -> leaves P Q' (h e)) ->
  leaves P Q' (try_except c h).
Proof. intros Hc Hh. induction Hc; simpl; auto; constructor; auto. Qed.

Lemma leaves_trigger X (ev : Eff X) Q : leaves any Q (trigger ev).
Proof. constructor. intros x. constructor. exact I. Qed.

Lemma leaves_run A (P : A -> Prop) Q c o w :
  leaves P Q c ->
  match fst (run o c w) with
  | Ok a => P a
  | Err e => Q e
  end.
Proof.
  intros Hc. revert w.
  induction Hc as [a Ha|e He|X ev k Hk IH]; intros w; simpl; auto.
  destruct (handle o ev w) as [x w']. apply IH.
Qed.

Lemma leaves_advance A (P : A -> Prop) Q c o w :
  leaves P Q c -> leaves P Q (fst (advance o c w)).
Proof.
  intros Hc. revert w.
  induction Hc as [a Ha|e He|X ev k Hk IH]; intros w; simpl;
    try (constructor; assumption).
  destruct (handle o ev w) as [x w']. destruct (suspends ev); simpl; auto.
Qed.

(** ** The Redis mirror never touches the provider table *)

Lemma redis_do_leaves ev : leaves any redis_failure (redis_do ev).
Proof.
  unfold redis_do, trigger. simpl. constructor. intros [msg|]; constructor.
  - now exists msg.
  - exact I.
Qed.

Lemma redis_do_keeps ev : is_store ev = false -> preserves eq (redis_do ev).
Proof.
  intros H o w. unfold redis_do, trigger. simpl.
  pose proof (handle_keeps_servers o _ ev w H) as K.
  destruct (handle o ev w) as [[msg|] w']; simpl in *; auto.
Qed.

Lemma leaves_anything A (c : Co A) : leaves any any c.
Proof. induction c; constructor; auto; exact I. Qed.

Lemma set_redis_keeps r : preserves eq (MCPRegistry.set_redis r).
Proof. intros o w. reflexivity. Qed.

Lemma set_redis_leaves r : leaves any never (MCPRegistry.set_redis r).
Proof. repeat (constructor; intros). Qed.

Ltac keeps_step :=
  first
    [ apply preserves_ret; intros; reflexivity
    | apply preserves_throw; intros; reflexivity
    | apply set_redis_keeps
    | apply redis_do_keeps; reflexivity
    | apply preserves_trigger; [intros; reflexivity | reflexivity]
    | apply preserves_bind; [exact (@eq_trans _) | | intros ?]
    | apply preserves_try_except; [exact (@eq_trans _) | | intros ?] ].

Lemma get_redis_keeps : preserves eq MCPRegistry._get_redis.
Proof.
  unfold MCPRegistry._get_redis.
  keeps_step; [keeps_step|]. keeps_step; [|repeat keeps_step].
  destruct (_redis a); [keeps_step|].
  keeps_step; [keeps_step|].
  destruct a0 as [url|]; [|keeps_step].
  destruct (truthy (Some url)); [|keeps_step].
  repeat keeps_step.
Qed.

Lemma get_redis_leaves : leaves any never MCPRegistry._get_redis.
Proof.
  unfold MCPRegistry._get_redis.
  apply leaves_bind with (P := any); [apply leaves_trigger|]. intros h _.
  apply leaves_bind with (P := any).
  2: { intros _ _. repeat (constructor; intros). }
  destruct (_redis h); [now constructor|].
  apply leaves_bind with (P := any); [apply leaves_trigger|]. intros [url|] _.
  2: now constructor.
  destruct (truthy (Some url)); [|now constructor].
  apply leaves_try_except with (Q := any); [apply leaves_anything|].
  intros e _. apply set_redis_leaves.
Qed.

(** The part of [register] after the in-memory store. *)
Lemma register_mirror_keeps lib name server :
  preserves eq
    (redis_client <- MCPRegistry._get_redis ;;
     match redis_client with
     | Some _ =>
         redis_do (RedisHset "mcp:servers" name (MCPServerInfo.to_dict lib server))
     | None => Ret tt
     end ;;
     Ret server).
Proof.
  keeps_step; [apply get_redis_keeps|].
  keeps_step; [|keeps_step]. destruct a; keeps_step.
Qed.

Lemma register_mirror_leaves lib name server :
  leaves (eq server) redis_failure
    (redis_client <- MCPRegistry._get_redis ;;
     match redis_client with
     | Some _ =>
         redis_do (RedisHset "mcp:servers" name (MCPServerInfo.to_dict lib server))
     | None => Ret tt
     end ;;
     Ret server).
Proof.
  apply leaves_bind with (P := any).
  { eapply leaves_mono; [| |apply get_redis_leaves]; auto. intros e []. }
  intros rc _. apply leaves_bind with (P := any).
  - destruct rc; [apply redis_do_leaves|now constructor].
  - intros _ _. now constructor.
Qed.

(** [register] always writes the new record under [name], whatever the
    Redis mirror does afterwards; it returns that record unless the mirror
    raises. *)
Lemma run_register lib o w name version description endpoint transport
  tools resources metadata :
  let new := fresh_record name version description endpoint transport
               tools resources metadata (clock o (tick w)) (clock o (S (tick w))) in
  exists r w',
    run o (MCPRegistry.register lib name version description endpoint transport
             tools resources metadata) w = (r, w') /\
    servers (heap w') = Dict.set name new (servers (heap w)) /\
    (r = Ok new \/ exists msg, r = Err (RedisError msg)).
Proof.
  intros new. unfold MCPRegistry.register.
  rewrite run_bind.
  change (run o (MCPServerInfo_init name version description endpoint transport
                   tools resources metadata) w)
    with (Ok new, consult (consult w)).
  cbv beta iota. rewrite run_bind.
  change (run o (MCPRegistry.modify_servers (Dict.set name new)) (consult (consult w)))
    with (@Ok unit tt,
          put_heap (with_servers (Dict.set name new (servers (heap w))) (heap w))
            (consult (consult w))).
  cbv beta iota.
  match goal with |- context [run o ?c ?w1] =>
    pose proof (register_mirror_keeps lib name new o w1) as Hkeep;
    pose proof (leaves_run _ (eq new) redis_failure c o w1
                  (register_mirror_leaves lib name new)) as Hleaf;
    destruct (run o c w1) as [r w'] eqn:E
  end.
  exists r, w'. simpl in Hkeep, Hleaf. repeat split; auto.
  destruct r as [a|e]; [left; congruence|].
  right. destruct Hleaf as [msg ->]. now exists msg.
Qed.

Lemma run_register_without_redis lib o w name version description endpoint transport
  tools resources metadata :
  _redis (heap w) = None ->
  environ o "REDIS_URL" = None ->
  fst (run o (MCPRegistry.register lib name version description endpoint transport
                tools resources metadata) w)
  = Ok (fresh_record name version description endpoint transport
          tools resources metadata (clock o (tick w)) (clock o (S (tick w)))).
Proof.
  intros Hr He. unfold MCPRegistry.register, MCPRegistry._get_redis. simpl.
  rewrite Hr. simpl. rewrite He. simpl. rewrite Hr. reflexivity.
Qed.

(** ** The registry invariant *)

Lemma In_set k v (d : Dict.t MCPServerInfo.t) k' s :
  In (k', s) (Dict.set k v d) -> (k' = k /\ s = v) \/ In (k', s) d.
Proof.
  induction d as [|[k0 v0] d IH]; simpl.
  - intros [[= <- <-]|[]]. auto.
  - destruct (k0 =? k)%string eqn:E; simpl.
    + apply String.eqb_eq in E. subst k0.
      intros [[= <- <-]|H]; auto.
    + intros [H|H]; auto. destruct (IH H); auto.
Qed.

Lemma registry_ok_set k v d :
  MCPServerInfo.name v = k -> registry_ok d -> registry_ok (Dict.set k v d).
Proof.
  intros Hname [Hwf Hkeyed]. split.
  - now apply wf_set.
  - intros k' s Hin. apply In_set in Hin. destruct Hin as [[-> ->]|Hin]; auto.
Qed.

Lemma registry_ok_nil : registry_ok [].
Proof. split; [constructor|intros k s []]. Qed.

Lemma registry_ok_remove k d : registry_ok d -> registry_ok (Dict.remove k d).
Proof.
  intros [Hwf Hkeyed]. split.
  - unfold Dict.wf in *. clear Hkeyed.
    induction d as [|[k' v'] d IH]; simpl; auto.
    inversion Hwf as [|? ? Hnot Hnd]. subst.
    destruct (k' =? k)%string; simpl; auto.
    constructor; auto. intros Hin. apply Hnot.
    unfold Dict.keys in *. apply in_map_iff in Hin.
    destruct Hin as ([k0 s0] & <- & Hin). apply In_remove in Hin.
    now apply in_map.
  - intros k' s Hin. apply In_remove in Hin. auto.
Qed.

(** Status updates, health checks and dispatches keep the invariant. *)
Lemma registry_ok_frame d d' : frame d d' -> registry_ok d -> registry_ok d'.
Proof.
  intros Hf [Hwf Hkeyed]. split.
  - unfold Dict.wf. now rewrite <- (frame_keys d d' Hf).
  - clear Hwf. unfold frame in Hf.
    induction Hf as [|[k1 s1] [k2 s2] d d' [Hk Hs] Hf IH]; intros k s Hin.
    + destruct Hin.
    + simpl in *. subst k2. destruct Hin as [[= <- <-]|Hin].
      * destruct Hs as [Hname _]. rewrite <- Hname. apply Hkeyed. now left.
      * apply IH; auto. intros k' s' Hin'. apply Hkeyed. now right.
Qed.

(** In a well-formed registry the record under [k] is the only one named [k]. *)
Lemma registry_ok_split d k s :
  registry_ok d -> Dict.get k d = Some s ->
  exists before after,
    Dict.values d = (before ++ s :: after)%list /\
    forall s', In s' (before ++ after)%list -> MCPServerInfo.name s' <> k.
Proof.
  intros [Hwf Hkeyed] Hget. apply get_In in Hget.
  destruct (in_split _ _ Hget) as (d1 & d2 & ->).
  exists (Dict.values d1), (Dict.values d2). split.
  - unfold Dict.values. now rewrite map_app.
  - unfold Dict.wf, Dict.keys in Hwf. rewrite map_app in Hwf. simpl in Hwf.
    apply NoDup_remove_2 in Hwf.
    intros s' Hin Hname. apply Hwf.
    unfold Dict.values in Hin. rewrite <- map_app in Hin.
    apply in_map_iff in Hin. destruct Hin as ([k' s''] & <- & Hin). simpl in *.
    assert (k' = k) as ->.
    { rewrite <- Hname. symmetry. apply Hkeyed.
      apply in_app_or in Hin. apply in_or_app. simpl. tauto. }
    rewrite <- map_app. change k with (fst (k, s'')). now apply in_map.
Qed.

Lemma to_dict_name lib s :
  Dict.get "name" (MCPServerInfo.to_dict lib s) = Some (JStr (MCPServerInfo.name s)).
Proof. reflexivity. Qed.

Lemma to_dict_status lib s :
  Dict.get "status" (MCPServerInfo.to_dict lib s) = Some (JStr (MCPServerInfo.status s)).
Proof. reflexivity. Qed.

(** ** Registration *)

(** C10. Whatever the table held under [name] before (any status, any
    health history, any registration time) and whatever the Redis mirror
    does, after [register] the record stored under [name] has status
    ["available"], and its [last_health_check] and [registered_at] are the
    two clock readings taken during this call; no field of the record
    comes from the previous entry. *)
Theorem register_starts_available (lib : PyLib) (o : Oracle) (w : World)
  (name version description endpoint transport : string)
  (tools resources : option (list (Dict.t json))) (metadata : option (Dict.t json)) :
  exists r w' server,
    run o (MCPRegistry.register lib name version description endpoint transport
             tools resources metadata) w = (r, w') /\
    Dict.get name (servers (heap w')) = Some server /\
    server = fresh_record name version description endpoint transport
               tools resources metadata (clock o (tick w)) (clock o (S (tick w))) /\
    MCPServerInfo.status server = "available" /\
    MCPServerInfo.last_health_check server = clock o (tick w) /\
    MCPServerInfo.registered_at server = clock o (S (tick w)).
Proof.
  destruct (run_register lib o w name version description endpoint transport
              tools resources metadata) as (r & w' & Hrun & Hservers & _).
  exists r, w'. eexists. split; [exact Hrun|]. split.
  - rewrite Hservers. apply get_set_same.
  - repeat split.
Qed.

Lemma get_redis_outcome o w :
  exists r w',
    run o MCPRegistry._get_redis w = (Ok r, w') /\
    _redis (heap w') = r /\
    servers (heap w') = servers (heap w) /\
    (_redis (heap w) <> None -> r = _redis (heap w) /\ w' = w) /\
    (_redis (heap w) = None ->
     forall url, r = Some url <->
       environ o "REDIS_URL" = Some url /\ url <> "" /\
       redis_reply o (tick w) = None /\ redis_reply o (S (tick w)) = None).
Proof.
  unfold MCPRegistry._get_redis. simpl.
  destruct (_redis (heap w)) as [cached|] eqn:Hcached; simpl.
  { rewrite Hcached. exists (Some cached), w.
    split; [reflexivity|]. split; [exact Hcached|]. split; [reflexivity|].
    split; [intros _; split; reflexivity|discriminate]. }
  destruct (environ o "REDIS_URL") as [u|] eqn:Henv; simpl.
  2: { rewrite Hcached. exists None, w.
       split; [reflexivity|]. split; [exact Hcached|]. split; [reflexivity|].
       split; [intros H; now destruct H|]. intros _ url.
       split; [discriminate|]. intros (H & _). discriminate. }
  destruct (u =? "")%string eqn:Hu; simpl.
  { rewrite Hcached. exists None, w.
    split; [reflexivity|]. split; [exact Hcached|]. split; [reflexivity|].
    split; [intros H; now destruct H|]. intros _ url.
    split; [discriminate|]. intros (H & Hne & _).
    apply String.eqb_eq in Hu. congruence. }
  apply String.eqb_neq in Hu.
  destruct (redis_reply o (tick w)) as [msg1|] eqn:H1; simpl.
  { eexists. eexists. split; [reflexivity|]. split; [reflexivity|].
    split; [reflexivity|]. split; [intros H; now destruct H|]. intros _ url.
    split; [discriminate|]. intros (_ & _ & H & _). discriminate. }
  destruct (redis_reply o (S (tick w))) as [msg2|] eqn:H2; simpl.
  { eexists. eexists. split; [reflexivity|]. split; [reflexivity|].
    split; [reflexivity|]. split; [intros H; now destruct H|]. intros _ url.
    split; [discriminate|]. intros (_ & _ & _ & H). discriminate. }
  eexists. eexists. split; [reflexivity|]. split; [reflexivity|].
  split; [reflexivity|]. split; [intros H; now destruct H|]. intros _ url.
  split.
  - intros [= <-]. auto.
  - intros (H & _). congruence.
Qed.

(** [register], step by step: the record is stored, the connection to
    the mirror is looked up or set up, which never raises, and only with
    a client in hand the record is written to the mirror, the one
    operation whose failure leaves [register] as an exception. *)
Lemma run_register_mirror lib o w name version description endpoint transport
  tools resources metadata :
  let new := fresh_record name version description endpoint transport
               tools resources metadata (clock o (tick w)) (clock o (S (tick w))) in
  exists client wc,
    run o MCPRegistry._get_redis (stored name new w) = (Ok client, wc) /\
    servers (heap wc) = Dict.set name new (servers (heap w)) /\
    (forall url,
       client = Some url <->
       _redis (heap w) = Some url \/
       (_redis (heap w) = None /\ environ o "REDIS_URL" = Some url /\ url <> "" /\
        redis_reply o (S (S (tick w))) = None /\
        redis_reply o (S (S (S (tick w)))) = None)) /\
    run o (MCPRegistry.register lib name version description endpoint transport
             tools resources metadata) w
    = match client with
      | None => (Ok new, wc)
      | Some _ =>
          (match redis_reply o (tick wc) with
           | None => Ok new
           | Some msg => Err (RedisError msg)
           end,
           issue (Redis_hset "mcp:servers" name (MCPServerInfo.to_dict lib new)) wc)
      end.
Proof.
  intros new.
  destruct (get_redis_outcome o (stored name new w))
    as (client & wc & Hrun & _ & Hservers & Hcached & Hfresh).
  exists client, wc. split; [exact Hrun|]. split; [exact Hservers|]. split.
  - intros url. simpl in Hcached, Hfresh.
    destruct (_redis (heap w)) as [cached|] eqn:Hc.
    + destruct Hcached as [-> _]; [discriminate|]. split.
      * intros H. now left.
      * intros [H|(H & _)]; [exact H|discriminate].
    + rewrite (Hfresh eq_refl url). split.
      * intros H. right. split; [reflexivity|exact H].
      * intros [H|(_ & H)]; [discriminate|exact H].
  - unfold MCPRegistry.register. rewrite run_bind.
    change (run o (MCPServerInfo_init name version description endpoint transport
                     tools resources metadata) w)
      with (Ok new, consult (consult w)).
    cbv beta iota. rewrite run_bind.
    change (run o (MCPRegistry.modify_servers (Dict.set name new)) (consult (consult w)))
      with (@Ok unit tt, stored name new w).
    cbv beta iota. rewrite run_bind, Hrun. cbv beta iota.
    destruct client as [url|]; [|reflexivity].
    rewrite run_bind. unfold redis_do. simpl.
    now destruct (redis_reply o (tick wc)).
Qed.

(** C3, as the code has it.  From a well-formed registry, [register]
    always stores the new record under [name], replacing whatever was
    there: the stored record has exactly the supplied fields (an absent
    tools, resources or metadata argument stored as empty), every other
    entry is untouched, and [list_servers()] afterwards holds exactly one
    entry with that name, the new one.  Then the connection to the mirror
    is looked up or set up, which never raises: there is a client exactly
    when one was cached, or [REDIS_URL] is set, not empty, and both the
    connection and the ping succeeded.  Without a client nothing is
    written and [register] returns the record.  With a client the record
    is written to the mirror, and [register] returns the record when the
    write succeeds and raises the write's exception when it fails: that
    is the only way [register] raises. *)
Theorem register_overwrites (lib : PyLib) (o : Oracle) (w : World)
  (name version description endpoint transport : string)
  (tools resources : option (list (Dict.t json))) (metadata : option (Dict.t json)) :
  registry_ok (servers (heap w)) ->
  let new := fresh_record name version description endpoint transport
               tools resources metadata (clock o (tick w)) (clock o (S (tick w))) in
  exists r w',
    run o (MCPRegistry.register lib name version description endpoint transport
             tools resources metadata) w = (r, w') /\
    Dict.get name (servers (heap w')) = Some new /\
    MCPServerInfo.tools new = or_empty tools /\
    (forall other, other <> name ->
       Dict.get other (servers (heap w')) = Dict.get other (servers (heap w))) /\
    registry_ok (servers (heap w')) /\
    (exists before after,
       (forall o', fst (run o' (MCPRegistry.list_servers lib) w') =
                   Ok (before ++ MCPServerInfo.to_dict lib new :: after)%list) /\
       (forall d, In d (before ++ after)%list -> Dict.get "name" d <> Some (JStr name))) /\
    (r = Ok new \/ exists msg, r = Err (RedisError msg)) /\
    (_redis (heap w) = None -> environ o "REDIS_URL" = None -> r = Ok new) /\
    (exists client wc,
       run o MCPRegistry._get_redis (stored name new w) = (Ok client, wc) /\
       (forall url,
          client = Some url <->
          _redis (heap w) = Some url \/
          (_redis (heap w) = None /\ environ o "REDIS_URL" = Some url /\ url <> "" /\
           redis_reply o (S (S (tick w))) = None /\
           redis_reply o (S (S (S (tick w)))) = None)) /\
       (client = None -> r = Ok new /\ w' = wc) /\
       (client <> None ->
        w' = issue (Redis_hset "mcp:servers" name (MCPServerInfo.to_dict lib new)) wc /\
        (redis_reply o (tick wc) = None -> r = Ok new) /\
        (forall msg, redis_reply o (tick wc) = Some msg -> r = Err (RedisError msg)))).
Proof.
  intros Hok new.
  destruct (run_register lib o w name version description endpoint transport
              tools resources metadata) as (r & w' & Hrun & Hservers & Hr).
  fold new in Hservers, Hr.
  assert (Hok' : registry_ok (servers (heap w'))).
  { rewrite Hservers. now apply registry_ok_set. }
  assert (Hget : Dict.get name (servers (heap w')) = Some new).
  { rewrite Hservers. apply get_set_same. }
  exists r, w'. split; [exact Hrun|]. split; [exact Hget|]. split; [reflexivity|].
  split; [|split; [exact Hok'|split; [|split; [exact Hr|split]]]].
  - intros other Hne. rewrite Hservers. now apply get_set_other.
  - destruct (registry_ok_split _ _ _ Hok' Hget) as (before & after & Hvalues & Hothers).
    exists (map (MCPServerInfo.to_dict lib) before),
           (map (MCPServerInfo.to_dict lib) after).
    split.
    + intros o'. unfold MCPRegistry.list_servers. simpl.
      rewrite Hvalues, map_app. reflexivity.
    + intros d Hin. rewrite <- map_app in Hin. apply in_map_iff in Hin.
      destruct Hin as (s & <- & Hin). rewrite to_dict_name.
      intros [= Hname]. now apply (Hothers s).
  - intros Hnone Henv.
    pose proof (run_register_without_redis lib o w name version description endpoint
                  transport tools resources metadata Hnone Henv) as H.
    rewrite Hrun in H. exact H.
  - destruct (run_register_mirror lib o w name version description endpoint transport
                tools resources metadata) as (client & wc & Hclient & _ & Hwhen & Hfull).
    fold new in Hclient, Hwhen, Hfull. rewrite Hrun in Hfull.
    exists client, wc. split; [exact Hclient|]. split; [exact Hwhen|].
    destruct client as [url|].
    + split; [discriminate|]. intros _. injection Hfull as -> ->.
      split; [reflexivity|]. split.
      * intros H. now rewrite H.
      * intros msg H. now rewrite H.
    + split; [|intros H; now destruct H]. intros _. injection Hfull as -> ->. now split.
Qed.

Lemma world_a_ok : registry_ok (servers (heap world_a)).
Proof.
  split.
  - repeat constructor. simpl. tauto.
  - intros k s [H|[]]. now injection H as <- <-.
Qed.

Lemma register_overwrites_witness :
  registry_ok (servers (heap world_a)) /\
  exists r w',
    run (oracle_of reply_ok)
      (MCPRegistry.register lib0 "a" "2.0" "again" "http://a2" "http"
         (Some [sample_tool "q"]) None None) world_a = (r, w') /\
    r = Ok (fresh_record "a" "2.0" "again" "http://a2" "http"
              (Some [sample_tool "q"]) None None 2 3).
Proof.
  pose proof world_a_ok as H.
  split; [exact H|].
  destruct (register_overwrites lib0 (oracle_of reply_ok) world_a
              "a" "2.0" "again" "http://a2" "http"
              (Some [sample_tool "q"]) None None H)
    as (r & w' & Hrun & _ & _ & _ & _ & _ & _ & Hr & _).
  exists r, w'. split; [exact Hrun|]. apply Hr; reflexivity.
Defined.

(** C3, as stated, fails: with a Redis mirror that answered the ping and
    then drops the connection, [register] raises, after having stored the
    record. *)
Lemma register_raises_when_mirror_write_fails :
  let outcome :=
    run oracle_redis_lost
      (MCPRegistry.register lib0 "a" "1.0" "first" "http://a" "http"
         (Some [sample_tool "x"; sample_tool "y"]) None None) world0 in
  fst outcome = Err (RedisError "Connection lost") /\
  Dict.get "a" (servers (heap (snd outcome))) = Some server_a.
Proof. split; reflexivity. Qed.

(** ** Dispatch *)

Lemma run_get_client o w : run o MCPRouter._get_client w = (Ok tt, client_ready w).
Proof.
  unfold MCPRouter._get_client, client_ready. simpl.
  now destruct (_http_client (heap w)).
Qed.

Lemma servers_client_ready w : servers (heap (client_ready w)) = servers (heap w).
Proof. unfold client_ready. now destruct (_http_client (heap w)). Qed.

Lemma tick_client_ready w : tick (client_ready w) = tick w.
Proof. unfold client_ready. now destruct (_http_client (heap w)). Qed.

Lemma trace_client_ready w : trace (client_ready w) = trace w.
Proof. unfold client_ready. now destruct (_http_client (heap w)). Qed.

Lemma run_client_post o w url body :
  run o (client_post url body) w =
  (match http_reply o (tick w) with
   | Responded r => Ok r
   | ConnectFailed msg => Err (ConnectError msg)
   | TimedOut msg => Err (TimeoutException msg)
   | Failed msg => Err (OtherException msg)
   end, issue (Http_post url body) w).
Proof. unfold client_post. simpl. now destruct (http_reply o (tick w)). Qed.

Lemma run_client_get o w url :
  run o (client_get url) w =
  (match http_reply o (tick w) with
   | Responded r => Ok r
   | ConnectFailed msg => Err (ConnectError msg)
   | TimedOut msg => Err (TimeoutException msg)
   | Failed msg => Err (OtherException msg)
   end, issue (Http_get url) w).
Proof. unfold client_get. simpl. now destruct (http_reply o (tick w)). Qed.

Lemma not_2xx r :
  status_code r < 200 \/ 299 < status_code r ->
  (200 <=? status_code r) && (status_code r <=? 299) = false.
Proof.
  intros H. apply andb_false_iff.
  destruct H; [left; apply Z.leb_gt|right; apply Z.leb_gt]; lia.
Qed.

(** C5. An unknown server name, or a known server whose status is not
    ["available"], makes [call_tool] raise the corresponding [ValueError]
    with the world exactly as it was: no HTTP request was issued, the
    registry is unchanged. *)
Theorem call_tool_rejects_before_dispatch (lib : PyLib) (o : Oracle) (w : World)
  (server_name tool_name : string) (arguments : Dict.t json)
  (session_id trace_id : option string) :
  (Dict.get server_name (servers (heap w)) = None ->
   run o (MCPRouter.call_tool lib server_name tool_name arguments session_id trace_id) w
   = (Err (ValueError ("Server not found: " ++ server_name)), w))
  /\ (forall server,
        Dict.get server_name (servers (heap w)) = Some server ->
        MCPServerInfo.status server <> "available" ->
        run o (MCPRouter.call_tool lib server_name tool_name arguments session_id trace_id) w
        = (Err (ValueError ("Server " ++ server_name ++ " is not available (status: "
                              ++ MCPServerInfo.status server ++ ")")), w)).
Proof.
  split.
  - intros H. unfold MCPRouter.call_tool. simpl. now rewrite H.
  - intros server H Hstatus. unfold MCPRouter.call_tool. simpl. rewrite H.
    apply String.eqb_neq in Hstatus. now rewrite Hstatus.
Qed.


(** A timeout (a connect timeout included: [httpx.ConnectTimeout] is a
    [TimeoutException], not a [ConnectError]) takes the generic handler:
    the exception propagates and the provider is not marked. *)
Lemma call_tool_timeout_marks_nothing lib o w server_name tool_name arguments
  session_id trace_id server msg :
  Dict.get server_name (servers (heap w)) = Some server ->
  MCPServerInfo.status server = "available" ->
  MCPServerInfo.transport server = "http" ->
  http_reply o (tick w) = TimedOut msg ->
  exists w',
    run o (MCPRouter.call_tool lib server_name tool_name arguments session_id trace_id) w
    = (Err (TimeoutException msg), w') /\
    servers (heap w') = servers (heap w).
Proof.
  intros Hget Hstatus Htransport Hreply.
  eexists. unfold MCPRouter.call_tool.
  rewrite run_bind. simpl run at 1. cbv beta iota.
  rewrite Hget, Hstatus. simpl negb. cbv iota.
  rewrite run_bind, run_get_client. cbv beta iota.
  rewrite run_try_except, Htransport. simpl String.eqb. cbv iota.
  rewrite run_bind, run_client_post, tick_client_ready, Hreply. cbv beta iota.
  simpl run. split; [reflexivity|]. simpl. apply servers_client_ready.
Qed.


(** C7, as the code has it.  [read_resource] dispatches to a registered
    http provider whatever its status, and when the provider answers with
    a non-2xx status or the connection fails, the exception propagates
    with the registry exactly as it was: the provider is not marked. *)
Theorem read_resource_marks_nothing (lib : PyLib) (o : Oracle) (w : World)
  (server_name uri : string) (session_id : option string) (server : MCPServerInfo.t) :
  Dict.get server_name (servers (heap w)) = Some server ->
  MCPServerInfo.transport server = "http" ->
  let url := MCPServerInfo.endpoint server ++ "/mcp" in
  let request := Http_post url (MCPRouter.resources_read_request uri) in
  (forall r,
     http_reply o (tick w) = Responded r ->
     status_code r < 200 \/ 299 < status_code r ->
     exists w',
       run o (MCPRouter.read_resource lib server_name uri session_id) w
       = (Err (HTTPStatusError (status_code r)
                 (status_error_message lib r url)), w') /\
       servers (heap w') = servers (heap w) /\
       trace w' = (trace w ++ [request])%list)
  /\ (forall msg,
        http_reply o (tick w) = ConnectFailed msg ->
        exists w',
          run o (MCPRouter.read_resource lib server_name uri session_id) w
          = (Err (ConnectError msg), w') /\
          servers (heap w') = servers (heap w) /\
          trace w' = (trace w ++ [request])%list).
Proof.
  intros Hget Htransport url request. split.
  - intros r Hreply Hcode.
    eexists. unfold MCPRouter.read_resource.
    rewrite run_bind. simpl run at 1. cbv beta iota. rewrite Hget.
    rewrite run_bind, run_get_client. cbv beta iota.
    rewrite run_try_except, Htransport. simpl String.eqb. cbv iota.
    rewrite run_bind, run_client_post, tick_client_ready, Hreply. cbv beta iota.
    rewrite run_bind. unfold raise_for_status. rewrite (not_2xx r Hcode).
    simpl run. split; [reflexivity|]. simpl.
    now rewrite servers_client_ready, trace_client_ready.
  - intros msg Hreply.
    eexists. unfold MCPRouter.read_resource.
    rewrite run_bind. simpl run at 1. cbv beta iota. rewrite Hget.
    rewrite run_bind, run_get_client. cbv beta iota.
    rewrite run_try_except, Htransport. simpl String.eqb. cbv iota.
    rewrite run_bind, run_client_post, tick_client_ready, Hreply. cbv beta iota.
    simpl run. split; [reflexivity|]. simpl.
    now rewrite servers_client_ready, trace_client_ready.
Qed.

(** Provider [a] answers HTTP 500: after [read_resource] it is still
    ["available"]. *)
Lemma read_resource_marks_nothing_witness :
  exists w',
    run (oracle_of reply_500) (MCPRouter.read_resource lib0 "a" "db://schemas" None) world_a
    = (Err (HTTPStatusError 500 "status error"), w') /\
    servers (heap w') = servers (heap world_a) /\
    trace w' = [Http_post "http://a/mcp" (MCPRouter.resources_read_request "db://schemas")].
Proof.
  destruct (read_resource_marks_nothing lib0 (oracle_of reply_500) world_a
              "a" "db://schemas" None server_a eq_refl eq_refl) as [H _].
  exact (H _ eq_refl (or_intror eq_refl)).
Defined.

(** ** Health checks *)

Lemma run_get_server lib o w name server :
  Dict.get name (servers (heap w)) = Some server ->
  run o (MCPRegistry.get_server lib name) w
  = (Ok (Some (MCPServerInfo.to_dict lib server)), w).
Proof. intros H. unfold MCPRegistry.get_server. simpl. now rewrite H. Qed.

Lemma health_recorded_intro o w server_name server status reason report :
  Dict.get server_name (servers (heap w)) = Some server ->
  run o (MCPRouter.check_server_health server_name) w
  = (Ok report,
     status_written o server_name status (issue (Http_get (MCPServerInfo.endpoint server ++ "/health")) (client_ready w))) ->
  Dict.get "name" report = Some (JStr server_name) ->
  Dict.get "status" report = Some (JStr status) ->
  Dict.get "error" report = option_map JStr reason ->
  health_recorded o w server_name server status reason.
Proof.
  intros Hget Hrun Hname Hstatus Herror.
  assert (Hget' : Dict.get server_name
                    (servers (heap (issue (Http_get (MCPServerInfo.endpoint server ++ "/health"))
                                      (client_ready w)))) = Some server).
  { simpl. now rewrite servers_client_ready. }
  assert (Hnew := get_status_written o _ server_name status server Hget').
  simpl tick in Hnew. rewrite tick_client_ready in Hnew.
  exists report. eexists. split; [exact Hrun|].
  repeat (split; [assumption|]).
  intros lib o'. eexists. rewrite (run_get_server lib o' _ server_name _ Hnew).
  split; reflexivity.
Qed.

(** Runs [check_server_health] up to the answer of the probe. *)
Ltac probe_health Hget Htransport Hreply :=
  unfold MCPRouter.check_server_health;
  rewrite run_bind; simpl run at 1; cbv beta iota; rewrite Hget;
  rewrite run_bind, run_get_client; cbv beta iota;
  rewrite run_try_except, Htransport; simpl String.eqb; cbv iota;
  rewrite run_bind, run_client_get, tick_client_ready, Hreply; cbv beta iota.

(** C4. For a registered provider with http transport, whatever its
    previous status: an HTTP 200 answer records ["available"]; any other
    HTTP status records ["degraded"]; a connection failure records
    ["unavailable"] with reason "Connection refused"; a timeout records
    ["degraded"] with reason "Timeout".  The recorded status is returned
    in the report, written into the registry and shown by a following
    [get_server]. *)
Theorem check_server_health_records_outcome (o : Oracle) (w : World)
  (server_name : string) (server : MCPServerInfo.t) :
  Dict.get server_name (servers (heap w)) = Some server ->
  MCPServerInfo.transport server = "http" ->
  (forall r, http_reply o (tick w) = Responded r -> status_code r = 200 ->
     health_recorded o w server_name server "available" None)
  /\ (forall r, http_reply o (tick w) = Responded r -> status_code r <> 200 ->
        health_recorded o w server_name server "degraded" None)
  /\ (forall msg, http_reply o (tick w) = ConnectFailed msg ->
        health_recorded o w server_name server "unavailable" (Some "Connection refused"))
  /\ (forall msg, http_reply o (tick w) = TimedOut msg ->
        health_recorded o w server_name server "degraded" (Some "Timeout")).
Proof.
  intros Hget Htransport.
  assert (Hget' : Dict.get server_name
                    (servers (heap (issue (Http_get (MCPServerInfo.endpoint server ++ "/health"))
                                      (client_ready w)))) = Some server).
  { simpl. now rewrite servers_client_ready. }
  repeat split.
  - intros r Hreply Hcode.
    eapply health_recorded_intro with (1 := Hget).
    { probe_health Hget Htransport Hreply.
      rewrite Hcode. simpl Z.eqb. cbv iota.
      rewrite run_bind.
      rewrite (run_update_server_status_known o _ server_name "available" server Hget').
      reflexivity. }
    all: reflexivity.
  - intros r Hreply Hcode.
    eapply health_recorded_intro with (1 := Hget).
    { probe_health Hget Htransport Hreply.
      apply Z.eqb_neq in Hcode. rewrite Hcode.
      rewrite run_bind.
      rewrite (run_update_server_status_known o _ server_name "degraded" server Hget').
      reflexivity. }
    all: reflexivity.
  - intros msg Hreply.
    eapply health_recorded_intro with (1 := Hget).
    { probe_health Hget Htransport Hreply.
      rewrite run_bind.
      rewrite (run_update_server_status_known o _ server_name "unavailable" server Hget').
      reflexivity. }
    all: reflexivity.
  - intros msg Hreply.
    eapply health_recorded_intro with (1 := Hget).
    { probe_health Hget Htransport Hreply.
      rewrite run_bind.
      rewrite (run_update_server_status_known o _ server_name "degraded" server Hget').
      reflexivity. }
    all: reflexivity.
Qed.

Lemma check_server_health_records_outcome_witness :
  health_recorded (oracle_of (ConnectFailed "refused")) world_a "a" server_a
    "unavailable" (Some "Connection refused").
Proof.
  destruct (check_server_health_records_outcome (oracle_of (ConnectFailed "refused"))
              world_a "a" server_a eq_refl eq_refl) as (_ & _ & H & _).
  exact (H "refused" eq_refl).
Defined.

(** ** Unregistration *)

Lemma remove_absent (d : Dict.t MCPServerInfo.t) k :
  Dict.mem k d = false -> Dict.remove k d = d.
Proof.
  unfold Dict.mem. induction d as [|[k' v'] d IH]; simpl; auto.
  destruct (k' =? k)%string; [discriminate|]. intros H. now rewrite IH.
Qed.

Lemma unregister_mirror_keeps name :
  preserves eq
    (redis_client <- MCPRegistry._get_redis ;;
     match redis_client with
     | Some _ => redis_do (RedisHdel "mcp:servers" name)
     | None => Ret tt
     end ;;
     Ret true).
Proof.
  keeps_step; [apply get_redis_keeps|].
  keeps_step; [|keeps_step]. destruct a; keeps_step.
Qed.

(** [unregister] always leaves the table without [name], whatever the
    Redis mirror does. *)
Lemma servers_after_unregister o w name :
  servers (heap (snd (run o (MCPRegistry.unregister name) w))) =
  Dict.remove name (servers (heap w)).
Proof.
  unfold MCPRegistry.unregister. rewrite run_bind. simpl run at 1. cbv beta iota.
  destruct (Dict.mem name (servers (heap w))) eqn:E.
  - rewrite run_bind.
    change (run o (MCPRegistry.modify_servers (Dict.remove name)) w)
      with (@Ok unit tt,
            put_heap (with_servers (Dict.remove name (servers (heap w))) (heap w)) w).
    cbv beta iota.
    symmetry.
    match goal with |- _ = servers (heap (snd (run o _ ?w1))) =>
      exact (unregister_mirror_keeps name o w1)
    end.
  - simpl. now rewrite remove_absent.
Qed.

Lemma registry_ok_unregister o w name :
  registry_ok (servers (heap w)) ->
  registry_ok (servers (heap (snd (run o (MCPRegistry.unregister name) w)))).
Proof.
  intros H. rewrite servers_after_unregister. now apply registry_ok_remove.
Qed.

Lemma In_values (d : Dict.t MCPServerInfo.t) s :
  In s (Dict.values d) <-> exists k, In (k, s) d.
Proof.
  unfold Dict.values. rewrite in_map_iff. split.
  - intros ([k s'] & <- & H). now exists k.
  - intros [k H]. now exists (k, s).
Qed.

Lemma In_all_tools_of values e :
  In e (MCPRegistry.all_tools_of values) <->
  exists s tool,
    In s values /\ In tool (MCPServerInfo.tools s) /\ e = MCPRegistry.annotate s tool.
Proof.
  unfold MCPRegistry.all_tools_of. rewrite in_flat_map. split.
  - intros (s & Hs & He). apply in_map_iff in He. destruct He as (tool & <- & Ht).
    now exists s, tool.
  - intros (s & tool & Hs & Ht & ->). exists s. split; auto. now apply in_map.
Qed.

(** The ["server"] key of a catalog entry is the tool's own when the
    descriptor has one, else the owner's name. *)
Lemma annotate_server s tool v :
  Dict.get "server" (MCPRegistry.annotate s tool) = Some v ->
  In ("server", v) tool \/ v = JStr (MCPServerInfo.name s).
Proof.
  unfold MCPRegistry.annotate. intros H. apply get_update in H.
  destruct H as [H|H]; auto. simpl in H. injection H as <-. now right.
Qed.

(** C8. From a well-formed registry, after [register] of a provider
    named [name] and [unregister name], whatever the Redis mirror did:
    the table is the one before the registration without any entry under
    [name] (exactly the table before, when the name was new);
    [list_all_tools()] is the catalog of the remaining providers, so
    every entry is a tool of a provider other than the one removed,
    annotated with that provider's name, which is not [name]; and
    [find_tool_server] returns none for every tool name the provider had
    declared that no other provider declares.  (The ["server"] key of an
    entry is the annotation unless the descriptor carries a ["server"]
    entry of its own; when no remaining descriptor carries [name] there,
    no entry reads [name] under that key.) *)
Theorem unregister_removes_from_discovery (lib : PyLib) (o : Oracle) (w : World)
  (name version description endpoint transport : string)
  (tools resources : option (list (Dict.t json))) (metadata : option (Dict.t json)) :
  registry_ok (servers (heap w)) ->
  let w1 := snd (run o (MCPRegistry.register lib name version description endpoint
                          transport tools resources metadata) w) in
  let w2 := snd (run o (MCPRegistry.unregister name) w1) in
  (forall k s, In (k, s) (servers (heap w2)) <-> In (k, s) (servers (heap w)) /\ k <> name)
  /\ servers (heap w2) = Dict.remove name (servers (heap w))
  /\ (Dict.get name (servers (heap w)) = None -> servers (heap w2) = servers (heap w))
  /\ exists entries,
       (forall o', run o' MCPRegistry.list_all_tools w2 = (Ok entries, w2)) /\
       entries = MCPRegistry.all_tools_of (Dict.values (Dict.remove name (servers (heap w)))) /\
       (forall e, In e entries ->
          exists k s tool,
            In (k, s) (servers (heap w)) /\ k <> name /\ MCPServerInfo.name s <> name /\
            In tool (MCPServerInfo.tools s) /\ e = MCPRegistry.annotate s tool) /\
       ((forall k s tool,
           In (k, s) (servers (heap w)) -> k <> name ->
           In tool (MCPServerInfo.tools s) -> ~ In ("server", JStr name) tool) ->
        forall e, In e entries -> Dict.get "server" e <> Some (JStr name)) /\
       (forall tool t,
          In tool (or_empty tools) -> Dict.get "name" tool = Some (JStr t) ->
          (forall k s, In (k, s) (servers (heap w)) -> k <> name -> ~ declares t s) ->
          forall o', run o' (MCPRegistry.find_tool_server t) w2 = (Ok None, w2)).
Proof.
  intros [Hwf Hkeyed] w1 w2.
  assert (Hservers : servers (heap w2) = Dict.remove name (servers (heap w))).
  { unfold w2. rewrite servers_after_unregister. unfold w1.
    destruct (run_register lib o w name version description endpoint transport
                tools resources metadata) as (r & w' & Hrun & Hs & _).
    rewrite Hrun. simpl. rewrite Hs. apply remove_set. }
  assert (Hrest : forall k s,
             In (k, s) (servers (heap w2)) <-> In (k, s) (servers (heap w)) /\ k <> name).
  { intros k s. rewrite Hservers. now apply remove_spec. }
  assert (Horigin : forall e,
             In e (MCPRegistry.all_tools_of (Dict.values (servers (heap w2)))) ->
             exists k s tool,
               In (k, s) (servers (heap w)) /\ k <> name /\ MCPServerInfo.name s <> name /\
               In tool (MCPServerInfo.tools s) /\ e = MCPRegistry.annotate s tool).
  { intros e He. apply In_all_tools_of in He. destruct He as (s & tool & Hs & Ht & ->).
    apply In_values in Hs. destruct Hs as [k Hs]. apply Hrest in Hs.
    destruct Hs as [Hs Hne]. exists k, s, tool. repeat split; auto.
    now rewrite (Hkeyed k s Hs). }
  split; [exact Hrest|]. split; [exact Hservers|]. split.
  { intros Hnew. rewrite Hservers. apply remove_absent.
    unfold Dict.mem. now rewrite Hnew. }
  exists (MCPRegistry.all_tools_of (Dict.values (servers (heap w2)))).
  split; [intros o'; reflexivity|]. split; [now rewrite Hservers|].
  split; [exact Horigin|]. split.
  - intros Hown e He Hserver.
    destruct (Horigin e He) as (k & s & tool & Hs & Hne & Hname & Ht & ->).
    apply annotate_server in Hserver. destruct Hserver as [H|H].
    + now apply (Hown k s tool).
    + injection H as H. congruence.
  - intros tool t _ _ Hothers o'. unfold MCPRegistry.find_tool_server. simpl.
    f_equal. f_equal. apply first_server_with_None.
    intros s Hs. apply In_values in Hs. destruct Hs as [k Hs]. apply Hrest in Hs.
    destruct Hs as [Hs Hne]. now apply (Hothers k s).
Qed.

Lemma unregister_removes_from_discovery_witness :
  registry_ok (servers (heap world_a)) /\
  (let w1 := snd (run (oracle_of reply_ok)
                    (MCPRegistry.register lib0 "b" "1.0" "second" "http://b" "http"
                       (Some [sample_tool "y"; sample_tool "z"]) None None) world_a) in
   let w2 := snd (run (oracle_of reply_ok) (MCPRegistry.unregister "b") w1) in
   run (oracle_of reply_ok) (MCPRegistry.find_tool_server "z") w2 = (Ok None, w2)).
Proof.
  split; [exact world_a_ok|].
  destruct (unregister_removes_from_discovery lib0 (oracle_of reply_ok) world_a
              "b" "1.0" "second" "http://b" "http"
              (Some [sample_tool "y"; sample_tool "z"]) None None world_a_ok)
    as (_ & _ & _ & entries & _ & _ & _ & _ & H).
  apply (H (sample_tool "z") "z").
  - simpl. auto.
  - reflexivity.
  - intros k s [Hin|[]] _ (tool & Htool & Hname).
    injection Hin as <- <-. simpl in Htool.
    destruct Htool as [<-|[<-|[]]]; discriminate.
Defined.

(** A descriptor's own ["server"] entry is not an annotation: provider
    [q] holds a tool descriptor with the entry ["server": "p"], and the
    catalog shows its tool with that entry before a provider [p] is
    registered and after it was registered and unregistered alike. *)
Example descriptor_server_entry_is_kept :
  let o := oracle_of reply_ok in
  let w1 := snd (run o (MCPRegistry.register lib0 "p" "1.0" "provider" "http://p" "http"
                          (Some [sample_tool "x"]) None None) world_q) in
  let w2 := snd (run o (MCPRegistry.unregister "p") w1) in
  exists e,
    fst (run o MCPRegistry.list_all_tools world_q) = Ok [e] /\
    fst (run o MCPRegistry.list_all_tools w2) = Ok [e] /\
    Dict.get "server" e = Some (JStr "p").
Proof. eexists. repeat split. Qed.

(** ** Interleavings and the provider table *)

Lemma suspends_not_store X (ev : Eff X) : suspends ev = true -> is_store ev = false.
Proof. destruct ev; simpl; auto; discriminate. Qed.

Lemma disciplined_weaken A (c : Co A) v : disciplined None c -> disciplined v c.
Proof.
  intros H. remember None as v0 eqn:Hv. revert v.
  induction H as [v0 a|v0 e|v0 k Hk IH|d h k Hf Hk IH|v0 X ev k Hs Hk IH|v0 X ev k Hs Hn Hk IH];
    intros v; subst; try discriminate.
  - constructor.
  - constructor.
  - now apply disciplined_load.
  - now apply disciplined_await.
  - apply disciplined_other; auto.
Qed.

Lemma disciplined_bind A B (c : Co A) (f : A -> Co B) v :
  disciplined v c -> (forall a, disciplined None (f a)) -> disciplined v (bind c f).
Proof.
  intros Hc Hf.
  induction Hc as [v a|v e|v k Hk IH|d h k Hfr Hk IH|v X ev k Hs Hk IH|v X ev k Hs Hn Hk IH];
    simpl.
  - apply disciplined_weaken, Hf.
  - constructor.
  - apply disciplined_load. auto.
  - apply disciplined_store; auto.
  - apply disciplined_await; auto.
  - apply disciplined_other; auto.
Qed.

Lemma disciplined_try_except A (c : Co A) (h : exn -> Co A) v :
  disciplined v c -> (forall e, disciplined None (h e)) -> disciplined v (try_except c h).
Proof.
  intros Hc Hh.
  induction Hc as [v a|v e|v k Hk IH|d h0 k Hfr Hk IH|v X ev k Hs Hk IH|v X ev k Hs Hn Hk IH];
    simpl.
  - constructor.
  - apply disciplined_weaken, Hh.
  - apply disciplined_load. auto.
  - apply disciplined_store; auto.
  - apply disciplined_await; auto.
  - apply disciplined_other; auto.
Qed.

Lemma no_store_disciplined A (c : Co A) v : no_store c -> disciplined v c.
Proof.
  intros H. revert v. induction H as [a|e|X ev k Hev Hk IH]; intros v.
  - constructor.
  - constructor.
  - destruct (suspends ev) eqn:E.
    + apply disciplined_await; auto.
    + apply disciplined_other; auto.
Qed.

Lemma no_store_trigger X (ev : Eff X) : is_store ev = false -> no_store (trigger ev).
Proof. intros H. constructor; auto. intros x. constructor. Qed.

Lemma disciplined_modify_servers f v :
  (forall d, frame d (f d)) -> disciplined v (MCPRegistry.modify_servers f).
Proof.
  intros Hf. unfold MCPRegistry.modify_servers. simpl.
  apply disciplined_load. intros h. apply disciplined_store; [apply Hf|constructor].
Qed.

Lemma disciplined_update_server_status name status v :
  disciplined v (MCPRegistry.update_server_status name status).
Proof.
  unfold MCPRegistry.update_server_status.
  apply disciplined_bind; [apply no_store_disciplined, no_store_trigger; reflexivity|].
  intros h. destruct (Dict.mem name (servers h)); [|constructor].
  apply disciplined_bind.
  { apply disciplined_modify_servers. intros d. apply frame_modify.
    intros s. apply (same_identity_touch status (MCPServerInfo.last_health_check s)). }
  intros _. apply disciplined_bind.
  { apply no_store_disciplined, no_store_trigger. reflexivity. }
  intros now. apply disciplined_bind; [|constructor].
  apply disciplined_modify_servers. intros d. apply frame_modify.
  intros s. apply (same_identity_touch (MCPServerInfo.status s) now).
Qed.

Lemma disciplined_get_client v : disciplined v MCPRouter._get_client.
Proof.
  unfold MCPRouter._get_client. simpl. apply disciplined_load. intros h.
  destruct (_http_client h); [constructor|].
  apply disciplined_store; [apply frame_refl|constructor].
Qed.

Lemma no_store_client_get url : no_store (client_get url).
Proof.
  unfold client_get, trigger. simpl. constructor; [reflexivity|].
  intros [r|msg|msg|msg]; constructor.
Qed.

Lemma disciplined_check_server_health name v :
  disciplined v (MCPRouter.check_server_health name).
Proof.
  unfold MCPRouter.check_server_health.
  apply disciplined_bind; [apply no_store_disciplined, no_store_trigger; reflexivity|].
  intros h. destruct (Dict.get name (servers h)) as [server|]; [|constructor].
  apply disciplined_bind; [apply disciplined_get_client|].
  intros _. apply disciplined_try_except.
  - destruct (MCPServerInfo.transport server =? "http")%string; [|constructor].
    apply disciplined_bind; [apply no_store_disciplined, no_store_client_get|].
    intros response. destruct (status_code response =? 200);
      (apply disciplined_bind; [apply disciplined_update_server_status|constructor]).
  - intros e. destruct e;
      (apply disciplined_bind; [apply disciplined_update_server_status|constructor]).
Qed.

Lemma disciplined_router_call_tool lib server_name tool_name arguments session_id trace_id v :
  disciplined v
    (MCPRouter.call_tool lib server_name tool_name arguments session_id trace_id).
Proof.
  unfold MCPRouter.call_tool.
  apply disciplined_bind; [apply no_store_disciplined, no_store_trigger; reflexivity|].
  intros h. destruct (Dict.get server_name (servers h)) as [server|]; [|constructor].
  destruct (negb _); [constructor|].
  apply disciplined_bind; [apply disciplined_get_client|].
  intros _. apply disciplined_try_except.
  - destruct (MCPServerInfo.transport server =? "http")%string; [|constructor].
    apply no_store_disciplined, no_store_post.
  - intros e. destruct e; try apply disciplined_throw;
      (apply disciplined_bind;
       [apply disciplined_update_server_status|intros; apply disciplined_throw]).
Qed.

Lemma disciplined_call_tool lib req v : disciplined v (Gateway.call_tool lib req).
Proof.
  unfold Gateway.call_tool.
  apply disciplined_bind.
  { destruct (truthy _); [constructor|].
    apply no_store_disciplined, no_store_trigger. reflexivity. }
  intros request_id. apply disciplined_bind.
  { apply no_store_disciplined, no_store_trigger. reflexivity. }
  intros start_time.
  assert (Hexec : forall server_name v',
             disciplined v'
               (result <- MCPRouter.call_tool lib server_name (MCPToolCall.tool req)
                            (MCPToolCall.arguments req) (MCPToolCall.session_id req)
                            (Some request_id) ;;
                now <- trigger UtcNow ;;
                Ret {| MCPResponse.id := request_id;
                       MCPResponse.success := true;
                       MCPResponse.result := result;
                       MCPResponse.error := None;
                       MCPResponse.server := Some server_name;
                       MCPResponse.execution_time_ms := Some (now - start_time) |})).
  { intros server_name v'.
    apply disciplined_bind; [apply disciplined_router_call_tool|].
    intros result. apply disciplined_bind; [|constructor].
    apply no_store_disciplined, no_store_trigger. reflexivity. }
  apply disciplined_try_except.
  - destruct (truthy (MCPToolCall.server req)); [apply Hexec|].
    apply disciplined_bind.
    { unfold MCPRegistry.find_tool_server.
      apply disciplined_bind; [|constructor].
      apply no_store_disciplined, no_store_trigger. reflexivity. }
    intros found. destruct (truthy found); [apply Hexec|constructor].
  - intros e. apply disciplined_bind; [|constructor].
    apply no_store_disciplined, no_store_trigger. reflexivity.
Qed.

(** One scheduling slice of a disciplined coroutine keeps the frame of the
    table and leaves a coroutine that is disciplined from scratch. *)
Lemma disciplined_advance A (c : Co A) v o w :
  disciplined v c -> view_ok v w ->
  frame (servers (heap w)) (servers (heap (snd (advance o c w)))) /\
  disciplined None (fst (advance o c w)).
Proof.
  intros Hc. revert w.
  induction Hc as [v a|v e|v k Hk IH|d h k Hfr Hk IH|v X ev k Hs Hk IH|v X ev k Hs Hn Hk IH];
    intros w Hview.
  - simpl. split; [apply frame_refl|constructor].
  - simpl. split; [apply frame_refl|constructor].
  - simpl. apply IH. reflexivity.
  - simpl. simpl in Hview. subst d.
    destruct (IH (put_heap h w) eq_refl) as [Hframe Hrest].
    split; auto. eapply frame_trans; [exact Hfr|exact Hframe].
  - simpl. pose proof (handle_keeps_servers o X ev w (suspends_not_store X ev Hs)) as Hsame.
    destruct (handle o ev w) as [x w']. rewrite Hs. simpl in *.
    split; [rewrite Hsame; apply frame_refl|apply Hk].
  - simpl. pose proof (handle_keeps_servers o X ev w Hn) as Hsame.
    destruct (handle o ev w) as [x w']. rewrite Hs. simpl in Hsame.
    destruct (IH x w') as [Hframe Hrest].
    { destruct v; simpl in *; congruence. }
    split; auto. rewrite <- Hsame. exact Hframe.
Qed.

Lemma disciplined_run A (c : Co A) v o w :
  disciplined v c -> view_ok v w ->
  frame (servers (heap w)) (servers (heap (snd (run o c w)))).
Proof.
  intros Hc. revert w.
  induction Hc as [v a|v e|v k Hk IH|d h k Hfr Hk IH|v X ev k Hs Hk IH|v X ev k Hs Hn Hk IH];
    intros w Hview.
  - apply frame_refl.
  - apply frame_refl.
  - simpl. apply IH. reflexivity.
  - simpl. simpl in Hview. subst d.
    eapply frame_trans; [exact Hfr|]. now apply (IH (put_heap h w)).
  - simpl. pose proof (handle_keeps_servers o X ev w (suspends_not_store X ev Hs)) as Hsame.
    destruct (handle o ev w) as [x w']. simpl in Hsame. rewrite <- Hsame.
    now apply IH.
  - simpl. pose proof (handle_keeps_servers o X ev w Hn) as Hsame.
    destruct (handle o ev w) as [x w']. simpl in Hsame. rewrite <- Hsame.
    apply IH. destruct v; simpl in *; congruence.
Qed.

Lemma start_all_frame A o (pool : list (Co A)) w :
  Forall (disciplined None) pool ->
  frame (servers (heap w)) (servers (heap (snd (start_all o pool w)))) /\
  Forall (disciplined None) (fst (start_all o pool w)).
Proof.
  intros H. revert w. induction H as [|c pool Hc Hpool IH]; intros w; simpl.
  - split; [apply frame_refl|constructor].
  - destruct (disciplined_advance A c None o w Hc I) as [Hf Hc'].
    destruct (advance o c w) as [c' w1]. destruct (IH w1) as [Hf' Hpool'].
    destruct (start_all o pool w1) as [rest' w2]. simpl in *.
    split; [eapply frame_trans; eauto|now constructor].
Qed.

Lemma advance_nth_frame A o i (pool : list (Co A)) w :
  Forall (disciplined None) pool ->
  frame (servers (heap w)) (servers (heap (snd (advance_nth o i pool w)))) /\
  Forall (disciplined None) (fst (advance_nth o i pool w)).
Proof.
  intros H. revert i w. induction H as [|c pool Hc Hpool IH]; intros i w; simpl.
  - split; [apply frame_refl|constructor].
  - destruct i as [|i].
    + destruct (disciplined_advance A c None o w Hc I) as [Hf Hc'].
      destruct (advance o c w) as [c' w1]. simpl in *. split; auto.
    + destruct (IH i w) as [Hf Hpool'].
      destruct (advance_nth o i pool w) as [rest' w1]. simpl in *. split; auto.
Qed.

Lemma resume_frame A o schedule (pool : list (Co A)) w :
  Forall (disciplined None) pool ->
  frame (servers (heap w)) (servers (heap (snd (resume o schedule pool w)))) /\
  Forall (disciplined None) (fst (resume o schedule pool w)).
Proof.
  revert pool w. induction schedule as [|i schedule IH]; intros pool w H; simpl.
  - split; [apply frame_refl|exact H].
  - destruct (advance_nth_frame A o i pool w H) as [Hf Hpool].
    destruct (advance_nth o i pool w) as [pool' w']. simpl in *.
    destruct (IH pool' w' Hpool) as [Hf' Hpool'].
    split; [eapply frame_trans; eauto|exact Hpool'].
Qed.

Lemma finish_all_frame A o (pool : list (Co A)) w :
  Forall (disciplined None) pool ->
  frame (servers (heap w)) (servers (heap (snd (finish_all o pool w)))).
Proof.
  intros H. revert w. induction H as [|c pool Hc Hpool IH]; intros w; simpl.
  - apply frame_refl.
  - pose proof (disciplined_run A c None o w Hc I) as Hf.
    destruct (run o c w) as [r w1]. specialize (IH w1).
    destruct (finish_all o pool w1) as [rs w2]. simpl in *.
    eapply frame_trans; eauto.
Qed.

Lemma gather_frame A o schedule (tasks : list (Co A)) w :
  Forall (disciplined None) tasks ->
  frame (servers (heap w)) (servers (heap (snd (gather o schedule tasks w)))).
Proof.
  intros H. unfold gather.
  destruct (start_all_frame A o tasks w H) as [Hf1 H1].
  destruct (start_all o tasks w) as [p1 w1].
  destruct (resume_frame A o schedule p1 w1 H1) as [Hf2 H2].
  destruct (resume o schedule p1 w1) as [p2 w2].
  pose proof (finish_all_frame A o p2 w2 H2) as Hf3. simpl in *.
  eapply frame_trans; [exact Hf1|]. eapply frame_trans; eauto.
Qed.

Lemma update_server_status_leaves name status :
  leaves any never (MCPRegistry.update_server_status name status).
Proof.
  unfold MCPRegistry.update_server_status.
  apply leaves_bind with (P := any); [apply leaves_trigger|]. intros h _.
  destruct (Dict.mem name (servers h)); repeat (constructor; intros).
Qed.

(** ** Batches *)

Lemma call_tool_answers lib req :
  leaves (answers req) never (Gateway.call_tool lib req).
Proof.
  unfold Gateway.call_tool.
  apply leaves_bind with
    (P := fun rid => truthy (MCPToolCall.trace_id req) = true ->
                     rid = or_else (MCPToolCall.trace_id req) "").
  { destruct (truthy (MCPToolCall.trace_id req)).
    - now constructor.
    - constructor. intros x. constructor. discriminate. }
  intros request_id Hid.
  apply leaves_bind with (P := any); [apply leaves_trigger|].
  intros start_time _.
  assert (Hexec : forall server_name,
             leaves (answers req) any
               (result <- MCPRouter.call_tool lib server_name (MCPToolCall.tool req)
                            (MCPToolCall.arguments req) (MCPToolCall.session_id req)
                            (Some request_id) ;;
                now <- trigger UtcNow ;;
                Ret {| MCPResponse.id := request_id;
                       MCPResponse.success := true;
                       MCPResponse.result := result;
                       MCPResponse.error := None;
                       MCPResponse.server := Some server_name;
                       MCPResponse.execution_time_ms := Some (now - start_time) |})).
  { intros server_name.
    apply leaves_bind with (P := any); [apply leaves_anything|].
    intros result _. apply leaves_bind with (P := any); [apply leaves_trigger|].
    intros now _. constructor. split; simpl; auto. }
  apply leaves_try_except with (Q := any).
  - destruct (truthy (MCPToolCall.server req)); [apply Hexec|].
    apply leaves_bind with (P := any); [apply leaves_anything|].
    intros found _. destruct (truthy found); [apply Hexec|].
    constructor. split; simpl; auto. right. repeat split. eauto.
  - intros e _. apply leaves_bind with (P := any); [apply leaves_trigger|].
    intros now _. constructor. split; simpl; auto. right. repeat split. eauto.
Qed.

Lemma sequential_answers lib requests done results :
  Forall2 answers done results ->
  leaves (Forall2 answers (done ++ requests)) never
    (Gateway.sequential lib requests results).
Proof.
  revert done results.
  induction requests as [|req requests IH]; intros done results Hdone; simpl.
  - constructor. now rewrite app_nil_r.
  - apply leaves_bind with (P := answers req); [apply call_tool_answers|].
    intros resp Hresp.
    replace (done ++ req :: requests)%list with ((done ++ [req]) ++ requests)%list
      by (rewrite <- app_assoc; reflexivity).
    apply IH. apply Forall2_app; auto.
Qed.

Lemma as_responses_answers requests results :
  Forall2 answered requests results ->
  leaves (Forall2 answers requests) never (Gateway.as_responses results).
Proof.
  induction 1 as [|req r requests results Hr Hrest IH]; simpl.
  - constructor. constructor.
  - apply leaves_bind with (P := answers req).
    + destruct r as [resp|e]; [|destruct Hr]. now constructor.
    + intros x Hx. apply leaves_bind with (P := Forall2 answers requests); auto.
      intros xs Hxs. constructor. now constructor.
Qed.

(** A pool of coroutines in which the [i]-th can only return an answer to
    the [i]-th request stays such a pool through every scheduling step. *)
Lemma start_all_answers o requests pool w :
  Forall2 (fun req c => leaves (answers req) never c) requests pool ->
  Forall2 (fun req c => leaves (answers req) never c) requests
    (fst (start_all o pool w)).
Proof.
  intros H. revert w. induction H as [|req c requests pool Hc Hrest IH]; intros w; simpl.
  - constructor.
  - pose proof (leaves_advance _ _ _ c o w Hc) as Hc'.
    destruct (advance o c w) as [c' w1]. specialize (IH w1).
    destruct (start_all o pool w1) as [rest' w2]. simpl in *. now constructor.
Qed.

Lemma advance_nth_answers o i requests pool w :
  Forall2 (fun req c => leaves (answers req) never c) requests pool ->
  Forall2 (fun req c => leaves (answers req) never c) requests
    (fst (advance_nth o i pool w)).
Proof.
  intros H. revert i w.
  induction H as [|req c requests pool Hc Hrest IH]; intros i w; simpl.
  - constructor.
  - destruct i as [|i].
    + pose proof (leaves_advance _ _ _ c o w Hc) as Hc'.
      destruct (advance o c w) as [c' w1]. simpl in *. now constructor.
    + specialize (IH i w). destruct (advance_nth o i pool w) as [rest' w1].
      simpl in *. now constructor.
Qed.

Lemma resume_answers o schedule requests pool w :
  Forall2 (fun req c => leaves (answers req) never c) requests pool ->
  Forall2 (fun req c => leaves (answers req) never c) requests
    (fst (resume o schedule pool w)).
Proof.
  revert pool w. induction schedule as [|i schedule IH]; intros pool w H; simpl; auto.
  pose proof (advance_nth_answers o i requests pool w H) as H'.
  destruct (advance_nth o i pool w) as [pool' w']. now apply IH.
Qed.

Lemma finish_all_answers o requests pool w :
  Forall2 (fun req c => leaves (answers req) never c) requests pool ->
  Forall2 answered requests (fst (finish_all o pool w)).
Proof.
  intros H. revert w. induction H as [|req c requests pool Hc Hrest IH]; intros w; simpl.
  - constructor.
  - pose proof (leaves_run _ _ _ c o w Hc) as Hr.
    destruct (run o c w) as [r w1]. specialize (IH w1).
    destruct (finish_all o pool w1) as [rs w2]. simpl in *.
    constructor; auto.
Qed.

Lemma gather_answers lib o schedule requests w :
  Forall2 answered requests
    (fst (gather o schedule (map (Gateway.call_tool lib) requests) w)).
Proof.
  unfold gather.
  assert (H0 : Forall2 (fun req c => leaves (answers req) never c) requests
                 (map (Gateway.call_tool lib) requests)).
  { induction requests; simpl; constructor; auto using call_tool_answers. }
  pose proof (start_all_answers o requests _ w H0) as H1.
  destruct (start_all o (map (Gateway.call_tool lib) requests) w) as [p1 w1].
  pose proof (resume_answers o schedule requests p1 w1 H1) as H2.
  destruct (resume o schedule p1 w1) as [p2 w2].
  now apply finish_all_answers.
Qed.

Lemma sequential_served lib o requests done w :
  exists resps w',
    run o (Gateway.sequential lib requests done) w = (Ok (done ++ resps)%list, w') /\
    served lib o w requests resps w'.
Proof.
  revert done w. induction requests as [|req requests IH]; intros done w; simpl.
  - exists [], w. rewrite app_nil_r. split; constructor.
  - rewrite run_bind.
    pose proof (leaves_run _ _ _ _ o w (call_tool_answers lib req)) as Hresp.
    destruct (run o (Gateway.call_tool lib req) w) as [[resp|e] w1] eqn:E;
      simpl in Hresp; [|destruct Hresp].
    destruct (IH (done ++ [resp])%list w1) as (resps & w' & Hrun & Hserved).
    exists (resp :: resps), w'. split.
    + rewrite Hrun, <- app_assoc. reflexivity.
    + econstructor; eauto.
Qed.

(** ** Scheduling slices *)

Lemma first_slice_bind o A B (c : Co A) (f : A -> Co B) w :
  first_slice o (bind c f) w =
  match first_slice o c w with
  | Done (Ok a) w' => first_slice o (f a) w'
  | Done (Err e) w' => Done (Err e) w'
  | Paused rest w' => Paused (bind rest f) w'
  end.
Proof.
  revert w. induction c as [a|e|X ev k IH]; intros w; simpl; auto.
  destruct (handle o ev w) as [x w']. destruct (suspends ev); auto.
Qed.

Lemma first_slice_try_except o A (c : Co A) (h : exn -> Co A) w :
  first_slice o (try_except c h) w =
  match first_slice o c w with
  | Done (Ok a) w' => Done (Ok a) w'
  | Done (Err e) w' => first_slice o (h e) w'
  | Paused rest w' => Paused (try_except rest h) w'
  end.
Proof.
  revert w. induction c as [a|e|X ev k IH]; intros w; simpl; auto.
  destruct (handle o ev w) as [x w']. destruct (suspends ev); auto.
Qed.

Lemma advance_first_slice o A (c : Co A) w :
  advance o c w =
  match first_slice o c w with
  | Done r w' => (of_result r, w')
  | Paused rest w' => (rest, w')
  end.
Proof.
  revert w. induction c as [a|e|X ev k IH]; intros w; simpl; auto.
  destruct (handle o ev w) as [x w']. destruct (suspends ev); auto.
Qed.

Lemma run_first_slice o A (c : Co A) w :
  run o c w =
  match first_slice o c w with
  | Done r w' => (r, w')
  | Paused rest w' => run o rest w'
  end.
Proof.
  revert w. induction c as [a|e|X ev k IH]; intros w; simpl; auto.
  destruct (handle o ev w) as [x w']. destruct (suspends ev); auto.
Qed.

Lemma fixed_run o A (r : result A) (c : Co A) w : fixed r c -> fst (run o c w) = r.
Proof.
  intros H. pose proof (leaves_run _ _ _ c o w H) as Hr.
  destruct (run o c w) as [[a|e] w']; simpl in *; auto.
Qed.

Lemma fixed_of_result A (r : result A) : fixed r (of_result r).
Proof. destruct r; constructor; reflexivity. Qed.

(** What follows the answer of the provider in both dispatch methods
    reads no event: it returns or raises. *)
Lemma after_response_pure lib url field r :
  exists routed,
    (raise_for_status lib url r ;;
     result <- response_json lib r ;;
     MCPRouter.unwrap lib field result) = of_result routed.
Proof.
  unfold raise_for_status. destruct (_ && _); [|eexists (Err _); reflexivity].
  unfold response_json. destruct (json_body r) as [body|]; [|eexists (Err _); reflexivity].
  simpl. unfold MCPRouter.unwrap.
  destruct body as [| | |s|l|d]; try (eexists (Err _); reflexivity).
  - destruct (contains "error" s); eexists (Err _); reflexivity.
  - destruct (holds_error l); eexists (Err _); reflexivity.
  - destruct (Dict.mem "error" d).
    + destruct (Dict.get_default "error" JNull d); eexists (Err _); reflexivity.
    + destruct (Dict.get_default "result" (JObj []) d);
        first [eexists (Err _); reflexivity|eexists (Ok _); reflexivity].
Qed.

(** The exception handlers of [call_tool] re-raise what they caught,
    whatever the registry holds. *)
Lemma call_tool_handler_fixed server_name (e : exn) :
  fixed (Err e)
    match e with
    | HTTPStatusError _ _ =>
        MCPRegistry.update_server_status server_name "degraded" ;;
        Throw e
    | ConnectError _ =>
        MCPRegistry.update_server_status server_name "unavailable" ;;
        Throw e
    | _ => @Throw json e
    end.
Proof.
  destruct e; try (constructor; reflexivity);
    (apply leaves_bind with (P := any);
     [eapply leaves_mono; [| |apply update_server_status_leaves]; auto; intros ? []
     |intros _ _; constructor; reflexivity]).
Qed.

Lemma first_slice_get_client o w :
  first_slice o MCPRouter._get_client w = Done (Ok tt) (client_ready w).
Proof.
  unfold MCPRouter._get_client, client_ready. simpl.
  now destruct (_http_client (heap w)).
Qed.

(** When the router's [call_tool] is suspended, at its request to the
    provider, the outcome of the call no longer depends on the world. *)
Lemma call_tool_paused_fixed lib o w server_name tool_name arguments session_id trace_id
  rest w' :
  first_slice o (MCPRouter.call_tool lib server_name tool_name arguments
                   session_id trace_id) w = Paused rest w' ->
  exists routed, fixed routed rest.
Proof.
  unfold MCPRouter.call_tool. rewrite first_slice_bind. simpl first_slice at 1.
  cbv beta iota.
  destruct (Dict.get server_name (servers (heap w))) as [server|]; [|discriminate].
  destruct (negb _); [discriminate|].
  rewrite first_slice_bind, first_slice_get_client. cbv beta iota.
  rewrite first_slice_try_except.
  destruct (MCPServerInfo.transport server =? "http")%string; [|discriminate].
  rewrite first_slice_bind. unfold client_post at 1. simpl first_slice at 1.
  cbv beta iota. intros [= <- _].
  set (url := (MCPServerInfo.endpoint server ++ "/mcp")%string).
  destruct (http_reply o (tick (client_ready w))) as [r|msg|msg|msg].
  2: { exists (Err (ConnectError msg)).
       exact (call_tool_handler_fixed server_name (ConnectError msg)). }
  2: { exists (Err (TimeoutException msg)).
       exact (call_tool_handler_fixed server_name (TimeoutException msg)). }
  2: { exists (Err (OtherException msg)).
       exact (call_tool_handler_fixed server_name (OtherException msg)). }
  destruct (after_response_pure lib url "content" r) as [routed Hpure].
  exists routed.
  change (fixed routed
            (try_except
               (raise_for_status lib url r ;;
                result <- response_json lib r ;;
                MCPRouter.unwrap lib "content" result)
               (fun e =>
                  match e with
                  | HTTPStatusError _ _ =>
                      MCPRegistry.update_server_status server_name "degraded" ;;
                      Throw e
                  | ConnectError _ =>
                      MCPRegistry.update_server_status server_name "unavailable" ;;
                      Throw e
                  | _ => Throw e
                  end))).
  rewrite Hpure. destruct routed as [content|e].
  - constructor. reflexivity.
  - exact (call_tool_handler_fixed server_name e).
Qed.

Lemma heap_at_try w req : heap (at_try w req) = heap w.
Proof. unfold at_try, at_start. now destruct (truthy (MCPToolCall.trace_id req)). Qed.

Lemma truthy_or_else s : truthy s = true -> s = Some (or_else s "").
Proof.
  destruct s as [s|]; simpl; [|discriminate].
  destruct (s =? "")%string; [discriminate|reflexivity].
Qed.

(** The first slice of the single-call endpoint either finishes the call
    with the response owed to the request, or leaves a coroutine that can
    only return such a response. *)
Lemma call_tool_first_slice lib o w req :
  match first_slice o (Gateway.call_tool lib req) w with
  | Done r w' => exists now, r = Ok (outcome lib o w req now)
  | Paused rest w' =>
      leaves (fun resp => exists now, resp = outcome lib o w req now) never rest
  end.
Proof.
  unfold Gateway.call_tool. rewrite first_slice_bind.
  assert (Hid : first_slice o
                  (if truthy (MCPToolCall.trace_id req)
                   then Ret (or_else (MCPToolCall.trace_id req) "")
                   else trigger Uuid4) w
                = Done (Ok (request_id_of o w req)) (at_start w req)).
  { unfold request_id_of, at_start. now destruct (truthy (MCPToolCall.trace_id req)). }
  rewrite Hid. cbv beta iota. rewrite first_slice_bind.
  change (first_slice o (trigger UtcNow) (at_start w req))
    with (Done (Ok (clock o (tick (at_start w req)))) (at_try w req)).
  cbv beta iota. rewrite first_slice_try_except.
  set (rid := request_id_of o w req).
  set (start := clock o (tick (at_start w req))).
  set (handler := fun e : exn =>
                    now <- trigger UtcNow ;;
                    Ret {| MCPResponse.id := rid;
                           MCPResponse.success := false;
                           MCPResponse.result := JNull;
                           MCPResponse.error := Some (str_exn e);
                           MCPResponse.server := None;
                           MCPResponse.execution_time_ms := Some (now - start) |}).
  assert (Hexec : forall s,
             target req w = Some s ->
             match
               match
                 first_slice o
                   (result <- MCPRouter.call_tool lib s (MCPToolCall.tool req)
                                (MCPToolCall.arguments req) (MCPToolCall.session_id req)
                                (Some rid) ;;
                    now <- trigger UtcNow ;;
                    Ret {| MCPResponse.id := rid;
                           MCPResponse.success := true;
                           MCPResponse.result := result;
                           MCPResponse.error := None;
                           MCPResponse.server := Some s;
                           MCPResponse.execution_time_ms := Some (now - start) |})
                   (at_try w req)
               with
               | Done (Ok a) w' => Done (Ok a) w'
               | Done (Err e) w' => first_slice o (handler e) w'
               | Paused rest w' => Paused (try_except rest handler) w'
               end
             with
             | Done r w' => exists now, r = Ok (outcome lib o w req now)
             | Paused rest w' =>
                 leaves (fun resp => exists now, resp = outcome lib o w req now) never rest
             end).
  { intros s Htarget. rewrite first_slice_bind.
    pose proof (run_first_slice o _
                  (MCPRouter.call_tool lib s (MCPToolCall.tool req)
                     (MCPToolCall.arguments req) (MCPToolCall.session_id req) (Some rid))
                  (at_try w req)) as Hrun.
    pose proof (call_tool_paused_fixed lib o (at_try w req) s (MCPToolCall.tool req)
                  (MCPToolCall.arguments req) (MCPToolCall.session_id req) (Some rid))
      as Hpaused.
    destruct (first_slice o
                (MCPRouter.call_tool lib s (MCPToolCall.tool req)
                   (MCPToolCall.arguments req) (MCPToolCall.session_id req) (Some rid))
                (at_try w req)) as [[content|e] w3|rest w3].
    - exists (clock o (tick w3)). unfold outcome. rewrite Htarget. fold rid start.
      now rewrite Hrun.
    - exists (clock o (tick w3)). unfold outcome. rewrite Htarget. fold rid start.
      now rewrite Hrun.
    - destruct (Hpaused rest w3 eq_refl) as [routed Hfixed].
      assert (Hrouted : fst (run o (MCPRouter.call_tool lib s (MCPToolCall.tool req)
                                      (MCPToolCall.arguments req)
                                      (MCPToolCall.session_id req) (Some rid))
                               (at_try w req)) = routed).
      { rewrite Hrun. now apply fixed_run. }
      apply leaves_try_except with (Q := fun e => routed = Err e).
      + apply leaves_bind with (P := fun a => routed = Ok a); [exact Hfixed|].
        intros content Hcontent.
        apply leaves_bind with (P := any); [apply leaves_trigger|].
        intros now _. constructor. exists now.
        unfold outcome. rewrite Htarget. fold rid start.
        now rewrite Hrouted, Hcontent.
      + intros e He. apply leaves_bind with (P := any); [apply leaves_trigger|].
        intros now _. constructor. exists now.
        unfold outcome. rewrite Htarget. fold rid start.
        now rewrite Hrouted, He. }
  destruct (truthy (MCPToolCall.server req)) eqn:Hserver.
  - pose proof (truthy_or_else _ Hserver) as Hs.
    apply Hexec. unfold target. now rewrite Hserver.
  - rewrite first_slice_bind.
    change (first_slice o (MCPRegistry.find_tool_server (MCPToolCall.tool req)) (at_try w req))
      with (Done (Ok (MCPRegistry.first_server_with (MCPToolCall.tool req)
                        (Dict.values (servers (heap (at_try w req))))))
              (at_try w req)).
    cbv beta iota. rewrite heap_at_try.
    destruct (truthy (MCPRegistry.first_server_with (MCPToolCall.tool req)
                        (Dict.values (servers (heap w))))) eqn:Hfound.
    + pose proof (truthy_or_else _ Hfound) as Hs.
      apply Hexec. unfold target. now rewrite Hserver, Hfound.
    + exists 0. unfold outcome, target. now rewrite Hserver, Hfound.
Qed.

Lemma call_tool_run_outcome lib o w req :
  exists now w',
    run o (Gateway.call_tool lib req) w = (Ok (outcome lib o w req now), w').
Proof.
  rewrite run_first_slice. pose proof (call_tool_first_slice lib o w req) as H.
  destruct (first_slice o (Gateway.call_tool lib req) w) as [r w1|rest w1].
  - destruct H as [now ->]. now exists now, w1.
  - pose proof (leaves_run _ _ _ rest o w1 H) as Hr.
    destruct (run o rest w1) as [[resp|e] w']; simpl in Hr; [|destruct Hr].
    destruct Hr as [now ->]. now exists now, w'.
Qed.

Lemma call_tool_started lib o w req :
  leaves (fun resp => exists now, resp = outcome lib o w req now) never
    (fst (advance o (Gateway.call_tool lib req) w)).
Proof.
  rewrite advance_first_slice. pose proof (call_tool_first_slice lib o w req) as H.
  destruct (first_slice o (Gateway.call_tool lib req) w) as [r w1|rest w1]; simpl.
  - destruct H as [now ->]. constructor. now exists now.
  - exact H.
Qed.

Lemma served_dispatched lib o w requests resps w' :
  served lib o w requests resps w' ->
  dispatched lib o (to_completion o) w requests resps.
Proof.
  induction 1 as [w|w w1 w2 req resp reqs resps Hrun Hrest IH]; [constructor|].
  destruct (call_tool_run_outcome lib o w req) as (now & w1' & Hout).
  rewrite Hout in Hrun. injection Hrun as <- <-.
  apply dispatched_cons with (now := now); [reflexivity|].
  unfold to_completion. now rewrite Hout.
Qed.

Lemma start_all_owed lib o requests w :
  Forall2 (fun (P : MCPResponse.t -> Prop) c => leaves P never c)
    (owed lib o (to_first_await o) w requests)
    (fst (start_all o (map (Gateway.call_tool lib) requests) w)).
Proof.
  revert w. induction requests as [|req requests IH]; intros w; [constructor|].
  cbn [owed map start_all].
  pose proof (call_tool_started lib o w req) as Hc.
  change (to_first_await o (Gateway.call_tool lib req) w)
    with (snd (advance o (Gateway.call_tool lib req) w)).
  destruct (advance o (Gateway.call_tool lib req) w) as [c' w1].
  cbn [fst snd] in *. specialize (IH w1).
  destruct (start_all o (map (Gateway.call_tool lib) requests) w1) as [rest' w2].
  cbn [fst] in *. constructor; assumption.
Qed.

Section LeavesInPools.
Variables (X A : Type) (P : X -> A -> Prop).

Lemma advance_nth_leaves o i xs (pool : list (Co A)) w :
  Forall2 (fun x c => leaves (P x) never c) xs pool ->
  Forall2 (fun x c => leaves (P x) never c) xs (fst (advance_nth o i pool w)).
Proof.
  intros H. revert i w.
  induction H as [|x c xs pool Hc Hrest IH]; intros i w; simpl.
  - constructor.
  - destruct i as [|i].
    + pose proof (leaves_advance _ _ _ c o w Hc) as Hc'.
      destruct (advance o c w) as [c' w1]. simpl in *. now constructor.
    + specialize (IH i w). destruct (advance_nth o i pool w) as [rest' w1].
      simpl in *. now constructor.
Qed.

Lemma resume_leaves o schedule xs (pool : list (Co A)) w :
  Forall2 (fun x c => leaves (P x) never c) xs pool ->
  Forall2 (fun x c => leaves (P x) never c) xs (fst (resume o schedule pool w)).
Proof.
  revert pool w. induction schedule as [|i schedule IH]; intros pool w H; simpl; auto.
  pose proof (advance_nth_leaves o i xs pool w H) as H'.
  destruct (advance_nth o i pool w) as [pool' w']. now apply IH.
Qed.

Lemma finish_all_leaves o xs (pool : list (Co A)) w :
  Forall2 (fun x c => leaves (P x) never c) xs pool ->
  Forall2 (fun x r => returned (P x) r) xs (fst (finish_all o pool w)).
Proof.
  intros H. revert w. induction H as [|x c xs pool Hc Hrest IH]; intros w; simpl.
  - constructor.
  - pose proof (leaves_run _ _ _ c o w Hc) as Hr.
    destruct (run o c w) as [r w1]. specialize (IH w1).
    destruct (finish_all o pool w1) as [rs w2]. simpl in *.
    constructor; auto.
Qed.

End LeavesInPools.

(** When every task returned, the conversion of [batch_call] hands the
    returned values on, without drawing a uuid. *)
Lemma as_responses_returned (Ps : list (MCPResponse.t -> Prop)) rs :
  Forall2 (fun P r => returned P r) Ps rs ->
  exists resps,
    (forall o w, run o (Gateway.as_responses rs) w = (Ok resps, w)) /\
    Forall2 (fun (P : MCPResponse.t -> Prop) resp => P resp) Ps resps.
Proof.
  induction 1 as [|P r Ps rs Hr Hrest (resps & Hrun & Hall)].
  - exists []. split; [reflexivity|constructor].
  - destruct r as [resp|e]; [|destruct Hr]. exists (resp :: resps). split.
    + intros o w. simpl. rewrite run_bind, Hrun. reflexivity.
    + now constructor.
Qed.

Lemma owed_dispatched lib o step w requests resps :
  Forall2 (fun (P : MCPResponse.t -> Prop) resp => P resp) (owed lib o step w requests) resps ->
  dispatched lib o step w requests resps.
Proof.
  revert w resps. induction requests as [|req requests IH]; intros w resps H; simpl in H.
  - inversion H. constructor.
  - inversion H as [|P resp Ps resps' Hhead Hrest]; subst.
    cbv beta in Hhead. destruct Hhead as [now Hresp].
    apply dispatched_cons with (now := now); [exact Hresp|]. now apply IH.
Qed.

Lemma gather_dispatched lib o schedule requests w :
  exists resps,
    (forall o' w1,
       run o' (Gateway.as_responses
                 (fst (gather o schedule (map (Gateway.call_tool lib) requests) w))) w1
       = (Ok resps, w1)) /\
    dispatched lib o (to_first_await o) w requests resps.
Proof.
  unfold gather.
  pose proof (start_all_owed lib o requests w) as H1.
  destruct (start_all o (map (Gateway.call_tool lib) requests) w) as [p1 w1].
  pose proof (resume_leaves _ _ (fun (P : MCPResponse.t -> Prop) resp => P resp)
                o schedule _ p1 w1 H1) as H2.
  destruct (resume o schedule p1 w1) as [p2 w2].
  pose proof (finish_all_leaves _ _ (fun (P : MCPResponse.t -> Prop) resp => P resp)
                o _ p2 w2 H2) as H3.
  destruct (as_responses_returned _ _ H3) as (resps & Hrun & Hall).
  exists resps. split; [exact Hrun|]. now apply owed_dispatched.
Qed.

Lemma frame_get_None d d' k : frame d d' -> Dict.get k d = None -> Dict.get k d' = None.
Proof.
  intros Hf H. apply get_None_keys. rewrite <- (frame_keys _ _ Hf).
  now apply get_None_keys.
Qed.

Lemma call_tool_unknown lib o w server_name tool_name arguments session_id trace_id :
  Dict.get server_name (servers (heap w)) = None ->
  run o (MCPRouter.call_tool lib server_name tool_name arguments session_id trace_id) w
  = (Err (ValueError ("Server not found: " ++ server_name)), w).
Proof.
  intros H. unfold MCPRouter.call_tool. rewrite run_bind. simpl run at 1.
  cbv beta iota. now rewrite H.
Qed.

Lemma dispatched_refuses_unknown lib o step d w requests resps :
  (forall req w1,
     frame (servers (heap w1)) (servers (heap (step (Gateway.call_tool lib req) w1)))) ->
  frame d (servers (heap w)) ->
  dispatched lib o step w requests resps ->
  Forall2 (refused_when_unknown d) requests resps.
Proof.
  intros Hstep Hframe H. induction H as [w|w req resp now reqs resps Hresp Hrest IH].
  - constructor.
  - constructor.
    + intros s Hs Hne Hnone. apply String.eqb_neq in Hne.
      assert (Htarget : target req w = Some s).
      { unfold target. rewrite Hs. simpl. now rewrite Hne. }
      rewrite Hresp. unfold outcome. rewrite Htarget.
      rewrite call_tool_unknown; [split; reflexivity|].
      rewrite heap_at_try. now apply (frame_get_None d).
    + apply IH. eapply frame_trans; [exact Hframe|apply Hstep].
Qed.

(** C1. Whatever the requests, the answers of the providers, the state of
    the registry and, in parallel mode, the order in which the calls
    complete: [batch_call] returns (it never raises) a list with one
    response per request, in request order.  Each response is the one
    owed to its request ([outcome]): it carries the request's trace id
    when one was given, and it is what the single-call endpoint makes of
    the outcome of the router's [call_tool] for this request, a success
    with the result when the router returned, or [success = false] with
    the message of the exception the router raised (or the "not found"
    failure when there is no provider to go to).  In sequential mode the
    call of each request is entered in the world the call before it
    left, whatever became of that call; in parallel mode it is entered
    in the world the calls before it left at their first network await.
    In particular a request that names a provider missing from the
    registry gets [success = false] with "Server not found", and the
    requests around it get their own responses. *)
Theorem batch_call_isolates_failures (lib : PyLib) (o : Oracle) (schedule : list nat)
  (request : MCPBatchRequest.t) (w : World) :
  exists results w',
    Gateway.batch_call lib o schedule request w = (Ok results, w') /\
    List.length results = List.length (MCPBatchRequest.requests request) /\
    Forall2 answers (MCPBatchRequest.requests request) results /\
    Forall2 (refused_when_unknown (servers (heap w)))
      (MCPBatchRequest.requests request) results /\
    (MCPBatchRequest.parallel request = false ->
     served lib o w (MCPBatchRequest.requests request) results w' /\
     dispatched lib o (to_completion o) w (MCPBatchRequest.requests request) results) /\
    (MCPBatchRequest.parallel request = true ->
     dispatched lib o (to_first_await o) w (MCPBatchRequest.requests request) results).
Proof.
  unfold Gateway.batch_call.
  destruct (MCPBatchRequest.parallel request) eqn:Hmode.
  - destruct (gather_dispatched lib o schedule (MCPBatchRequest.requests request) w)
      as (resps & Hrun & Hd).
    pose proof (gather_answers lib o schedule (MCPBatchRequest.requests request) w) as Hg.
    destruct (gather o schedule _ w) as [rs w1]. simpl in Hg, Hrun.
    pose proof (leaves_run _ _ _ _ o w1 (as_responses_answers _ _ Hg)) as H.
    rewrite Hrun in *. simpl in H.
    exists resps, w1. split; [reflexivity|]. split.
    { symmetry. eapply Forall2_length; eauto. }
    split; [exact H|]. split.
    { apply (dispatched_refuses_unknown lib o (to_first_await o) _ w); auto.
      - intros req w0. unfold to_first_await.
        apply (disciplined_advance _ _ None o w0 (disciplined_call_tool lib req None) I).
      - apply frame_refl. }
    split; [discriminate|]. intros _. exact Hd.
  - pose proof (leaves_run _ _ _ _ o w
                  (sequential_answers lib (MCPBatchRequest.requests request) [] []
                     (Forall2_nil _))) as H.
    destruct (sequential_served lib o (MCPBatchRequest.requests request) [] w)
      as (resps & w' & Hrun & Hserved).
    rewrite Hrun in H. simpl in H.
    pose proof (served_dispatched lib o w _ resps w' Hserved) as Hd.
    exists resps, w'. split; [exact Hrun|]. split.
    { symmetry. eapply Forall2_length; eauto. }
    split; [exact H|]. split.
    { apply (dispatched_refuses_unknown lib o (to_completion o) _ w); auto.
      - intros req w0. unfold to_completion.
        apply (disciplined_run _ _ None o w0 (disciplined_call_tool lib req None) I).
      - apply frame_refl. }
    split; [|discriminate]. intros _. split; assumption.
Qed.

(** What the single-call endpoint makes of an exception of the router:
    a response with [success = false] whose error is the exception's
    message. *)
Lemma call_tool_reports_exception lib o w req tid sname e w1 :
  MCPToolCall.trace_id req = Some tid -> tid <> "" ->
  MCPToolCall.server req = Some sname -> sname <> "" ->
  run o (MCPRouter.call_tool lib sname (MCPToolCall.tool req) (MCPToolCall.arguments req)
           (MCPToolCall.session_id req) (Some tid)) (consult w) = (Err e, w1) ->
  run o (Gateway.call_tool lib req) w =
  (Ok {| MCPResponse.id := tid;
         MCPResponse.success := false;
         MCPResponse.result := JNull;
         MCPResponse.error := Some (str_exn e);
         MCPResponse.server := None;
         MCPResponse.execution_time_ms := Some (clock o (tick w1) - clock o (tick w)) |},
   consult w1).
Proof.
  intros Htid Hne Hserver Hne' Hrun.
  apply String.eqb_neq in Hne, Hne'.
  unfold Gateway.call_tool. rewrite Htid, Hserver. simpl truthy. simpl or_else.
  rewrite Hne, Hne'. simpl negb. cbv iota.
  rewrite run_bind. change (run o (Ret tid) w) with (Ok tid, w). cbv beta iota.
  rewrite run_bind.
  change (run o (trigger UtcNow) w) with (Ok (clock o (tick w)), consult w).
  cbv beta iota. rewrite run_try_except, run_bind, Hrun. reflexivity.
Qed.

(** The batch of the specification's example: three requests, the second
    to a provider that is not registered.  In both modes there are three
    responses, the first and third successes, the second the converted
    "Server not found" exception. *)
Example batch_with_unknown_server (parallel : bool) :
  exists r1 r2 r3 w',
    Gateway.batch_call lib0 (oracle_of reply_ok) [2%nat; 0%nat] (sample_batch parallel) world_ab
    = (Ok [r1; r2; r3], w') /\
    MCPResponse.success r1 = true /\ MCPResponse.server r1 = Some "a" /\
    MCPResponse.success r2 = false /\ MCPResponse.id r2 = "trace-y" /\
    MCPResponse.error r2 = Some "Server not found: nowhere" /\
    MCPResponse.success r3 = true /\ MCPResponse.server r3 = Some "b".
Proof.
  destruct parallel; vm_compute; do 4 eexists; repeat split.
Qed.

(** A provider that a failed dispatch marked ["unavailable"] comes back
    ["available"], with new timestamps, when it is registered again. *)
Example reregistration_resets_status :
  let o := oracle_of (ConnectFailed "refused") in
  let w1 := snd (run o (MCPRouter.call_tool lib0 "a" "x" [] None None) world_a) in
  let w2 := snd (run o (MCPRegistry.register lib0 "a" "1.0" "first" "http://a" "http"
                          (Some [sample_tool "x"; sample_tool "y"]) None None) w1) in
  option_map MCPServerInfo.status (Dict.get "a" (servers (heap w1))) = Some "unavailable" /\
  option_map MCPServerInfo.registered_at (Dict.get "a" (servers (heap w1))) = Some 1 /\
  option_map MCPServerInfo.status (Dict.get "a" (servers (heap w2))) = Some "available" /\
  option_map MCPServerInfo.last_health_check (Dict.get "a" (servers (heap w2))) = Some 4 /\
  option_map MCPServerInfo.registered_at (Dict.get "a" (servers (heap w2))) = Some 5.
Proof. repeat split. Qed.

(* ================================================================== *)
(** * Further properties *)

(** ** More on dictionaries *)

Section MoreDictFacts.
Variable V : Type.
Implicit Types (d : Dict.t V) (k : string) (v : V).



Lemma keys_remove_sub k d x : In x (Dict.keys (Dict.remove k d)) -> In x (Dict.keys d).
Proof.
  induction d as [|[k0 v0] d IH]; simpl; auto.
  destruct (k0 =? k)%string; simpl; intuition.
Qed.

(** In [{**d, **d2}] with [d2] a dict, a key of [d2] has the value [d2]
    gives it, any other key the value [d] gives it. *)
Lemma get_update_wf k d d2 :
  Dict.wf d2 ->
  Dict.get k (Dict.update d d2) =
  match Dict.get k d2 with
  | Some v => Some v
  | None => Dict.get k d
  end.
Proof.
  unfold Dict.update, Dict.wf. revert d.
  induction d2 as [|[k2 v2] d2 IH]; simpl; intros d Hnd; auto.
  inversion Hnd as [|? ? Hnot Hnd']. subst.
  rewrite IH by assumption.
  destruct (k2 =? k)%string eqn:E.
  - apply String.eqb_eq in E. subst k2.
    apply get_None_keys in Hnot. rewrite Hnot. apply get_set_same.
  - apply String.eqb_neq in E.
    destruct (Dict.get k d2); auto. now apply get_set_other.
Qed.

Lemma mem_false_get k d : Dict.mem k d = false -> Dict.get k d = None.
Proof. unfold Dict.mem. now destruct (Dict.get k d). Qed.
End MoreDictFacts.

(** ** More on the registry *)




Lemma keyed_names (d : Dict.t MCPServerInfo.t) :
  keyed d -> map MCPServerInfo.name (Dict.values d) = Dict.keys d.
Proof.
  unfold Dict.values, Dict.keys. induction d as [|[k s] d IH]; simpl; auto.
  intros Hk. rewrite (Hk k s) by now left.
  f_equal. apply IH. intros k' s' Hin. apply Hk. now right.
Qed.

(** X2. In a well-formed registry [list_servers()] has exactly one entry
    per registered name, in registry order, and [get_server(name)] returns
    an entry exactly when [list_servers()] holds that entry under that
    name; neither call changes the world. *)
Theorem list_servers_agrees_with_get_server (lib : PyLib) (o : Oracle) (w : World) :
  registry_ok (servers (heap w)) ->
  exists entries,
    run o (MCPRegistry.list_servers lib) w = (Ok entries, w) /\
    map (Dict.get "name") entries =
      map (fun k => Some (JStr k)) (Dict.keys (servers (heap w))) /\
    (forall name,
       exists found,
         run o (MCPRegistry.get_server lib name) w = (Ok found, w) /\
         (found = None <-> ~ In name (Dict.keys (servers (heap w)))) /\
         (forall d, found = Some d <->
                    In d entries /\ Dict.get "name" d = Some (JStr name))).
Proof.
  intros [Hwf Hkeyed].
  exists (map (MCPServerInfo.to_dict lib) (Dict.values (servers (heap w)))).
  split; [reflexivity|]. split.
  - rewrite map_map. rewrite <- (keyed_names _ Hkeyed), map_map. reflexivity.
  - intros name. unfold MCPRegistry.get_server. simpl.
    destruct (Dict.get name (servers (heap w))) as [server|] eqn:E.
    + eexists. split; [reflexivity|]. split.
      * split; [discriminate|]. intros Hnot. apply get_None_keys in Hnot. congruence.
      * intros d. split.
        -- intros [= <-]. split.
           ++ apply in_map. apply In_values. exists name. now apply get_In.
           ++ rewrite to_dict_name. f_equal. f_equal.
              apply Hkeyed. now apply get_In.
        -- intros [Hin Hname]. apply in_map_iff in Hin.
           destruct Hin as (s & <- & Hin). apply In_values in Hin.
           destruct Hin as [k Hin]. rewrite to_dict_name in Hname.
           injection Hname as Hname. rewrite (Hkeyed k s Hin) in Hname. subst k.
           rewrite (In_get _ _ _ _ Hwf Hin) in E. congruence.
    + exists None. split; [reflexivity|]. split.
      * split; auto. intros _. now apply get_None_keys.
      * intros d. split; [discriminate|]. intros [Hin Hname].
        apply in_map_iff in Hin. destruct Hin as (s & <- & Hin).
        apply In_values in Hin. destruct Hin as [k Hin].
        rewrite to_dict_name in Hname. injection Hname as Hname.
        rewrite (Hkeyed k s Hin) in Hname. subst k.
        rewrite (In_get _ _ _ _ Hwf Hin) in E. discriminate.
Qed.

Lemma list_servers_agrees_with_get_server_witness :
  exists entries,
    run (oracle_of reply_ok) (MCPRegistry.list_servers lib0) world_a = (Ok entries, world_a) /\
    map (Dict.get "name") entries = [Some (JStr "a")].
Proof.
  destruct (list_servers_agrees_with_get_server lib0 (oracle_of reply_ok) world_a world_a_ok)
    as (entries & Hrun & Hnames & _).
  exists entries. split; [exact Hrun|exact Hnames].
Defined.

(** ** The catalogs *)

Lemma length_flat_map_map A B C (f : A -> list B) (g : A -> B -> C) (l : list A) :
  List.length (flat_map (fun a => map (g a) (f a)) l) =
  list_sum (map (fun a => List.length (f a)) l).
Proof.
  induction l as [|a l IH]; simpl; auto.
  now rewrite length_app, length_map, IH.
Qed.

(** X3. [list_all_tools()] returns, without changing the world, one
    entry per declared tool (as many entries as the providers declare
    tools), each built from a tool of a registered provider.  An entry
    keeps every key of its descriptor with the descriptor's value; it
    carries the owner's name under ["server"] and the owner's current
    status under ["server_status"] exactly where the descriptor does not
    define these keys itself. *)
Theorem list_all_tools_catalog (o : Oracle) (w : World) :
  let registered := Dict.values (servers (heap w)) in
  exists entries,
    run o MCPRegistry.list_all_tools w = (Ok entries, w) /\
    List.length entries =
      list_sum (map (fun s => List.length (MCPServerInfo.tools s)) registered) /\
    (forall s tool, In s registered -> In tool (MCPServerInfo.tools s) ->
       In (MCPRegistry.annotate s tool) entries) /\
    (forall e, In e entries ->
       exists s tool,
         In s registered /\ In tool (MCPServerInfo.tools s) /\
         e = MCPRegistry.annotate s tool /\
         (Dict.wf tool ->
          (forall k v, Dict.get k tool = Some v -> Dict.get k e = Some v) /\
          (Dict.get "server" tool = None ->
           Dict.get "server" e = Some (JStr (MCPServerInfo.name s))) /\
          (Dict.get "server_status" tool = None ->
           Dict.get "server_status" e = Some (JStr (MCPServerInfo.status s))))).
Proof.
  intros registered. exists (MCPRegistry.all_tools_of registered).
  split; [reflexivity|]. split; [apply length_flat_map_map|]. split.
  - intros s tool Hs Ht. apply In_all_tools_of. now exists s, tool.
  - intros e He. apply In_all_tools_of in He.
    destruct He as (s & tool & Hs & Ht & ->).
    exists s, tool. repeat split; auto.
    + intros k v Hk. unfold MCPRegistry.annotate.
      rewrite get_update_wf by assumption. now rewrite Hk.
    + intros Hnone. unfold MCPRegistry.annotate.
      rewrite get_update_wf by assumption. now rewrite Hnone.
    + intros Hnone. unfold MCPRegistry.annotate.
      rewrite get_update_wf by assumption. now rewrite Hnone.
Qed.

Lemma In_all_resources_of values e :
  In e (MCPRegistry.all_resources_of values) <->
  exists s resource,
    In s values /\ In resource (MCPServerInfo.resources s) /\
    e = MCPRegistry.with_server s resource.
Proof.
  unfold MCPRegistry.all_resources_of. rewrite in_flat_map. split.
  - intros (s & Hs & He). apply in_map_iff in He. destruct He as (r & <- & Hr).
    now exists s, r.
  - intros (s & r & Hs & Hr & ->). exists s. split; auto. now apply in_map.
Qed.

(** X4. [list_all_resources()] returns, without changing the world, one
    entry per declared resource.  An entry keeps every key of its
    descriptor and carries the owner's name under ["server"] exactly
    where the descriptor does not define that key; unlike a tool entry it
    gets no status: its ["server_status"] is the descriptor's own, if
    any. *)
Theorem list_all_resources_catalog (o : Oracle) (w : World) :
  let registered := Dict.values (servers (heap w)) in
  exists entries,
    run o MCPRegistry.list_all_resources w = (Ok entries, w) /\
    List.length entries =
      list_sum (map (fun s => List.length (MCPServerInfo.resources s)) registered) /\
    (forall s resource, In s registered -> In resource (MCPServerInfo.resources s) ->
       In (MCPRegistry.with_server s resource) entries) /\
    (forall e, In e entries ->
       exists s resource,
         In s registered /\ In resource (MCPServerInfo.resources s) /\
         e = MCPRegistry.with_server s resource /\
         (Dict.wf resource ->
          (forall k v, Dict.get k resource = Some v -> Dict.get k e = Some v) /\
          (Dict.get "server" resource = None ->
           Dict.get "server" e = Some (JStr (MCPServerInfo.name s))) /\
          Dict.get "server_status" e = Dict.get "server_status" resource)).
Proof.
  intros registered. exists (MCPRegistry.all_resources_of registered).
  split; [reflexivity|]. split; [apply length_flat_map_map|]. split.
  - intros s r Hs Hr. apply In_all_resources_of. now exists s, r.
  - intros e He. apply In_all_resources_of in He.
    destruct He as (s & r & Hs & Hr & ->).
    exists s, r. repeat split; auto.
    + intros k v Hk. unfold MCPRegistry.with_server.
      rewrite get_update_wf by assumption. now rewrite Hk.
    + intros Hnone. unfold MCPRegistry.with_server.
      rewrite get_update_wf by assumption. now rewrite Hnone.
    + unfold MCPRegistry.with_server.
      rewrite get_update_wf by assumption.
      now destruct (Dict.get "server_status" r).
Qed.

(** ** Search *)

Lemma prefix_refl s : String.prefix s s = true.
Proof.
  induction s as [|c s IH]; simpl; auto.
  destruct (Ascii.ascii_dec c c); [exact IH|congruence].
Qed.

Lemma contains_refl s : contains s s = true.
Proof. destruct s; simpl; auto. destruct (Ascii.ascii_dec a a); [|congruence]. now rewrite prefix_refl. Qed.

Lemma lowered_text lower key tool :
  text_or_absent key tool ->
  lowered lower (Dict.get_default key (JStr "") tool) = Ret (lower (text_of key tool)).
Proof.
  unfold text_or_absent, text_of, Dict.get_default.
  destruct (Dict.get key tool) as [[| | |s| |]|]; simpl; intros H; try destruct H; reflexivity.
Qed.

Lemma run_search_in_tools lower q server o w tools results :
  (forall tool, In tool tools -> searchable tool) ->
  run o (MCPRegistry.search_in_tools lower (lower q) server tools results) w =
  (Ok (results ++ map (MCPRegistry.with_server server) (filter (matches lower q) tools))%list, w).
Proof.
  revert results. induction tools as [|tool tools IH]; intros results Hok; simpl.
  - now rewrite app_nil_r.
  - destruct (Hok tool (or_introl eq_refl)) as [Hname Hdesc].
    rewrite (lowered_text lower "name" tool Hname).
    rewrite (lowered_text lower "description" tool Hdesc). simpl bind.
    fold (matches lower q tool).
    destruct (matches lower q tool); rewrite IH by (intros; apply Hok; now right).
    + simpl. now rewrite <- app_assoc.
    + reflexivity.
Qed.

Lemma run_search_in_servers lower q category o w values results :
  (forall server tool,
     In server values -> MCPRegistry.other_category category server = false ->
     In tool (MCPServerInfo.tools server) -> searchable tool) ->
  run o (MCPRegistry.search_in_servers lower (lower q) category values results) w =
  (Ok (results ++ hits lower q category values)%list, w).
Proof.
  revert results. induction values as [|server values IH]; intros results Hok; simpl.
  - now rewrite app_nil_r.
  - destruct (MCPRegistry.other_category category server) eqn:E.
    + rewrite IH; auto. intros s t Hs. apply Hok. now right.
    + rewrite run_bind, run_search_in_tools.
      2: { intros tool Ht. apply (Hok server tool); auto. now left. }
      rewrite IH by (intros s t Hs; apply Hok; now right).
      now rewrite <- app_assoc.
Qed.

Lemma search_tools_is_hits lower o w query category :
  (forall server tool,
     In server (Dict.values (servers (heap w))) ->
     MCPRegistry.other_category category server = false ->
     In tool (MCPServerInfo.tools server) -> searchable tool) ->
  run o (MCPRegistry.search_tools lower query category) w =
    (Ok (hits lower query category (Dict.values (servers (heap w)))), w).
Proof.
  intros Hok. unfold MCPRegistry.search_tools. simpl.
  now rewrite run_search_in_servers.
Qed.

(** X5. When every tool descriptor of the providers that pass the
    category filter has a string (or no) name and description,
    [search_tools(query, category)] returns, without changing the world,
    exactly the tools whose lowered name or description contains the
    lowered query: provider by provider in registry order, tools in
    declaration order, each as its descriptor with the owner's name
    added.  An absent or empty category filters nothing. *)
Theorem search_tools_returns_matches (lower : string -> string) (o : Oracle) (w : World)
  (query : string) (category : option string) :
  (forall server tool,
     In server (Dict.values (servers (heap w))) ->
     MCPRegistry.other_category category server = false ->
     In tool (MCPServerInfo.tools server) -> searchable tool) ->
  run o (MCPRegistry.search_tools lower query category) w =
    (Ok (hits lower query category (Dict.values (servers (heap w)))), w)
  /\ (truthy category = false ->
      forall server, MCPRegistry.other_category category server = false).
Proof.
  intros Hok. split.
  - unfold MCPRegistry.search_tools. simpl.
    now rewrite run_search_in_servers.
  - intros Hcat server. unfold MCPRegistry.other_category. now rewrite Hcat.
Qed.

Lemma search_tools_returns_matches_witness :
  run (oracle_of reply_ok) (MCPRegistry.search_tools (fun s => s) "z" None) world_ab =
  (Ok [ [ ("server", JStr "b"); ("name", JStr "z"); ("description", JStr "a tool") ] ],
   world_ab).
Proof.
  assert (H : forall server tool,
             In server (Dict.values (servers (heap world_ab))) ->
             MCPRegistry.other_category None server = false ->
             In tool (MCPServerInfo.tools server) -> searchable tool).
  { intros server tool [<-|[<-|[]]] _ [<-|[<-|[]]]; split; exact I. }
  destruct (search_tools_returns_matches (fun s => s) (oracle_of reply_ok) world_ab
              "z" None H) as [Hrun _].
  rewrite Hrun. reflexivity.
Defined.

Lemma searchable_dec tool : searchable tool \/ ~ searchable tool.
Proof.
  unfold searchable, text_or_absent.
  destruct (Dict.get "name" tool) as [[| | |s| |]|];
    destruct (Dict.get "description" tool) as [[| | |s'| |]|]; tauto.
Qed.

Lemma run_search_unsearchable lower ql server o w tool rest results :
  ~ searchable tool ->
  exists msg,
    run o (MCPRegistry.search_in_tools lower ql server (tool :: rest) results) w =
    (Err (AttributeError msg), w).
Proof.
  unfold searchable, text_or_absent. intros Hbad. simpl.
  unfold Dict.get_default.
  destruct (Dict.get "name" tool) as [[| | |s| |]|]; simpl; eauto;
    destruct (Dict.get "description" tool) as [[| | |s'| |]|]; simpl; eauto;
    exfalso; apply Hbad; split; exact I.
Qed.

(** The inner loop returns or raises an [AttributeError], and raises as
    soon as one descriptor cannot be read. *)
Lemma search_in_tools_outcome lower q server o w tools results :
  exists r,
    run o (MCPRegistry.search_in_tools lower (lower q) server tools results) w = (r, w) /\
    (forall e, r = Err e -> exists msg, e = AttributeError msg) /\
    ((exists tool, In tool tools /\ ~ searchable tool) -> exists e, r = Err e).
Proof.
  revert results. induction tools as [|tool tools IH]; intros results.
  - exists (Ok results). split; [reflexivity|]. split; [discriminate|].
    intros (tool & [] & _).
  - destruct (searchable_dec tool) as [Hgood|Hbad].
    + destruct Hgood as [Hname Hdesc]. simpl.
      rewrite (lowered_text lower "name" tool Hname).
      rewrite (lowered_text lower "description" tool Hdesc). simpl bind.
      match goal with |- context [if ?b then _ else _] => destruct b end;
        (match goal with |- context [MCPRegistry.search_in_tools _ _ _ _ ?acc] =>
           destruct (IH acc) as (r & Hrun & Hexn & Hraise)
         end;
         exists r; split; [exact Hrun|]; split; [exact Hexn|];
         intros (t & [<-|Hin] & Hbad); [exfalso; apply Hbad; now split|];
         apply Hraise; now exists t).
    + destruct (run_search_unsearchable lower (lower q) server o w tool tools results Hbad)
        as [msg Hrun].
      exists (Err (AttributeError msg)). split; [exact Hrun|]. split.
      * intros e [= <-]. now exists msg.
      * intros _. eauto.
Qed.

(** X6. One descriptor that cannot be read spoils every search that
    reaches it: when a provider that passes the category filter declares a
    tool whose name or description is present and not a string,
    [search_tools] raises an [AttributeError] whatever the query, with the
    world unchanged. *)
Theorem search_tools_fails_on_unreadable_descriptor (lower : string -> string)
  (o : Oracle) (w : World) (query : string) (category : option string)
  (server : MCPServerInfo.t) (tool : Dict.t json) :
  In server (Dict.values (servers (heap w))) ->
  MCPRegistry.other_category category server = false ->
  In tool (MCPServerInfo.tools server) ->
  ~ searchable tool ->
  exists msg,
    run o (MCPRegistry.search_tools lower query category) w = (Err (AttributeError msg), w).
Proof.
  intros Hs Hcat Ht Hbad. unfold MCPRegistry.search_tools. simpl.
  generalize (@nil (Dict.t json)).
  induction (Dict.values (servers (heap w))) as [|s values IH]; intros results.
  - destruct Hs.
  - simpl. destruct (MCPRegistry.other_category category s) eqn:E.
    + destruct Hs as [->|Hs]; [congruence|]. now apply IH.
    + rewrite run_bind.
      destruct (search_in_tools_outcome lower query s o w (MCPServerInfo.tools s) results)
        as (r & Hrun & Hexn & Hraise).
      rewrite Hrun. destruct r as [results'|e].
      * destruct Hs as [->|Hs]; [|now apply IH].
        destruct Hraise as [e He]; [now exists tool|discriminate].
      * destruct (Hexn e eq_refl) as [msg ->]. now exists msg.
Qed.

Lemma search_tools_fails_on_unreadable_descriptor_witness :
  exists msg,
    run (oracle_of reply_ok) (MCPRegistry.search_tools (fun s => s) "no such tool" None)
      world_null = (Err (AttributeError msg), world_null).
Proof.
  refine (search_tools_fails_on_unreadable_descriptor (fun s => s) (oracle_of reply_ok)
            world_null "no such tool" None
            (fresh_record "n" "1.0" "odd" "http://n" "http"
               (Some [ [ ("name", JStr "t"); ("description", JNull) ] ]) None None 4 5)
            [ ("name", JStr "t"); ("description", JNull) ] _ eq_refl _ _).
  - simpl. auto.
  - simpl. auto.
  - intros [_ H]. exact H.
Defined.

(** X7. Search agrees with discovery: when every descriptor is a
    readable dict and [find_tool_server(tool_name)] resolves to a
    provider, [search_tools(tool_name)] without category returns a list
    that holds a tool of that very provider named [tool_name]. *)
Theorem search_finds_what_discovery_finds (lower : string -> string) (o : Oracle)
  (w : World) (tool_name provider : string) :
  (forall server tool,
     In server (Dict.values (servers (heap w))) ->
     In tool (MCPServerInfo.tools server) -> searchable tool /\ Dict.wf tool) ->
  fst (run o (MCPRegistry.find_tool_server tool_name) w) = Ok (Some provider) ->
  exists results server tool,
    run o (MCPRegistry.search_tools lower tool_name None) w = (Ok results, w) /\
    In server (Dict.values (servers (heap w))) /\
    MCPServerInfo.name server = provider /\
    In tool (MCPServerInfo.tools server) /\
    In (MCPRegistry.with_server server tool) results /\
    Dict.get "name" (MCPRegistry.with_server server tool) = Some (JStr tool_name).
Proof.
  intros Hok Hfind.
  assert (Hrun := search_tools_is_hits lower o w tool_name None
                    (fun server tool Hs _ Ht => proj1 (Hok server tool Hs Ht))).
  unfold MCPRegistry.find_tool_server in Hfind. simpl in Hfind.
  injection Hfind as Hfind. apply first_server_with_Some in Hfind.
  destruct Hfind as (before & server & after & Hvalues & (tool & Ht & Hname) & _ & ->).
  assert (Hs : In server (Dict.values (servers (heap w)))).
  { rewrite Hvalues. apply in_or_app. right. now left. }
  exists (hits lower tool_name None (Dict.values (servers (heap w)))), server, tool.
  split; [exact Hrun|]. repeat split; auto.
  - unfold hits. apply in_flat_map. exists server. split; auto. simpl.
    apply in_map. apply filter_In. split; auto.
    unfold matches, text_of. rewrite Hname, contains_refl. reflexivity.
  - unfold MCPRegistry.with_server. rewrite get_update_wf by (now apply (Hok server tool)).
    now rewrite Hname.
Qed.

Lemma search_finds_what_discovery_finds_witness :
  exists results server tool,
    run (oracle_of reply_ok) (MCPRegistry.search_tools (fun s => s) "y" None) world_ab
    = (Ok results, world_ab) /\
    In server (Dict.values (servers (heap world_ab))) /\
    MCPServerInfo.name server = "a" /\
    In tool (MCPServerInfo.tools server) /\
    In (MCPRegistry.with_server server tool) results /\
    Dict.get "name" (MCPRegistry.with_server server tool) = Some (JStr "y").
Proof.
  apply (search_finds_what_discovery_finds (fun s => s) (oracle_of reply_ok) world_ab "y" "a").
  - intros server tool [<-|[<-|[]]] [<-|[<-|[]]];
      (split; [split; exact I|repeat constructor; simpl; intuition discriminate]).
  - reflexivity.
Defined.

(** ** Default providers *)

Lemma run_getenv_default o w var default :
  run o (getenv_default var default) w = (Ok (env_or o var default), w).
Proof. unfold getenv_default, env_or. simpl. now destruct (environ o var). Qed.

Lemma run_default_servers o w :
  run o MCPRegistry.default_servers w = (Ok (defaults_under o), w).
Proof.
  unfold defaults_under, MCPRegistry.default_servers.
  repeat (rewrite !run_bind, !run_getenv_default; cbv beta iota).
  reflexivity.
Qed.

Lemma distinct_NoDup l : distinct l = true -> NoDup l.
Proof.
  induction l as [|x l IH]; simpl; [constructor|].
  intros H. apply andb_true_iff in H. destruct H as [Hx Hl].
  constructor; auto. intros Hin.
  apply negb_true_iff in Hx.
  assert (existsb (String.eqb x) l = true); [|congruence].
  apply existsb_exists. exists x. split; auto. apply String.eqb_refl.
Qed.

(** The names and endpoints of the default list: each endpoint is the
    value of its variable when the variable is set, else the fallback. *)
Lemma defaults_named o :
  map (fun c => (MCPRegistry.cfg_name c, MCPRegistry.cfg_endpoint c)) (defaults_under o) =
  map (fun e => (fst (fst e), env_or o (snd (fst e)) (snd e))) default_endpoints.
Proof.
  unfold defaults_under, MCPRegistry.default_servers.
  repeat (rewrite !run_bind, !run_getenv_default; cbv beta iota).
  reflexivity.
Qed.

Lemma defaults_names o :
  map MCPRegistry.cfg_name (defaults_under o) = map (fun e => fst (fst e)) default_endpoints.
Proof.
  pose proof (defaults_named o) as H.
  apply (f_equal (map fst)) in H. rewrite !map_map in H. exact H.
Qed.

Lemma run_register_no_mirror lib o w name version description endpoint transport
  tools resources metadata :
  _redis (heap w) = None ->
  environ o "REDIS_URL" = None ->
  let new := fresh_record name version description endpoint transport
               tools resources metadata (clock o (tick w)) (clock o (S (tick w))) in
  run o (MCPRegistry.register lib name version description endpoint transport
           tools resources metadata) w
  = (Ok new,
     put_heap (with_servers (Dict.set name new (servers (heap w))) (heap w))
       (consult (consult w))).
Proof.
  intros Hr He. unfold MCPRegistry.register, MCPRegistry._get_redis. simpl.
  rewrite Hr. simpl. rewrite He. simpl. rewrite Hr. reflexivity.
Qed.

Lemma run_register_each_no_mirror lib o configs w :
  _redis (heap w) = None ->
  environ o "REDIS_URL" = None ->
  run o (MCPRegistry.register_each lib configs) w = (Ok tt, loaded o configs w).
Proof.
  intros Hr He. revert w Hr.
  induction configs as [|c configs IH]; intros w Hr; [reflexivity|].
  cbn [MCPRegistry.register_each loaded].
  rewrite run_bind, run_register_no_mirror by assumption. cbv beta iota zeta.
  apply IH. exact Hr.
Qed.

Lemma loaded_trace o configs w : trace (loaded o configs w) = trace w.
Proof. revert w. induction configs as [|c configs IH]; intros w; simpl; auto. now rewrite IH. Qed.

Lemma loaded_other o configs w other :
  ~ In other (map MCPRegistry.cfg_name configs) ->
  Dict.get other (servers (heap (loaded o configs w))) = Dict.get other (servers (heap w)).
Proof.
  revert w. induction configs as [|c configs IH]; intros w Hnot; simpl; auto.
  rewrite IH by (intros H; apply Hnot; now right).
  simpl. apply get_set_other. intros ->. apply Hnot. now left.
Qed.

Lemma loaded_each o configs w c :
  NoDup (map MCPRegistry.cfg_name configs) ->
  In c configs ->
  exists t1 t2,
    Dict.get (MCPRegistry.cfg_name c) (servers (heap (loaded o configs w))) =
    Some (record_of c t1 t2).
Proof.
  revert w. induction configs as [|c0 configs IH]; intros w Hnd Hin; [destruct Hin|].
  simpl in Hnd. inversion Hnd as [|? ? Hnot Hnd']. subst. simpl.
  destruct Hin as [->|Hin].
  - rewrite loaded_other by assumption. simpl. rewrite get_set_same. eauto.
  - now apply IH.
Qed.

(** X8. Without a Redis mirror, [load_default_servers] returns after
    registering the eleven default providers and nothing else: no network
    operation is issued, every default provider ends up stored under its
    name with status ["available"] and the fields of its entry, whatever
    was registered under that name before, and every other provider is
    untouched.  A provider's endpoint is the value of its environment
    variable when the variable is set (even to the empty string), else its
    localhost fallback. *)
Theorem load_default_servers_registers_defaults (lib : PyLib) (o : Oracle) (w : World) :
  _redis (heap w) = None ->
  environ o "REDIS_URL" = None ->
  exists w',
    run o (MCPRegistry.load_default_servers lib) w = (Ok tt, w') /\
    trace w' = trace w /\
    map (fun c => (MCPRegistry.cfg_name c, MCPRegistry.cfg_endpoint c)) (defaults_under o) =
      map (fun e => (fst (fst e), env_or o (snd (fst e)) (snd e))) default_endpoints /\
    (forall c, In c (defaults_under o) ->
       exists t1 t2,
         Dict.get (MCPRegistry.cfg_name c) (servers (heap w')) = Some (record_of c t1 t2) /\
         MCPServerInfo.status (record_of c t1 t2) = "available" /\
         MCPServerInfo.endpoint (record_of c t1 t2) = MCPRegistry.cfg_endpoint c) /\
    (forall other, ~ In other (map MCPRegistry.cfg_name (defaults_under o)) ->
       Dict.get other (servers (heap w')) = Dict.get other (servers (heap w))).
Proof.
  intros Hr He. exists (loaded o (defaults_under o) w).
  split.
  { unfold MCPRegistry.load_default_servers.
    rewrite run_bind, run_default_servers. cbv beta iota.
    now apply run_register_each_no_mirror. }
  split; [apply loaded_trace|]. split; [apply defaults_named|]. split.
  - intros c Hin.
    destruct (loaded_each o (defaults_under o) w c) as (t1 & t2 & H); auto.
    { rewrite defaults_names. apply distinct_NoDup. reflexivity. }
    exists t1, t2. repeat split. exact H.
  - intros other Hnot. now apply loaded_other.
Qed.

Lemma load_default_servers_registers_defaults_witness :
  exists w',
    run oracle_env (MCPRegistry.load_default_servers lib0) world_a = (Ok tt, w') /\
    option_map MCPServerInfo.endpoint (Dict.get "gmail-mcp" (servers (heap w')))
      = Some "http://mail:9000" /\
    option_map MCPServerInfo.endpoint (Dict.get "slack-mcp" (servers (heap w')))
      = Some "" /\
    option_map MCPServerInfo.endpoint (Dict.get "zoom-mcp" (servers (heap w')))
      = Some "http://localhost:8018" /\
    Dict.get "a" (servers (heap w')) = Some server_a.
Proof.
  destruct (load_default_servers_registers_defaults lib0 oracle_env world_a eq_refl eq_refl)
    as (w' & Hrun & _ & _ & _ & Hother).
  exists w'. split; [exact Hrun|].
  assert (Hw : w' = snd (run oracle_env (MCPRegistry.load_default_servers lib0) world_a))
    by (rewrite Hrun; reflexivity).
  rewrite Hw. vm_compute. repeat split.
Defined.




(** With the mirror of [oracle_redis_lost], which fails from its third
    operation on, start-up stops at the first default provider: only
    [database-mcp] is registered. *)
Example startup_stops_at_first_default :
  let outcome := run oracle_redis_lost (MCPRegistry.load_default_servers lib0) world0 in
  fst outcome = Err (RedisError "Connection lost") /\
  Dict.keys (servers (heap (snd outcome))) = ["database-mcp"].
Proof. split; reflexivity. Qed.

(** ** More on dispatch *)

Lemma is_2xx r :
  200 <= status_code r <= 299 ->
  (200 <=? status_code r) && (status_code r <=? 299) = true.
Proof. intros [H1 H2]. apply andb_true_iff. split; now apply Z.leb_le. Qed.

(** A 2xx answer with a JSON body gets through to the decoding step. *)
Lemma run_post_2xx lib o w url body r j A (k : json -> Co A) :
  http_reply o (tick w) = Responded r ->
  200 <= status_code r <= 299 ->
  json_body r = Some j ->
  run o (response <- client_post url body ;;
         raise_for_status lib url response ;;
         result <- response_json lib response ;;
         k result) w
  = run o (k j) (issue (Http_post url body) w).
Proof.
  intros Hreply Hcode Hbody.
  rewrite run_bind, run_client_post, Hreply. cbv beta iota.
  rewrite run_bind. unfold raise_for_status. rewrite (is_2xx r Hcode).
  simpl run at 1. cbv beta iota.
  rewrite run_bind. unfold response_json. rewrite Hbody. reflexivity.
Qed.

(** X10. For a registered, available provider with http transport that
    answers 2xx with a JSON object: when the body has no ["error"] entry,
    [call_tool] returns the ["content"] entry of its ["result"] object (the
    empty list when either is missing); when the body has an ["error"]
    object, it raises a [ValueError] carrying the error's message
    ("Unknown error" when there is none).  In both cases one request was
    issued and the registry is unchanged: an error reported by the
    provider does not mark it. *)
Theorem call_tool_returns_content (lib : PyLib) (o : Oracle) (w : World)
  (server_name tool_name : string) (arguments : Dict.t json)
  (session_id trace_id : option string) (server : MCPServerInfo.t)
  (r : Response) (body : Dict.t json) :
  Dict.get server_name (servers (heap w)) = Some server ->
  MCPServerInfo.status server = "available" ->
  MCPServerInfo.transport server = "http" ->
  http_reply o (tick w) = Responded r ->
  200 <= status_code r <= 299 ->
  json_body r = Some (JObj body) ->
  let request :=
    Http_post (MCPServerInfo.endpoint server ++ "/mcp")
      (MCPRouter.tools_call_request tool_name arguments session_id trace_id) in
  let w' := issue request (client_ready w) in
  servers (heap w') = servers (heap w) /\
  trace w' = (trace w ++ [request])%list /\
  (forall result,
     Dict.get "error" body = None ->
     Dict.get_default "result" (JObj []) body = JObj result ->
     run o (MCPRouter.call_tool lib server_name tool_name arguments session_id trace_id) w
     = (Ok (Dict.get_default "content" (JList []) result), w')) /\
  (forall err,
     Dict.get "error" body = Some (JObj err) ->
     run o (MCPRouter.call_tool lib server_name tool_name arguments session_id trace_id) w
     = (Err (ValueError (py_str lib (Dict.get_default "message" (JStr "Unknown error") err))),
        w')).
Proof.
  intros Hget Hstatus Htransport Hreply Hcode Hbody request w'.
  assert (Hstart :
            run o (MCPRouter.call_tool lib server_name tool_name arguments session_id trace_id) w
            = match run o (MCPRouter.unwrap lib "content" (JObj body)) w' with
              | (Ok a, w1) => (Ok a, w1)
              | (Err e, w1) =>
                  run o (match e with
                         | HTTPStatusError _ _ =>
                             MCPRegistry.update_server_status server_name "degraded" ;;
                             Throw e
                         | ConnectError _ =>
                             MCPRegistry.update_server_status server_name "unavailable" ;;
                             Throw e
                         | _ => Throw e
                         end) w1
              end).
  { unfold MCPRouter.call_tool.
    rewrite run_bind. simpl run at 1. cbv beta iota.
    rewrite Hget, Hstatus. simpl negb. cbv iota.
    rewrite run_bind, run_get_client. cbv beta iota.
    rewrite run_try_except, Htransport. simpl String.eqb. cbv iota.
    rewrite (run_post_2xx lib o (client_ready w) _ _ r (JObj body)); auto.
    now rewrite tick_client_ready. }
  split; [unfold w'; simpl; apply servers_client_ready|].
  split; [unfold w'; simpl; now rewrite trace_client_ready|].
  split.
  - intros result Hnone Hresult. rewrite Hstart.
    unfold MCPRouter.unwrap, Dict.mem. rewrite Hnone, Hresult. reflexivity.
  - intros err Herr. rewrite Hstart.
    unfold MCPRouter.unwrap, Dict.mem, Dict.get_default at 1. rewrite Herr. reflexivity.
Qed.

Lemma call_tool_returns_content_witness :
  exists w',
    run (oracle_of reply_rpc_error) (MCPRouter.call_tool lib0 "a" "x" [] None None) world_a
    = (Err (ValueError "no such tool"), w') /\
    servers (heap w') = servers (heap world_a).
Proof.
  destruct (call_tool_returns_content lib0 (oracle_of reply_rpc_error) world_a
              "a" "x" [] None None server_a _ _ eq_refl eq_refl eq_refl eq_refl
              (conj (Z.le_refl 200) (Zle_bool_imp_le 200 299 eq_refl)) eq_refl)
    as (Hservers & _ & _ & Herr).
  eexists. split; [apply (Herr _ eq_refl)|exact Hservers].
Defined.

(** X11. For a registered, available provider whose transport is not
    ["http"], [call_tool] raises "Unsupported transport" without issuing
    any request and without touching the registry: the provider keeps its
    status. *)
Theorem call_tool_unsupported_transport (lib : PyLib) (o : Oracle) (w : World)
  (server_name tool_name : string) (arguments : Dict.t json)
  (session_id trace_id : option string) (server : MCPServerInfo.t) :
  Dict.get server_name (servers (heap w)) = Some server ->
  MCPServerInfo.status server = "available" ->
  MCPServerInfo.transport server <> "http" ->
  exists w',
    run o (MCPRouter.call_tool lib server_name tool_name arguments session_id trace_id) w
    = (Err (ValueError ("Unsupported transport: " ++ MCPServerInfo.transport server)), w') /\
    servers (heap w') = servers (heap w) /\
    trace w' = trace w /\
    tick w' = tick w.
Proof.
  intros Hget Hstatus Htransport. exists (client_ready w).
  apply String.eqb_neq in Htransport. split.
  - unfold MCPRouter.call_tool.
    rewrite run_bind. simpl run at 1. cbv beta iota.
    rewrite Hget, Hstatus. simpl negb. cbv iota.
    rewrite run_bind, run_get_client. cbv beta iota.
    rewrite run_try_except, Htransport. reflexivity.
  - split; [apply servers_client_ready|].
    split; [apply trace_client_ready|apply tick_client_ready].
Qed.

Lemma call_tool_unsupported_transport_witness :
  exists w',
    run (oracle_of reply_ok) (MCPRouter.call_tool lib0 "s" "x" [] None None) world_stdio
    = (Err (ValueError "Unsupported transport: stdio"), w') /\
    servers (heap w') = servers (heap world_stdio) /\
    trace w' = [] /\
    tick w' = 4%nat.
Proof.
  refine (call_tool_unsupported_transport lib0 (oracle_of reply_ok) world_stdio
            "s" "x" [] None None
            (fresh_record "s" "1.0" "local" "ignored" "stdio"
               (Some [sample_tool "x"]) None None 2 3) eq_refl eq_refl _).
  discriminate.
Defined.


(** A provider that answers [tools/list] with a JSON-RPC error looks like
    a provider without tools. *)
Example list_tools_on_error_answer :
  fst (run (oracle_of reply_rpc_error) (MCPRouter.list_tools lib0 "a") world_a)
  = Ok (JList []).
Proof. reflexivity. Qed.

(** X13. For a registered provider with http transport that answers 2xx
    with a JSON object, whatever the provider's status: [read_resource]
    returns the ["contents"] entry of the ["result"] object (the empty
    list when either is missing) when the body has no ["error"] entry, and
    raises a [ValueError] with the error's message when it has an
    ["error"] object.  For an unknown name it raises "Server not found"
    with the world unchanged. *)
Theorem read_resource_returns_contents (lib : PyLib) (o : Oracle) (w : World)
  (server_name uri : string) (session_id : option string) :
  (Dict.get server_name (servers (heap w)) = None ->
   run o (MCPRouter.read_resource lib server_name uri session_id) w
   = (Err (ValueError ("Server not found: " ++ server_name)), w))
  /\ (forall server r body,
        Dict.get server_name (servers (heap w)) = Some server ->
        MCPServerInfo.transport server = "http" ->
        http_reply o (tick w) = Responded r ->
        200 <= status_code r <= 299 ->
        json_body r = Some (JObj body) ->
        let w' := issue (Http_post (MCPServerInfo.endpoint server ++ "/mcp")
                           (MCPRouter.resources_read_request uri)) (client_ready w) in
        servers (heap w') = servers (heap w) /\
        (forall result,
           Dict.get "error" body = None ->
           Dict.get_default "result" (JObj []) body = JObj result ->
           run o (MCPRouter.read_resource lib server_name uri session_id) w
           = (Ok (Dict.get_default "contents" (JList []) result), w')) /\
        (forall err,
           Dict.get "error" body = Some (JObj err) ->
           run o (MCPRouter.read_resource lib server_name uri session_id) w
           = (Err (ValueError
                     (py_str lib (Dict.get_default "message" (JStr "Unknown error") err))),
              w'))).
Proof.
  split.
  - intros H. unfold MCPRouter.read_resource. simpl. now rewrite H.
  - intros server r body Hget Htransport Hreply Hcode Hjson w'.
    assert (Hstart :
              run o (MCPRouter.read_resource lib server_name uri session_id) w
              = match run o (MCPRouter.unwrap lib "contents" (JObj body)) w' with
                | (Ok a, w1) => (Ok a, w1)
                | (Err e, w1) => (Err e, w1)
                end).
    { unfold MCPRouter.read_resource.
      rewrite run_bind. simpl run at 1. cbv beta iota. rewrite Hget.
      rewrite run_bind, run_get_client. cbv beta iota.
      rewrite run_try_except, Htransport. simpl String.eqb. cbv iota.
      rewrite (run_post_2xx lib o (client_ready w) _ _ r (JObj body)); auto.
      now rewrite tick_client_ready. }
    split; [unfold w'; simpl; apply servers_client_ready|]. split.
    + intros result Hnone Hresult. rewrite Hstart.
      unfold MCPRouter.unwrap, Dict.mem. rewrite Hnone, Hresult. reflexivity.
    + intros err Herr. rewrite Hstart.
      unfold MCPRouter.unwrap, Dict.mem, Dict.get_default at 1. rewrite Herr. reflexivity.
Qed.

(** X14. The other outcomes of [check_server_health].  An unknown name
    gives the report [{"name", "status": "not_found"}] with the world
    unchanged.  A registered provider whose transport is not ["http"]
    gives status ["unknown"] with its transport, no request and no write
    to the registry.  For an http provider, a failure of the probe that is
    neither a connection failure nor a timeout records ["unavailable"]
    with the exception's message as the error. *)
Theorem check_server_health_other_outcomes (o : Oracle) (w : World) (server_name : string) :
  (Dict.get server_name (servers (heap w)) = None ->
   run o (MCPRouter.check_server_health server_name) w
   = (Ok [ ("name", JStr server_name); ("status", JStr "not_found") ], w))
  /\ (forall server,
        Dict.get server_name (servers (heap w)) = Some server ->
        MCPServerInfo.transport server <> "http" ->
        run o (MCPRouter.check_server_health server_name) w
        = (Ok [ ("name", JStr server_name); ("status", JStr "unknown");
                ("transport", JStr (MCPServerInfo.transport server)) ], client_ready w))
  /\ (forall server msg,
        Dict.get server_name (servers (heap w)) = Some server ->
        MCPServerInfo.transport server = "http" ->
        http_reply o (tick w) = Failed msg ->
        health_recorded o w server_name server "unavailable" (Some msg)).
Proof.
  split; [|split].
  - intros H. unfold MCPRouter.check_server_health. simpl. now rewrite H.
  - intros server Hget Htransport. apply String.eqb_neq in Htransport.
    unfold MCPRouter.check_server_health.
    rewrite run_bind. simpl run at 1. cbv beta iota. rewrite Hget.
    rewrite run_bind, run_get_client. cbv beta iota.
    rewrite run_try_except, Htransport. reflexivity.
  - intros server msg Hget Htransport Hreply.
    assert (Hget' : Dict.get server_name
                      (servers (heap (issue (Http_get (MCPServerInfo.endpoint server ++ "/health"))
                                        (client_ready w)))) = Some server).
    { simpl. now rewrite servers_client_ready. }
    eapply health_recorded_intro with (1 := Hget).
    { probe_health Hget Htransport Hreply.
      rewrite run_bind.
      rewrite (run_update_server_status_known o _ server_name "unavailable" server Hget').
      reflexivity. }
    all: reflexivity.
Qed.

(** ** The health sweep *)

Lemma leaves_returns_under A ks (P : A -> Prop) (c : Co A) :
  leaves P never c -> returns_under ks P c.
Proof.
  induction 1 as [a Ha|e He|X ev k Hk IH]; simpl; auto.
Qed.

Lemma returns_under_load A ks (P : A -> Prop) (f : Heap -> Co A) :
  (forall h, Dict.keys (servers h) = ks -> returns_under ks P (f h)) ->
  returns_under ks P (h <- trigger Load ;; f h).
Proof. intros H. exact H. Qed.

Lemma get_client_leaves : leaves any never MCPRouter._get_client.
Proof.
  unfold MCPRouter._get_client.
  apply leaves_bind with (P := any); [apply leaves_trigger|]. intros h _.
  destruct (_http_client h); repeat (constructor; intros).
Qed.

Ltac probe_report :=
  constructor; split; [reflexivity|eexists; split; [reflexivity|simpl; auto 10]].

Ltac after_status_update :=
  apply leaves_bind with (P := any);
  [eapply leaves_mono; [| |apply update_server_status_leaves]; auto; intros ? []
  |intros _ _; probe_report].

(** A probe of a provider that is in the table returns a report about it
    whose status is one of the four probe statuses, whatever the network
    does. *)
Lemma check_server_health_returns_under ks name :
  In name ks ->
  returns_under ks (reports_on name) (MCPRouter.check_server_health name).
Proof.
  intros Hin. unfold MCPRouter.check_server_health.
  apply returns_under_load. intros h Hks.
  destruct (Dict.get name (servers h)) as [server|] eqn:Hget.
  2: { exfalso. apply get_None_keys in Hget. apply Hget. now rewrite Hks. }
  apply leaves_returns_under.
  apply leaves_bind with (P := any); [apply get_client_leaves|]. intros _ _.
  apply leaves_try_except with (Q := any).
  - destruct (MCPServerInfo.transport server =? "http")%string; [|probe_report].
    apply leaves_bind with (P := any); [apply leaves_anything|]. intros response _.
    destruct (status_code response =? 200); after_status_update.
  - intros e _. destruct e; after_status_update.
Qed.

Lemma handle_admissible ks o X (ev : Eff X) w :
  Dict.keys (servers (heap w)) = ks -> admissible ks ev (fst (handle o ev w)).
Proof. destruct ev; simpl; auto. Qed.

(** A scheduling slice of a disciplined coroutine run on a table with the
    keys [ks] leaves a coroutine that still returns under [ks]. *)
Lemma returns_under_advance A ks (P : A -> Prop) (c : Co A) v o w :
  disciplined v c -> view_ok v w -> Dict.keys (servers (heap w)) = ks ->
  returns_under ks P c -> returns_under ks P (fst (advance o c w)).
Proof.
  intros Hc. revert w.
  induction Hc as [v a|v e|v k Hk IH|d h k Hfr Hk IH|v X ev k Hs Hk IH|v X ev k Hs Hn Hk IH];
    intros w Hview Hks Hr.
  - exact Hr.
  - exact Hr.
  - simpl. apply IH; [reflexivity|exact Hks|exact (Hr (heap w) Hks)].
  - simpl. simpl in Hview. subst d. apply (IH (put_heap h w)); [reflexivity| |exact (Hr tt I)].
    simpl. rewrite <- (frame_keys _ _ Hfr). exact Hks.
  - simpl. pose proof (handle_admissible ks o X ev w Hks) as Hx.
    destruct (handle o ev w) as [x w']. rewrite Hs. simpl in *. now apply Hr.
  - simpl. pose proof (handle_admissible ks o X ev w Hks) as Hx.
    pose proof (handle_keeps_servers o X ev w Hn) as Hsame.
    destruct (handle o ev w) as [x w']. rewrite Hs. simpl in Hx, Hsame.
    apply IH; [destruct v; simpl in *; congruence|congruence|now apply Hr].
Qed.

Lemma returns_under_run A ks (P : A -> Prop) (c : Co A) v o w :
  disciplined v c -> view_ok v w -> Dict.keys (servers (heap w)) = ks ->
  returns_under ks P c -> returned P (fst (run o c w)).
Proof.
  intros Hc. revert w.
  induction Hc as [v a|v e|v k Hk IH|d h k Hfr Hk IH|v X ev k Hs Hk IH|v X ev k Hs Hn Hk IH];
    intros w Hview Hks Hr.
  - exact Hr.
  - exact Hr.
  - simpl. apply IH; [reflexivity|exact Hks|exact (Hr (heap w) Hks)].
  - simpl. simpl in Hview. subst d. apply (IH (put_heap h w)); [reflexivity| |exact (Hr tt I)].
    simpl. rewrite <- (frame_keys _ _ Hfr). exact Hks.
  - simpl. pose proof (handle_admissible ks o X ev w Hks) as Hx.
    pose proof (handle_keeps_servers o X ev w (suspends_not_store X ev Hs)) as Hsame.
    destruct (handle o ev w) as [x w']. simpl in Hx, Hsame.
    apply IH; [exact I|congruence|now apply Hr].
  - simpl. pose proof (handle_admissible ks o X ev w Hks) as Hx.
    pose proof (handle_keeps_servers o X ev w Hn) as Hsame.
    destruct (handle o ev w) as [x w']. simpl in Hx, Hsame.
    apply IH; [destruct v; simpl in *; congruence|congruence|now apply Hr].
Qed.

Section Pools.
Variables (X A : Type) (P : X -> A -> Prop) (ks : list string).

(** A pool of disciplined coroutines of which the [i]-th returns a value
    fit for the [i]-th item as long as the table has the keys [ks] stays
    such a pool, and the table keeps these keys, through every
    scheduling step. *)
Lemma start_all_steady o xs (pool : list (Co A)) w :
  Forall2 (fun x c => disciplined None c /\ returns_under ks (P x) c) xs pool ->
  Dict.keys (servers (heap w)) = ks ->
  Forall2 (fun x c => disciplined None c /\ returns_under ks (P x) c) xs
    (fst (start_all o pool w)) /\
  Dict.keys (servers (heap (snd (start_all o pool w)))) = ks.
Proof.
  intros H. revert w.
  induction H as [|x c xs pool [Hd Hr] Hrest IH]; intros w Hks; simpl.
  - split; [constructor|exact Hks].
  - destruct (disciplined_advance A c None o w Hd I) as [Hf Hd'].
    pose proof (returns_under_advance A ks (P x) c None o w Hd I Hks Hr) as Hr'.
    apply frame_keys in Hf.
    destruct (advance o c w) as [c' w1]. simpl in Hf, Hd', Hr'.
    destruct (IH w1) as [Hpool Hks']; [congruence|].
    destruct (start_all o pool w1) as [rest' w2]. simpl in *.
    split; [constructor; auto|exact Hks'].
Qed.

Lemma advance_nth_steady o i xs (pool : list (Co A)) w :
  Forall2 (fun x c => disciplined None c /\ returns_under ks (P x) c) xs pool ->
  Dict.keys (servers (heap w)) = ks ->
  Forall2 (fun x c => disciplined None c /\ returns_under ks (P x) c) xs
    (fst (advance_nth o i pool w)) /\
  Dict.keys (servers (heap (snd (advance_nth o i pool w)))) = ks.
Proof.
  intros H. revert i w.
  induction H as [|x c xs pool [Hd Hr] Hrest IH]; intros i w Hks; simpl.
  - split; [constructor|exact Hks].
  - destruct i as [|i].
    + destruct (disciplined_advance A c None o w Hd I) as [Hf Hd'].
      pose proof (returns_under_advance A ks (P x) c None o w Hd I Hks Hr) as Hr'.
      apply frame_keys in Hf.
      destruct (advance o c w) as [c' w1]. simpl in *.
      split; [constructor; auto|congruence].
    + destruct (IH i w Hks) as [Hpool Hks'].
      destruct (advance_nth o i pool w) as [rest' w1]. simpl in *.
      split; [constructor; auto|exact Hks'].
Qed.

Lemma resume_steady o schedule xs (pool : list (Co A)) w :
  Forall2 (fun x c => disciplined None c /\ returns_under ks (P x) c) xs pool ->
  Dict.keys (servers (heap w)) = ks ->
  Forall2 (fun x c => disciplined None c /\ returns_under ks (P x) c) xs
    (fst (resume o schedule pool w)) /\
  Dict.keys (servers (heap (snd (resume o schedule pool w)))) = ks.
Proof.
  revert pool w. induction schedule as [|i schedule IH]; intros pool w H Hks; simpl.
  - split; assumption.
  - destruct (advance_nth_steady o i xs pool w H Hks) as [H' Hks'].
    destruct (advance_nth o i pool w) as [pool' w']. now apply IH.
Qed.

Lemma finish_all_steady o xs (pool : list (Co A)) w :
  Forall2 (fun x c => disciplined None c /\ returns_under ks (P x) c) xs pool ->
  Dict.keys (servers (heap w)) = ks ->
  Forall2 (fun x r => returned (P x) r) xs (fst (finish_all o pool w)).
Proof.
  intros H. revert w.
  induction H as [|x c xs pool [Hd Hr] Hrest IH]; intros w Hks; simpl.
  - constructor.
  - pose proof (returns_under_run A ks (P x) c None o w Hd I Hks Hr) as Hret.
    pose proof (disciplined_run A c None o w Hd I) as Hf. apply frame_keys in Hf.
    destruct (run o c w) as [r w1]. simpl in Hret, Hf.
    assert (Hks1 : Dict.keys (servers (heap w1)) = ks) by congruence.
    specialize (IH w1 Hks1).
    destruct (finish_all o pool w1) as [rs w2]. simpl in *. now constructor.
Qed.

Lemma gather_steady o schedule xs (tasks : list (Co A)) w :
  Forall2 (fun x c => disciplined None c /\ returns_under ks (P x) c) xs tasks ->
  Dict.keys (servers (heap w)) = ks ->
  Forall2 (fun x r => returned (P x) r) xs (fst (gather o schedule tasks w)).
Proof.
  intros H Hks. unfold gather.
  destruct (start_all_steady o xs tasks w H Hks) as [H1 Hks1].
  destruct (start_all o tasks w) as [p1 w1].
  destruct (resume_steady o schedule xs p1 w1 H1 Hks1) as [H2 Hks2].
  destruct (resume o schedule p1 w1) as [p2 w2].
  now apply finish_all_steady.
Qed.

End Pools.

Lemma health_tasks_steady ks names :
  incl names ks ->
  Forall2 (fun x c => disciplined None c /\ returns_under ks (reports_on x) c) names
    (map MCPRouter.check_server_health names).
Proof.
  induction names as [|name names IH]; intros Hincl; simpl; constructor.
  - split; [apply disciplined_check_server_health|].
    apply check_server_health_returns_under, Hincl. now left.
  - apply IH. intros x Hx. apply Hincl. now right.
Qed.

(** X15. The health sweep, whatever the network answers and in whatever
    order the probes complete, as long as nothing else runs on the
    gateway meanwhile: [check_all_health] gives one report per registered
    provider, in registry order; each report names its provider and
    carries one of the statuses available, degraded, unavailable or
    unknown (never "not_found", never an entry made from an exception);
    and the table afterwards has the same providers in the same order,
    only their status and check time possibly changed. *)
Theorem check_all_health_reports_every_provider (o : Oracle) (schedule : list nat)
  (w : World) :
  Forall2 reports_on (Dict.keys (servers (heap w)))
    (fst (MCPRouter.check_all_health o schedule w)) /\
  frame (servers (heap w)) (servers (heap (snd (MCPRouter.check_all_health o schedule w)))).
Proof.
  unfold MCPRouter.check_all_health.
  set (ks := Dict.keys (servers (heap w))).
  pose proof (gather_steady _ _ reports_on ks o schedule ks
                (map MCPRouter.check_server_health ks) w
                (health_tasks_steady ks ks (incl_refl ks)) eq_refl) as Hreports.
  assert (Hframe : frame (servers (heap w))
                     (servers (heap (snd (gather o schedule
                                            (map MCPRouter.check_server_health ks) w))))).
  { apply gather_frame. apply Forall_forall. intros c Hc.
    apply in_map_iff in Hc. destruct Hc as (name & <- & _).
    apply disciplined_check_server_health. }
  destruct (gather o schedule (map MCPRouter.check_server_health ks) w) as [results w1].
  simpl in *. split; [|exact Hframe].
  clear Hframe. induction Hreports as [|name r names results Hr Hrest IH]; simpl.
  - constructor.
  - constructor; [|exact IH]. destruct r as [report|e]; [exact Hr|destruct Hr].
Qed.

Example health_sweep_sample :
  map (Dict.get "status")
    (fst (MCPRouter.check_all_health (oracle_of reply_500) [1%nat; 0%nat] world_ab))
  = [ Some (JStr "degraded"); Some (JStr "degraded") ].
Proof. reflexivity. Qed.

(** ** Batches and the provider table *)

Lemma disciplined_sequential lib requests results v :
  disciplined v (Gateway.sequential lib requests results).
Proof.
  revert results v. induction requests as [|req requests IH]; intros results v; simpl.
  - constructor.
  - apply disciplined_bind; [apply disciplined_call_tool|]. intros resp. apply IH.
Qed.

Lemma no_store_as_responses rs : no_store (Gateway.as_responses rs).
Proof.
  induction rs as [|r rs IH]; simpl; [constructor|].
  apply no_store_bind.
  - destruct r as [resp|e]; simpl; [constructor|].
    constructor; [reflexivity|]. intros x. constructor.
  - intros x. apply no_store_bind; [exact IH|]. intros xs. constructor.
Qed.

(** X16. A batch, in either mode and whatever the network answers and the
    order in which parallel calls complete, leaves the provider table
    with the same providers in the same order, each with its name,
    version, description, endpoint, transport, tools, resources, metadata
    and registration time: only statuses and check times can differ. *)
Theorem batch_call_keeps_providers (lib : PyLib) (o : Oracle) (schedule : list nat)
  (request : MCPBatchRequest.t) (w : World) :
  frame (servers (heap w))
    (servers (heap (snd (Gateway.batch_call lib o schedule request w)))).
Proof.
  unfold Gateway.batch_call. destruct (MCPBatchRequest.parallel request).
  - assert (Hf : frame (servers (heap w))
                   (servers (heap (snd (gather o schedule
                                          (map (Gateway.call_tool lib)
                                             (MCPBatchRequest.requests request)) w))))).
    { apply gather_frame. apply Forall_forall. intros c Hc.
      apply in_map_iff in Hc. destruct Hc as (req & <- & _).
      apply disciplined_call_tool. }
    destruct (gather o schedule _ w) as [results w1]. simpl in Hf.
    eapply frame_trans; [exact Hf|].
    apply disciplined_run with (v := None); [|exact I].
    apply no_store_disciplined, no_store_as_responses.
  - apply disciplined_run with (v := None); [|exact I]. apply disciplined_sequential.
Qed.

(** ** Discovery in the single-call endpoint *)

Lemma run_request_id o w (tid : option string) :
  exists rid w1,
    run o (if truthy tid then Ret (or_else tid "") else trigger Uuid4) w = (Ok rid, w1) /\
    heap w1 = heap w /\ trace w1 = trace w /\
    (truthy tid = true -> rid = or_else tid "").
Proof.
  destruct (truthy tid).
  - exists (or_else tid ""), w. repeat split.
  - exists (uuid o (tick w)), (consult w). repeat split. discriminate.
Qed.

(** X17. Discovery in [call_tool].  For a request that names no provider
    (the field is absent or empty): when registry discovery gives a
    provider with a non-empty name, the call is, result and world, the
    call of the same request addressed to that provider; when it gives
    none (or one named with the empty string), the answer is the
    "not found" failure, issued without any network operation or change
    to the registry, and it carries no execution time. *)
Theorem call_tool_auto_discovery (lib : PyLib) (o : Oracle) (w : World)
  (request : MCPToolCall.t) :
  truthy (MCPToolCall.server request) = false ->
  (forall s,
     MCPRegistry.first_server_with (MCPToolCall.tool request)
       (Dict.values (servers (heap w))) = Some s ->
     s <> "" ->
     run o (Gateway.call_tool lib request) w
     = run o (Gateway.call_tool lib (addressed_to s request)) w)
  /\ (truthy (MCPRegistry.first_server_with (MCPToolCall.tool request)
                (Dict.values (servers (heap w)))) = false ->
      exists rid w',
        run o (Gateway.call_tool lib request) w
        = (Ok (tool_not_found rid (MCPToolCall.tool request)), w') /\
        (truthy (MCPToolCall.trace_id request) = true ->
         rid = or_else (MCPToolCall.trace_id request) "") /\
        heap w' = heap w /\ trace w' = trace w).
Proof.
  intros Hserver.
  destruct (run_request_id o w (MCPToolCall.trace_id request))
    as (rid & w1 & Hrid & Hheap & Htrace & Hecho).
  split.
  - intros s Hfound Hne. apply String.eqb_neq in Hne.
    unfold Gateway.call_tool.
    cbn [addressed_to MCPToolCall.server MCPToolCall.tool MCPToolCall.arguments
           MCPToolCall.session_id MCPToolCall.trace_id].
    rewrite Hserver. rewrite !(run_bind o _ _ (if truthy _ then _ else _)).
    rewrite Hrid. cbv beta iota.
    rewrite !(run_bind o _ _ (trigger UtcNow)).
    change (run o (trigger UtcNow) w1) with (Ok (clock o (tick w1)), consult w1).
    cbv beta iota. rewrite !run_try_except.
    rewrite (run_bind o _ _ (MCPRegistry.find_tool_server _)).
    change (run o (MCPRegistry.find_tool_server (MCPToolCall.tool request)) (consult w1))
      with (Ok (MCPRegistry.first_server_with (MCPToolCall.tool request)
                  (Dict.values (servers (heap w1)))), consult w1).
    cbv beta iota. rewrite Hheap, Hfound.
    unfold truthy, or_else. rewrite Hne. reflexivity.
  - intros Hnone. exists rid, (consult w1).
    split; [|split; [exact Hecho|split; simpl; assumption]].
    unfold Gateway.call_tool. rewrite Hserver.
    rewrite run_bind, Hrid. cbv beta iota.
    rewrite run_bind.
    change (run o (trigger UtcNow) w1) with (Ok (clock o (tick w1)), consult w1).
    cbv beta iota. rewrite run_try_except, run_bind.
    change (run o (MCPRegistry.find_tool_server (MCPToolCall.tool request)) (consult w1))
      with (Ok (MCPRegistry.first_server_with (MCPToolCall.tool request)
                  (Dict.values (servers (heap w1)))), consult w1).
    cbv beta iota. rewrite Hheap, Hnone. reflexivity.
Qed.

Lemma call_tool_auto_discovery_witness :
  run (oracle_of reply_ok) (Gateway.call_tool lib0 (sample_request None "z")) world_ab
  = run (oracle_of reply_ok)
      (Gateway.call_tool lib0 (addressed_to "b" (sample_request None "z"))) world_ab.
Proof.
  apply (call_tool_auto_discovery lib0 (oracle_of reply_ok) world_ab
           (sample_request None "z") eq_refl).
  - reflexivity.
  - discriminate.
Defined.
(** ** The registration endpoints *)


(** With the mirror of [oracle_redis_lost] the endpoint answers 500, and
    the provider is registered. *)
Example register_server_500_sample :
  let registration :=
    {| ServerRegistration.name := "a"; ServerRegistration.version := "1.0";
       ServerRegistration.description := "first"; ServerRegistration.endpoint := "http://a";
       ServerRegistration.transport := "http"; ServerRegistration.tools := [];
       ServerRegistration.resources := []; ServerRegistration.metadata := [] |} in
  let outcome := run oracle_redis_lost (Gateway.register_server lib0 registration) world0 in
  fst outcome = Ok (StatusError 500 "Connection lost") /\
  Dict.keys (servers (heap (snd outcome))) = ["a"].
Proof. split; reflexivity. Qed.

(** ** The lookup endpoints *)

(** X20. The provider lookup endpoint answers 404 exactly for a name that
    is not registered and otherwise 200 with the provider's dictionary
    (which is never empty, so the endpoint's emptiness test only catches
    the unknown name); the world is unchanged. *)
Theorem get_server_404_only_for_unknown (lib : PyLib) (o : Oracle) (w : World)
  (server_name : string) :
  run o (Gateway.get_server lib server_name) w
  = (Ok match Dict.get server_name (servers (heap w)) with
        | Some server => Status200 (MCPServerInfo.to_dict lib server)
        | None => StatusError 404 ("Server " ++ server_name ++ " not found")
        end, w).
Proof.
  unfold Gateway.get_server. rewrite run_bind.
  unfold MCPRegistry.get_server. rewrite run_bind. simpl run at 1. cbv beta iota.
  destruct (Dict.get server_name (servers (heap w))); reflexivity.
Qed.

(** X21. The tool lookup endpoint leaves the world unchanged.  It answers
    404 when no registered provider declares the tool, and also when the
    first declaring provider is registered under the empty name; every
    200 answer names a registered provider with a non-empty name that
    declares the tool and before which, in registry order, no provider
    declares it. *)
Theorem find_tool_server_endpoint (o : Oracle) (w : World) (tool_name : string) :
  let registered := Dict.values (servers (heap w)) in
  exists r,
    run o (Gateway.find_tool_server tool_name) w = (Ok r, w) /\
    ((forall s, In s registered -> ~ declares tool_name s) ->
     r = StatusError 404 ("Tool " ++ tool_name ++ " not found")) /\
    (forall before s after,
       registered = (before ++ s :: after)%list ->
       declares tool_name s ->
       (forall s', In s' before -> ~ declares tool_name s') ->
       r = if (MCPServerInfo.name s =? "")%string
           then StatusError 404 ("Tool " ++ tool_name ++ " not found")
           else Status200 [ ("tool", JStr tool_name);
                            ("server", JStr (MCPServerInfo.name s)) ]).
Proof.
  intros registered.
  exists (if negb (truthy (MCPRegistry.first_server_with tool_name registered))
          then StatusError 404 ("Tool " ++ tool_name ++ " not found")
          else Status200
                 [ ("tool", JStr tool_name);
                   ("server",
                    JStr (or_else (MCPRegistry.first_server_with tool_name registered) "")) ]).
  split; [|split].
  - unfold Gateway.find_tool_server. rewrite run_bind.
    change (run o (MCPRegistry.find_tool_server tool_name) w)
      with (Ok (MCPRegistry.first_server_with tool_name registered), w).
    cbv beta iota.
    destruct (negb (truthy (MCPRegistry.first_server_with tool_name registered)));
      reflexivity.
  - intros Hnone. apply first_server_with_None in Hnone. now rewrite Hnone.
  - intros before s after Hsplit Hd Hbefore.
    rewrite Hsplit, (first_server_with_first tool_name before s after Hd Hbefore).
    unfold truthy, or_else. now destruct (MCPServerInfo.name s =? "")%string.
Qed.
(** ** The resource endpoint *)

(** X22. The resource endpoint never raises and never changes the
    provider table.  Its response carries a fresh uuid as id and no
    execution time; it is a success naming the requested provider
    exactly when the router returned, and otherwise a failure whose error
    is the message of the router's exception, with no result and no
    provider. *)
Theorem read_resource_endpoint_never_raises (lib : PyLib) (o : Oracle) (w : World)
  (request : MCPResourceRead.t) :
  exists resp w',
    run o (Gateway.read_resource lib request) w = (Ok resp, w') /\
    servers (heap w') = servers (heap w) /\
    MCPResponse.id resp = uuid o (tick w) /\
    MCPResponse.execution_time_ms resp = None /\
    match fst (run o (MCPRouter.read_resource lib (MCPResourceRead.server request)
                        (MCPResourceRead.uri request)
                        (MCPResourceRead.session_id request)) (consult w)) with
    | Ok contents =>
        MCPResponse.success resp = true /\ MCPResponse.result resp = contents /\
        MCPResponse.error resp = None /\
        MCPResponse.server resp = Some (MCPResourceRead.server request)
    | Err e =>
        MCPResponse.success resp = false /\ MCPResponse.result resp = JNull /\
        MCPResponse.error resp = Some (str_exn e) /\
        MCPResponse.server resp = None
    end.
Proof.
  unfold Gateway.read_resource. rewrite run_bind.
  change (run o (trigger Uuid4) w) with (Ok (uuid o (tick w)), consult w).
  cbv beta iota. rewrite run_try_except, run_bind.
  pose proof (read_resource_frame lib (MCPResourceRead.server request)
                (MCPResourceRead.uri request) (MCPResourceRead.session_id request)
                o (consult w)) as Hkeep.
  destruct (run o (MCPRouter.read_resource lib (MCPResourceRead.server request)
                     (MCPResourceRead.uri request) (MCPResourceRead.session_id request))
              (consult w)) as [[contents|e] w1];
    simpl in Hkeep; eexists; exists w1; simpl; repeat split; auto.
Qed.
(** ** Health checks and dispatch *)

Lemma quiet_ret A (a : A) : quiet (Ret a).
Proof. intros o w. reflexivity. Qed.

Lemma quiet_throw A e : quiet (@Throw A e).
Proof. intros o w. reflexivity. Qed.

Lemma quiet_bind A B (c : Co A) (f : A -> Co B) :
  quiet c -> (forall a, quiet (f a)) -> quiet (bind c f).
Proof.
  intros Hc Hf o w. rewrite run_bind. specialize (Hc o w).
  destruct (run o c w) as [[a|e] w1]; simpl in Hc; [|exact Hc].
  now rewrite Hf.
Qed.

Lemma quiet_update_server_status name status :
  quiet (MCPRegistry.update_server_status name status).
Proof.
  intros o w. destruct (Dict.get name (servers (heap w))) as [server|] eqn:E.
  - now rewrite (run_update_server_status_known o w name status server E).
  - now rewrite (run_update_server_status_unknown o w name status E).
Qed.

Lemma quiet_unwrap lib field result : quiet (MCPRouter.unwrap lib field result).
Proof.
  unfold MCPRouter.unwrap. destruct result as [| | |s|l|d]; try apply quiet_throw.
  - destruct (contains "error" s); apply quiet_throw.
  - destruct (holds_error l); apply quiet_throw.
  - destruct (Dict.mem "error" d).
    + destruct (Dict.get_default "error" JNull d); apply quiet_throw.
    + destruct (Dict.get_default "result" (JObj []) d);
        first [apply quiet_throw|apply quiet_ret].
Qed.

Lemma quiet_after_response lib url field r :
  quiet (raise_for_status lib url r ;;
         result <- response_json lib r ;;
         MCPRouter.unwrap lib field result).
Proof.
  apply quiet_bind.
  - unfold raise_for_status. destruct (_ && _); [apply quiet_ret|apply quiet_throw].
  - intros _. apply quiet_bind.
    + unfold response_json. destruct (json_body r); [apply quiet_ret|apply quiet_throw].
    + intros result. apply quiet_unwrap.
Qed.

(** A dispatch to an available http provider issues exactly one request,
    whatever the answer. *)
Lemma call_tool_one_request lib o w server_name tool_name arguments session_id trace_id
  server :
  Dict.get server_name (servers (heap w)) = Some server ->
  MCPServerInfo.status server = "available" ->
  MCPServerInfo.transport server = "http" ->
  trace (snd (run o (MCPRouter.call_tool lib server_name tool_name arguments
                       session_id trace_id) w))
  = (trace w ++ [Http_post (MCPServerInfo.endpoint server ++ "/mcp")
                  (MCPRouter.tools_call_request tool_name arguments session_id trace_id)])%list.
Proof.
  intros Hget Hstatus Htransport. unfold MCPRouter.call_tool.
  rewrite run_bind. simpl run at 1. cbv beta iota.
  rewrite Hget, Hstatus. simpl negb. cbv iota.
  rewrite run_bind, run_get_client. cbv beta iota.
  rewrite run_try_except, Htransport. simpl String.eqb. cbv iota.
  rewrite run_bind, run_client_post, tick_client_ready.
  assert (Hhandler : forall (e : exn) w1,
             trace (snd (run o
                           match e with
                           | HTTPStatusError _ _ =>
                               MCPRegistry.update_server_status server_name "degraded" ;;
                               Throw e
                           | ConnectError _ =>
                               MCPRegistry.update_server_status server_name "unavailable" ;;
                               Throw e
                           | _ => @Throw json e
                           end w1)) = trace w1).
  { intros e w1. destruct e; try reflexivity;
      (apply quiet_bind; [apply quiet_update_server_status|intros; apply quiet_throw]). }
  destruct (http_reply o (tick w)) as [r|msg|msg|msg]; cbv beta iota.
  2: { etransitivity; [exact (Hhandler (ConnectError msg) _)|].
       simpl. now rewrite trace_client_ready. }
  2-3: simpl; now rewrite trace_client_ready.
  match goal with |- context [run o ?c ?w1] =>
    pose proof (quiet_after_response lib (MCPServerInfo.endpoint server ++ "/mcp")
                  "content" r o w1) as Hq;
    destruct (run o c w1) as [[content|e] w2]
  end; simpl in Hq.
  - simpl. rewrite Hq. simpl. now rewrite trace_client_ready.
  - rewrite Hhandler, Hq. simpl. now rewrite trace_client_ready.
Qed.

(** A dispatch to a provider that is not available is refused with the
    world as it was. *)
Lemma call_tool_refused lib o w server_name tool_name arguments session_id trace_id server :
  Dict.get server_name (servers (heap w)) = Some server ->
  MCPServerInfo.status server <> "available" ->
  run o (MCPRouter.call_tool lib server_name tool_name arguments session_id trace_id) w
  = (Err (ValueError ("Server " ++ server_name ++ " is not available (status: "
                        ++ MCPServerInfo.status server ++ ")")), w).
Proof.
  intros Hget Hstatus. apply String.eqb_neq in Hstatus.
  unfold MCPRouter.call_tool. rewrite run_bind. simpl run at 1. cbv beta iota.
  rewrite Hget, Hstatus. reflexivity.
Qed.

(** The world a probe of an http provider leaves. *)
Lemma check_server_health_world o w server_name server :
  Dict.get server_name (servers (heap w)) = Some server ->
  MCPServerInfo.transport server = "http" ->
  snd (run o (MCPRouter.check_server_health server_name) w)
  = status_written o server_name (probe_status (http_reply o (tick w)))
      (issue (Http_get (MCPServerInfo.endpoint server ++ "/health")) (client_ready w)).
Proof.
  intros Hget Htransport.
  assert (Hget' : Dict.get server_name
                    (servers (heap (issue (Http_get (MCPServerInfo.endpoint server ++ "/health"))
                                      (client_ready w)))) = Some server).
  { simpl. now rewrite servers_client_ready. }
  destruct (http_reply o (tick w)) as [r|msg|msg|msg] eqn:Hreply;
    probe_health Hget Htransport Hreply; simpl probe_status.
  - destruct (status_code r =? 200);
      rewrite run_bind, (run_update_server_status_known o _ server_name _ server Hget');
      reflexivity.
  - rewrite run_bind, (run_update_server_status_known o _ server_name _ server Hget').
    reflexivity.
  - rewrite run_bind, (run_update_server_status_known o _ server_name _ server Hget').
    reflexivity.
  - rewrite run_bind, (run_update_server_status_known o _ server_name _ server Hget').
    reflexivity.
Qed.

(** X23. The last probe decides whether a provider can be called.  After
    a health check of a registered http provider, whatever its status
    before: when the probe was answered with status 200, every following
    [call_tool] to the provider sends its one request to the provider;
    when the probe got any other answer or failed, every following
    [call_tool] is refused with a [ValueError] without a request and
    without a change to the registry, whatever the provider would answer
    now. *)
Theorem health_check_decides_dispatch (lib : PyLib) (o : Oracle) (w : World)
  (server_name : string) (server : MCPServerInfo.t) :
  Dict.get server_name (servers (heap w)) = Some server ->
  MCPServerInfo.transport server = "http" ->
  let w1 := snd (run o (MCPRouter.check_server_health server_name) w) in
  (forall r, http_reply o (tick w) = Responded r -> status_code r = 200 ->
     forall o' tool_name arguments session_id trace_id,
       trace (snd (run o' (MCPRouter.call_tool lib server_name tool_name arguments
                             session_id trace_id) w1))
       = (trace w1 ++ [Http_post (MCPServerInfo.endpoint server ++ "/mcp")
                        (MCPRouter.tools_call_request tool_name arguments
                           session_id trace_id)])%list)
  /\ ((forall r, http_reply o (tick w) = Responded r -> status_code r <> 200) ->
      forall o' tool_name arguments session_id trace_id,
      exists msg,
        run o' (MCPRouter.call_tool lib server_name tool_name arguments
                  session_id trace_id) w1 = (Err (ValueError msg), w1)).
Proof.
  intros Hget Htransport w1.
  assert (Hget1 : Dict.get server_name (servers (heap w1))
                  = Some (touch (probe_status (http_reply o (tick w)))
                            (clock o (S (tick w))) server)).
  { unfold w1. rewrite (check_server_health_world o w server_name server Hget Htransport).
    rewrite (get_status_written o _ server_name _ server).
    - simpl. now rewrite tick_client_ready.
    - simpl. now rewrite servers_client_ready. }
  clearbody w1. split.
  - intros r Hreply Hcode o' tool_name arguments session_id trace_id.
    rewrite Hreply in Hget1. simpl in Hget1. rewrite Hcode in Hget1. simpl in Hget1.
    now rewrite (call_tool_one_request lib o' w1 server_name tool_name arguments
                   session_id trace_id _ Hget1 eq_refl Htransport).
  - intros Hnot o' tool_name arguments session_id trace_id. eexists.
    apply (call_tool_refused lib o' w1 server_name tool_name arguments
             session_id trace_id _ Hget1).
    simpl. destruct (http_reply o (tick w)) as [r|msg|msg|msg]; simpl; try discriminate.
    specialize (Hnot r eq_refl). apply Z.eqb_neq in Hnot. rewrite Hnot. discriminate.
Qed.

Lemma health_check_decides_dispatch_witness :
  let w1 := snd (run (oracle_of reply_500) (MCPRouter.check_server_health "a") world_a) in
  exists msg,
    run (oracle_of reply_ok) (MCPRouter.call_tool lib0 "a" "x" [] None None) w1
    = (Err (ValueError msg), w1).
Proof.
  destruct (health_check_decides_dispatch lib0 (oracle_of reply_500) world_a "a" server_a
              eq_refl eq_refl) as [_ H].
  apply H. intros r Hr. injection Hr as <-. discriminate.
Defined.
(** ** The callers of the gateway *)

Lemma run_caller_get_client o w : run o get_client w = (Ok tt, client_ready w).
Proof.
  unfold get_client, client_ready. simpl. now destruct (_http_client (heap w)).
Qed.

Lemma andb_2xx r :
  (200 <=? status_code r) && (status_code r <=? 299) = true -> 200 <= status_code r <= 299.
Proof. intros H. apply andb_true_iff in H. destruct H. split; now apply Z.leb_le. Qed.

(** One guarded request to the gateway: the exception handler turns every
    failure into [None]. *)
Lemma run_guarded_call lib o w url payload :
  exists v,
    run o (try_except
             (response <- client_post url payload ;;
              raise_for_status lib url response ;;
              result <- response_json lib response ;;
              successful_result result)
             (fun _ => Ret JNull)) w
    = (Ok v, issue (Http_post url payload) w) /\
    (v <> JNull ->
     exists d, answered_with o w d /\
               json_truthy (Dict.get_default "success" JNull d) = true /\
               v = Dict.get_default "result" JNull d).
Proof.
  rewrite run_try_except, run_bind, run_client_post.
  destruct (http_reply o (tick w)) as [r|msg|msg|msg] eqn:Hreply; cbv beta iota.
  2-4: exists JNull; split; [reflexivity|intros H; now destruct H].
  rewrite run_bind. unfold raise_for_status.
  destruct ((200 <=? status_code r) && (status_code r <=? 299)) eqn:Hcode.
  2: { exists JNull. split; [reflexivity|intros H; now destruct H]. }
  simpl run at 1. cbv beta iota. rewrite run_bind. unfold response_json.
  destruct (json_body r) as [body|] eqn:Hbody.
  2: { exists JNull. split; [reflexivity|intros H; now destruct H]. }
  simpl run at 1. cbv beta iota.
  destruct body as [| | | | |d];
    try (exists JNull; split; [reflexivity|intros H; now destruct H]).
  unfold successful_result.
  destruct (json_truthy (Dict.get_default "success" JNull d)) eqn:Hsuccess.
  - exists (Dict.get_default "result" JNull d). split; [reflexivity|].
    intros _. exists d. split; [|split; [exact Hsuccess|reflexivity]].
    exists r. split; [exact Hreply|]. split; [now apply andb_2xx|exact Hbody].
  - exists JNull. split; [reflexivity|intros H; now destruct H].
Qed.

(** X24. The [call_mcp_tool] helpers of the context aggregator and of
    the agent factory never raise and send exactly one POST to the
    gateway's call endpoint; the agent factory's body names no provider.
    They return something other than [None] only when the gateway
    answered with a 2xx status and a JSON object whose ["success"] entry
    is truthy, and then return its ["result"] entry: a connection
    failure, a timeout, an error status, an unreadable body and a
    reported failure all look the same to the caller. *)
Theorem call_mcp_tool_hides_failures (lib : PyLib) (o : Oracle) (w : World)
  (gateway_url server tool : string) (arguments : Dict.t json) :
  let url := gateway_url ++ "/api/mcp/call" in
  (exists v,
     run o (ContextAggregator.call_mcp_tool lib gateway_url server tool arguments) w
     = (Ok v, issue (Http_post url (aggregator_call server tool arguments)) (client_ready w)) /\
     (v <> JNull ->
      exists d, answered_with o w d /\
                json_truthy (Dict.get_default "success" JNull d) = true /\
                v = Dict.get_default "result" JNull d))
  /\ (exists v,
        run o (AgentFactory.call_mcp_tool lib gateway_url tool arguments) w
        = (Ok v, issue (Http_post url (factory_call tool arguments)) (client_ready w)) /\
        (v <> JNull ->
         exists d, answered_with o w d /\
                   json_truthy (Dict.get_default "success" JNull d) = true /\
                   v = Dict.get_default "result" JNull d)).
Proof.
  intros url.
  assert (Hsame : forall d, answered_with o (client_ready w) d -> answered_with o w d).
  { intros d (r & Hr & H). exists r. now rewrite <- tick_client_ready. }
  split.
  - unfold ContextAggregator.call_mcp_tool. rewrite run_bind, run_caller_get_client.
    cbv beta iota zeta.
    destruct (run_guarded_call lib o (client_ready w) url (aggregator_call server tool arguments))
      as (v & Hrun & Hv).
    exists v. split; [exact Hrun|]. intros Hne.
    destruct (Hv Hne) as (d & Hd & H). exists d. split; [now apply Hsame|exact H].
  - unfold AgentFactory.call_mcp_tool. rewrite run_bind, run_caller_get_client.
    cbv beta iota zeta.
    destruct (run_guarded_call lib o (client_ready w) url (factory_call tool arguments))
      as (v & Hrun & Hv).
    exists v. split; [exact Hrun|]. intros Hne.
    destruct (Hv Hne) as (d & Hd & H). exists d. split; [now apply Hsame|exact H].
Qed.

(** The gateway reports a failed tool call with status 200 and
    ["success": false]: the caller gets [None]. *)
Example call_mcp_tool_on_reported_failure :
  fst (run (oracle_of (reply_json [ ("id", JStr "1"); ("success", JBool false);
                                    ("error", JStr "Server not found: nowhere") ]))
         (ContextAggregator.call_mcp_tool lib0 "http://gateway" "nowhere" "x" []) world0)
  = Ok JNull.
Proof. reflexivity. Qed.

(** X25. [get_available_tools] of the agent factory never raises and
    sends exactly one GET to the gateway's tool list.  It returns
    something other than the empty list only when the gateway answered
    with a 2xx status and a JSON object, and then returns its ["tools"]
    entry. *)
Theorem get_available_tools_hides_failures (lib : PyLib) (o : Oracle) (w : World)
  (gateway_url : string) :
  exists v,
    run o (AgentFactory.get_available_tools lib gateway_url) w
    = (Ok v, issue (Http_get (gateway_url ++ "/api/mcp/tools")) (client_ready w)) /\
    (v <> JList [] ->
     exists d, answered_with o w d /\ v = Dict.get_default "tools" (JList []) d).
Proof.
  unfold AgentFactory.get_available_tools. rewrite run_bind, run_caller_get_client.
  cbv beta iota zeta.
  rewrite run_try_except, run_bind, run_client_get, tick_client_ready.
  destruct (http_reply o (tick w)) as [r|msg|msg|msg] eqn:Hreply; cbv beta iota.
  2-4: exists (JList []); split; [reflexivity|intros H; now destruct H].
  rewrite run_bind. unfold raise_for_status.
  destruct ((200 <=? status_code r) && (status_code r <=? 299)) eqn:Hcode.
  2: { exists (JList []). split; [reflexivity|intros H; now destruct H]. }
  simpl run at 1. cbv beta iota. rewrite run_bind. unfold response_json.
  destruct (json_body r) as [body|] eqn:Hbody.
  2: { exists (JList []). split; [reflexivity|intros H; now destruct H]. }
  simpl run at 1. cbv beta iota.
  destruct body as [| | | | |d];
    try (exists (JList []); split; [reflexivity|intros H; now destruct H]).
  exists (Dict.get_default "tools" (JList []) d). split; [reflexivity|].
  intros _. exists d. split; [|reflexivity].
  exists r. split; [exact Hreply|]. split; [now apply andb_2xx|exact Hbody].
Qed.
(** ** The connection to the mirror *)

(** X26. [_get_redis] never raises and never changes the provider table,
    and it returns what it leaves in [self._redis].  A cached client is
    returned as it is, with the world unchanged.  Without one, a client
    is returned only when [REDIS_URL] is set and not empty and both the
    connection and the ping succeeded; a failure is not remembered, so
    the next call tries again. *)
Theorem get_redis_connects_lazily (o : Oracle) (w : World) :
  exists r w',
    run o MCPRegistry._get_redis w = (Ok r, w') /\
    _redis (heap w') = r /\
    servers (heap w') = servers (heap w) /\
    (_redis (heap w) <> None -> r = _redis (heap w) /\ w' = w) /\
    (_redis (heap w) = None ->
     forall url, r = Some url <->
       environ o "REDIS_URL" = Some url /\ url <> "" /\
       redis_reply o (tick w) = None /\ redis_reply o (S (tick w)) = None).
Proof. exact (get_redis_outcome o w). Qed.

(** A mirror that refuses the first connection and accepts the second:
    the first registration goes unmirrored, the second is mirrored. *)
Example mirror_is_retried :
  let o := {| clock := fun n => Z.of_nat n;
              uuid := fun _ => "uuid";
              environ := fun _ => Some "redis://cache";
              redis_reply := fun n => if (n <=? 2)%nat then Some "refused" else None;
              http_reply := fun _ => reply_ok |} in
  let w1 := snd (run o (MCPRegistry.register lib0 "a" "1.0" "first" "http://a" "http"
                          None None None) world0) in
  let w2 := snd (run o (MCPRegistry.register lib0 "b" "1.0" "second" "http://b" "http"
                          None None None) w1) in
  trace w1 = [Redis_from_url "redis://cache"] /\
  _redis (heap w1) = None /\
  _redis (heap w2) = Some "redis://cache" /\
  List.length (trace w2) = 4%nat.
Proof. repeat split. Qed.
